(** * streamparse: [streamparse/cli/submit.py]

    A shallow embedding of the [submit] command of streamparse and the
    properties of its submission sequence: the safety check on the listing
    of running topologies, the kill-and-poll phase, the assembly of the
    [lein] command line and the order of the orchestrator's steps.

    Text is modelled as Python 3 [str] restricted to code points below 256:
    a Rocq [string] is the sequence of its code points.  Everything the
    module calls but does not define ([invoke.run], the helpers of
    [streamparse.util] and [streamparse.cli.common], [_list_topologies],
    [_kill_topology], [ssh_tunnel], the user's [tasks.py] and [fabfile.py])
    is an entry of the record [oracle], and every such call leaves an event
    in the trace of the process state.  A collaborator is known by what it
    answers: a hook returns or raises, and what it does to the process
    besides is not modelled.  [print] stands for the message and the
    [sys.stdout.flush()] after it.  The [while] loop of the kill phase has no
    bound in the source; the model gives it fuel, and a run that uses it up
    ends as [OutOfFuel]. *)

From Stdlib Require Import String Ascii ZArith QArith List DecimalString Lia.
From stdpp Require Import base strings gmap list.

Local Open Scope Z_scope.

(** ** Python text and values *)

Module Py.

(** Characters that have no printable literal. *)
Definition nl : string := String "010" "".
Definition dq : string := String "034" "".

(** [str.isspace] on one code point below 256: TAB..CR, FS..US, SPACE,
    NEL and NBSP.  [str.split()], [str.strip()] and the [\s] class of
    [re] all use this set. *)
Definition isspace (c : ascii) : bool :=
  let n := nat_of_ascii c in
  ((9 <=? n) && (n <=? 13) || (28 <=? n) && (n <=? 32)
   || (n =? 133) || (n =? 160))%nat.

Definition isdigit (c : ascii) : bool :=
  let n := nat_of_ascii c in ((48 <=? n) && (n <=? 57))%nat.

Definition isalpha_ascii (c : ascii) : bool :=
  let n := nat_of_ascii c in
  ((65 <=? n) && (n <=? 90) || (97 <=? n) && (n <=? 122))%nat.

(** [str.lower] on one code point below 256. *)
Definition lower_char (c : ascii) : ascii :=
  let n := nat_of_ascii c in
  if ((65 <=? n) && (n <=? 90)
      || (192 <=? n) && (n <=? 222) && negb (n =? 215))%nat
  then ascii_of_nat (n + 32) else c.

Fixpoint lower (s : string) : string :=
  match s with
  | EmptyString => EmptyString
  | String c t => String (lower_char c) (lower t)
  end.

Definition mem_char (c : ascii) (chars : string) : bool :=
  existsb (Ascii.eqb c) (list_ascii_of_string chars).

(** [s.lstrip(chars)] and [s.rstrip(chars)], [chars] given as a
    predicate. *)
Fixpoint lstrip_by (p : ascii -> bool) (s : string) : string :=
  match s with
  | EmptyString => EmptyString
  | String c t => if p c then lstrip_by p t else s
  end.

Fixpoint rstrip_by (p : ascii -> bool) (s : string) : string :=
  match s with
  | EmptyString => EmptyString
  | String c t =>
      match rstrip_by p t with
      | EmptyString => if p c then EmptyString else String c EmptyString
      | t' => String c t'
      end
  end.

Definition lstrip (chars s : string) : string :=
  lstrip_by (fun c => mem_char c chars) s.
Definition rstrip (chars s : string) : string :=
  rstrip_by (fun c => mem_char c chars) s.
(** [s.strip()] *)
Definition strip (s : string) : string :=
  rstrip_by isspace (lstrip_by isspace s).

(** [s.split()]: the maximal runs of non-blank characters. *)
Fixpoint split_ws (s : string) : list string :=
  match s with
  | EmptyString => []
  | String c t =>
      if isspace c then split_ws t
      else match t with
           | EmptyString => [String c EmptyString]
           | String c' _ =>
               if isspace c' then String c EmptyString :: split_ws t
               else match split_ws t with
                    | h :: r => String c h :: r
                    | [] => [String c EmptyString]
                    end
           end
  end.

(** [s.split(sep)] for a separator of one character. *)
Fixpoint split_on (sep : ascii) (s : string) : list string :=
  match s with
  | EmptyString => [EmptyString]
  | String c t =>
      if Ascii.eqb c sep then EmptyString :: split_on sep t
      else match split_on sep t with
           | h :: r => String c h :: r
           | [] => [String c EmptyString]
           end
  end.

(** [s.endswith(suffix)] *)
Fixpoint endswith (s suffix : string) : bool :=
  String.eqb s suffix
  || match s with
     | EmptyString => false
     | String _ t => endswith t suffix
     end.

(** [needle in s] *)
Fixpoint contains (needle s : string) : bool :=
  String.prefix needle s
  || match s with
     | EmptyString => false
     | String _ t => contains needle t
     end.

(** [sep.join(parts)] *)
Definition join (sep : string) (parts : list string) : string :=
  String.concat sep parts.

(** [s.split("\n")], used to speak about the lines of a listing. *)
Definition lines (s : string) : list string := split_on "010" s.

(** The values found in the configuration dictionaries. *)
#[warnings="-register-all"]
Inductive value : Type :=
| VNone
| VBool (b : bool)
| VInt (z : Z)
| VStr (s : string)
| VDict (d : gmap string value).

Abbreviation dict := (gmap string value).

(** [bool(v)] *)
Definition truthy (v : value) : bool :=
  match v with
  | VNone => false
  | VBool b => b
  | VInt z => negb (z =? 0)
  | VStr s => negb (String.eqb s "")
  | VDict d => negb (bool_decide (d = ∅))
  end.

(** [d.get(k)] and [d.get(k, default)] *)
Definition get (d : dict) (k : string) : value := default VNone (d !! k).
Definition get_default (d : dict) (k : string) (dflt : value) : value :=
  default dflt (d !! k).

(** [a or b] *)
Definition or_ (a b : value) : value := if truthy a then a else b.

(** [isinstance(v, int)]; [bool] is a subclass of [int]. *)
Definition is_int (v : value) : bool :=
  match v with VInt _ | VBool _ => true | _ => false end.

Definition str_of_Z (z : Z) : string := NilZero.string_of_int (Z.to_int z).
Definition str_of_bool (b : bool) : string := if b then "True" else "False".

(** ["{}".format(v)]; the rendering of a dictionary is not modelled. *)
Definition format_value (v : value) : option string :=
  match v with
  | VNone => Some "None"
  | VBool b => Some (str_of_bool b)
  | VInt z => Some (str_of_Z z)
  | VStr s => Some s
  | VDict _ => None
  end.

Definition format_opt {A} (f : A -> string) (o : option A) : string :=
  match o with Some a => f a | None => "None" end.

End Py.

(** ** The fragment of [re] the safety check relies on *)

Module Re.

Inductive category : Type :=
| CategorySpace | CategoryNotSpace | CategoryDigit | CategoryNotDigit.

Inductive quantifier : Type := ZeroOrOne | ZeroOrMore | OneOrMore.

(** Parsed patterns, after the operators of [sre_parse].  Greedy and
    lazy repetitions accept the same strings and [re.search] is only
    tested for truth, so [Repeat] does not record which one it is. *)
Inductive regex : Type :=
| Failure
| Empty
| Literal (c : ascii)
| AnyChar
| In (k : category)
| Sequence (r1 r2 : regex)
| Branch (r1 r2 : regex)
| Repeat (q : quantifier) (r : regex)
| Subpattern (r : regex).

(** What [re.compile] does with a pattern: a compiled pattern, the
    exception [re.error], or a construct outside the modelled fragment
    (character classes, braces, possessive repetitions, the anchors [^]
    and [$], group extensions, numeric and other alphanumeric escapes).
    The fragment has literals, the dot, [\s \S \d \D], the escapes of
    control characters and of punctuation, groups, alternatives and the
    repetitions [* + ?], greedy or lazy. *)
Inductive compiled (A : Type) : Type :=
| Compiled (p : A)
| BadPattern (msg : string)
| Unsupported.
Arguments Compiled {A} p.
Arguments BadPattern {A} msg.
Arguments Unsupported {A}.

(** The sequence being read and the alternatives already closed by a
    [|], both most recent first. *)
Record frame : Type := Frame { branches : list regex; items : list regex }.

Definition empty_frame : frame := Frame [] [].

Definition sequence (ritems : list regex) : regex :=
  fold_left (fun acc it => Sequence it acc) ritems Empty.

Definition close (f : frame) : regex :=
  fold_left (fun acc b => Branch b acc) (branches f) (sequence (items f)).

Definition push (it : regex) (f : frame) : frame :=
  Frame (branches f) (it :: items f).

Definition next_branch (f : frame) : frame :=
  Frame (sequence (items f) :: branches f) [].

(** SPECIAL_CHARS of [sre_parse]. *)
Definition special (c : ascii) : bool := Py.mem_char c ".\[{()*+?^$|".

Definition quantifier_of (c : ascii) : option quantifier :=
  if Ascii.eqb c "?" then Some ZeroOrOne
  else if Ascii.eqb c "*" then Some ZeroOrMore
  else if Ascii.eqb c "+" then Some OneOrMore
  else None.

(** The character after a backslash. *)
Definition escape (e : ascii) : compiled regex :=
  if Ascii.eqb e "s" then Compiled (In CategorySpace)
  else if Ascii.eqb e "S" then Compiled (In CategoryNotSpace)
  else if Ascii.eqb e "d" then Compiled (In CategoryDigit)
  else if Ascii.eqb e "D" then Compiled (In CategoryNotDigit)
  else if Ascii.eqb e "a" then Compiled (Literal "007")
  else if Ascii.eqb e "f" then Compiled (Literal "012")
  else if Ascii.eqb e "n" then Compiled (Literal "010")
  else if Ascii.eqb e "r" then Compiled (Literal "013")
  else if Ascii.eqb e "t" then Compiled (Literal "009")
  else if Ascii.eqb e "v" then Compiled (Literal "011")
  else if Py.isalpha_ascii e || Py.isdigit e then Unsupported
  else Compiled (Literal e).

(** The parser, left to right; [stack] holds the frames of the groups
    that are still open. *)
Fixpoint parse (src : list ascii) (cur : frame) (stack : list frame)
  : compiled regex :=
  match src with
  | [] =>
      match stack with
      | [] => Compiled (close cur)
      | _ :: _ => BadPattern "missing ), unterminated subpattern"
      end
  | c :: rest =>
      if Ascii.eqb c "\" then
        match rest with
        | [] => BadPattern "bad escape (end of pattern)"
        | e :: rest' =>
            match escape e with
            | Compiled it => parse rest' (push it cur) stack
            | BadPattern msg => BadPattern msg
            | Unsupported => Unsupported
            end
        end
      else if Ascii.eqb c "|" then parse rest (next_branch cur) stack
      else if Ascii.eqb c "(" then
        match rest with
        | "?"%char :: _ => Unsupported
        | _ => parse rest empty_frame (cur :: stack)
        end
      else if Ascii.eqb c ")" then
        match stack with
        | [] => BadPattern "unbalanced parenthesis"
        | parent :: stack' =>
            parse rest (push (Subpattern (close cur)) parent) stack'
        end
      else
        match quantifier_of c with
        | Some q =>
            match items cur with
            | [] => BadPattern "nothing to repeat"
            | Repeat _ _ :: _ => BadPattern "multiple repeat"
            | it :: its =>
                let cur' := Frame (branches cur) (Repeat q it :: its) in
                match rest with
                | "?"%char :: rest' => parse rest' cur' stack
                | "+"%char :: _ => Unsupported
                | _ => parse rest cur' stack
                end
            end
        | None =>
            if Ascii.eqb c "." then parse rest (push AnyChar cur) stack
            else if special c then Unsupported
            else parse rest (push (Literal c) cur) stack
        end
  end.

(** [re.compile(pattern)] *)
Definition compile (pattern : string) : compiled regex :=
  parse (list_ascii_of_string pattern) empty_frame [].

Definition in_category (k : category) (c : ascii) : bool :=
  match k with
  | CategorySpace => Py.isspace c
  | CategoryNotSpace => negb (Py.isspace c)
  | CategoryDigit => Py.isdigit c
  | CategoryNotDigit => negb (Py.isdigit c)
  end.

(** The strings a pattern matches in full. *)
Inductive matches : regex -> list ascii -> Prop :=
| m_empty : matches Empty []
| m_literal c : matches (Literal c) [c]
| m_any c : c <> "010"%char -> matches AnyChar [c]
| m_in k c : in_category k c = true -> matches (In k) [c]
| m_sequence r1 r2 s1 s2 :
    matches r1 s1 -> matches r2 s2 -> matches (Sequence r1 r2) (s1 ++ s2)
| m_branch_l r1 r2 s : matches r1 s -> matches (Branch r1 r2) s
| m_branch_r r1 r2 s : matches r2 s -> matches (Branch r1 r2) s
| m_opt_none r : matches (Repeat ZeroOrOne r) []
| m_opt_some r s : matches r s -> matches (Repeat ZeroOrOne r) s
| m_star_nil r : matches (Repeat ZeroOrMore r) []
| m_star_more r s1 s2 :
    matches r s1 -> matches (Repeat ZeroOrMore r) s2 ->
    matches (Repeat ZeroOrMore r) (s1 ++ s2)
| m_plus r s1 s2 :
    matches r s1 -> matches (Repeat ZeroOrMore r) s2 ->
    matches (Repeat OneOrMore r) (s1 ++ s2)
| m_subpattern r s : matches r s -> matches (Subpattern r) s.

(** The matcher: derivatives of the pattern by the characters read. *)
Fixpoint nullable (r : regex) : bool :=
  match r with
  | Failure | Literal _ | AnyChar | In _ => false
  | Empty => true
  | Sequence r1 r2 => nullable r1 && nullable r2
  | Branch r1 r2 => nullable r1 || nullable r2
  | Repeat OneOrMore r => nullable r
  | Repeat _ _ => true
  | Subpattern r => nullable r
  end.

Definition step (b : bool) : regex := if b then Empty else Failure.

Fixpoint derive (c : ascii) (r : regex) : regex :=
  match r with
  | Failure | Empty => Failure
  | Literal c' => step (Ascii.eqb c c')
  | AnyChar => step (negb (Ascii.eqb c "010"))
  | In k => step (in_category k c)
  | Sequence r1 r2 =>
      if nullable r1
      then Branch (Sequence (derive c r1) r2) (derive c r2)
      else Sequence (derive c r1) r2
  | Branch r1 r2 => Branch (derive c r1) (derive c r2)
  | Repeat ZeroOrOne r => derive c r
  | Repeat _ r => Sequence (derive c r) (Repeat ZeroOrMore r)
  | Subpattern r => derive c r
  end.

(** Some prefix of [s] matches: [re.match] tested for truth. *)
Fixpoint match_here (r : regex) (s : list ascii) : bool :=
  nullable r
  || match s with
     | [] => false
     | c :: t => match_here (derive c r) t
     end.

Fixpoint search_from (r : regex) (s : list ascii) : bool :=
  match_here r s
  || match s with
     | [] => false
     | _ :: t => search_from r t
     end.

(** [re.search(pattern, text)] tested for truth. *)
Definition search (pattern : regex) (text : string) : bool :=
  search_from pattern (list_ascii_of_string text).

End Re.

(** ** The process, its trace and the collaborators *)

Inductive exn : Type :=
| RuntimeError (msg : string)
| IndexError
| KeyError (key : string)
| ValueError
| TypeError
| AttributeError
| ReError (msg : string)
| Foreign (name : string).

(** How the run of a function ends.  [Returned] and [Raised] are Python's
    two ways; [Unmodelled] marks a run that left the modelled fragment
    ([re] syntax, the rendering of a dictionary) and [OutOfFuel] a poll
    loop that was still waiting when the fuel given to it ran out. *)
Inductive outcome (A : Type) : Type :=
| Returned (a : A)
| Raised (e : exn)
| Unmodelled
| OutOfFuel.
Arguments Returned {A} a.
Arguments Raised {A} e.
Arguments Unmodelled {A}.
Arguments OutOfFuel {A}.

(** The [Result] of [invoke.run]. *)
Record result : Type := Result { ok : bool; stdout : string; stderr : string }.
Definition failed (r : result) : bool := negb (ok r).

Inductive user_file : Type := Tasks | Fabfile.
Inductive hook_name : Type := PreSubmit | PostSubmit.

(** The calls that leave the module. *)
Inductive call : Type :=
| ResolveAckersWorkers
| PrepareTopology
| GetConfig
| GetTopologyDefinition (name : option string)
| GetEnvConfig (env_name : option string)
| GetNimbusForEnvConfig
| ActivateEnv (env_name : string)
| Import (file : user_file)
| Hook (file : user_file) (hook : hook_name) (topology_name env_name : string)
| CreateOrUpdateVirtualenvs (env_name topology_name requirements : string)
| Run (command : string) (hide : option string)
| IsSshForNimbus
| SshTunnelEnter (user : Py.value) (host : option string) (local_port : Z)
    (remote_port : option Z)
| SshTunnelExit
| ListTopologies (host : option string) (port : option Z)
| KillTopology (topology_name : string) (wait : option Z)
    (host : option string) (port : option Z).

Inductive event : Type :=
| EvPrint (text : string)
| EvCall (c : call)
| EvSleep (seconds : Q)
| EvPutenv (key val : string).

(** What a collaborator answers: a value, or an exception of its own. *)
Inductive answer (A : Type) : Type :=
| Gives (a : A)
| Throws (e : exn).
Arguments Gives {A} a.
Arguments Throws {A} e.

(** An attribute looked up with [getattr(module, name, None)]. *)
Inductive attribute : Type :=
| NotCallable
| Callable (behaviour : answer unit).

Record user_module : Type :=
  UserModule { pre_submit : attribute; post_submit : attribute }.

Inductive import_result : Type :=
| Imported (m : user_module)
| ImportError
| ImportCrash (e : exn).

(** The arguments [main] receives from [argparse]. *)
Record arguments : Type := Arguments_ {
  arg_name : option string;
  arg_environment : option string;
  arg_workers : Z;
  arg_ackers : Z;
  arg_options : option (list string);
  arg_force : bool;
  arg_debug : bool;
  arg_wait : option Z
}.

(** The collaborators.  The [n]-th call of [_list_topologies] in a run
    is answered by [on_list_topologies n]; the other answers depend on the
    arguments at most. *)
Record oracle : Type := Oracle {
  on_resolve_ackers_workers : arguments -> answer arguments;
  on_prepare_topology : answer unit;
  on_get_config : answer Py.dict;
  on_get_topology_definition : option string -> answer (string * string);
  on_get_env_config : option string -> answer (string * Py.dict);
  on_get_nimbus_for_env_config :
    Py.dict -> answer (option string * option Z);
  on_activate_env : string -> answer unit;
  on_import : user_file -> import_result;
  on_create_or_update_virtualenvs : string -> string -> string -> answer unit;
  on_run : string -> answer result;
  on_is_ssh_for_nimbus : Py.dict -> answer bool;
  on_ssh_tunnel_enter : answer unit;
  on_ssh_tunnel_exit : answer unit;
  on_list_topologies : nat -> answer result;
  on_kill_topology : string -> answer unit
}.

(** The state of the process: what it has done so far, and [os.environ]. *)
Record process : Type :=
  Process { trace : list event; environ : gmap string string }.

Definition is_listing (e : event) : bool :=
  match e with EvCall (ListTopologies _ _) => true | _ => false end.

Definition is_kill (e : event) : bool :=
  match e with EvCall (KillTopology _ _ _ _) => true | _ => false end.

Definition is_hook (e : event) : bool :=
  match e with EvCall (Hook _ _ _ _) => true | _ => false end.

Definition is_post_hook (e : event) : bool :=
  match e with EvCall (Hook _ PostSubmit _ _) => true | _ => false end.

(** The launch of the submission command. *)
Definition submit_main : string :=
  "run -m streamparse.commands.submit_topology/-main".

Definition is_submission (e : event) : bool :=
  match e with
  | EvCall (Run command _) => String.prefix ("lein " +:+ submit_main) command
  | _ => false
  end.

Definition listings (t : list event) : nat :=
  length (List.filter is_listing t).

(** *** The monad of the embedding *)

Definition M (A : Type) : Type := process -> outcome A * process.

Definition ret {A} (a : A) : M A := fun s => (Returned a, s).
Definition raise {A} (e : exn) : M A := fun s => (Raised e, s).
Definition unmodelled {A} : M A := fun s => (Unmodelled, s).
Definition out_of_fuel {A} : M A := fun s => (OutOfFuel, s).

Definition bind {A B} (m : M A) (k : A -> M B) : M B :=
  fun s =>
    match m s with
    | (Returned a, s') => k a s'
    | (Raised e, s') => (Raised e, s')
    | (Unmodelled, s') => (Unmodelled, s')
    | (OutOfFuel, s') => (OutOfFuel, s')
    end.

Declare Scope py_scope.
Delimit Scope py_scope with py.
Bind Scope py_scope with M.
Notation "m ;; k" := (bind m (fun _ => k))
  (at level 100, k at level 200, right associativity, only parsing)
  : py_scope.
Local Open Scope py_scope.

Notation "'let*' x ':=' m 'in' k" := (bind m (fun x => k))
  (at level 10, x name, m at level 100, k at level 200, only parsing).
Notation "'let*' ' p ':=' m 'in' k" := (bind m (fun x => let 'p := x in k))
  (at level 10, p pattern, m at level 100, k at level 200, only parsing).

Definition log (e : event) : M unit :=
  fun s => (Returned tt, Process (trace s ++ [e]) (environ s)).

(** [print(text)], with the [sys.stdout.flush()] that follows it. *)
Definition print (text : string) : M unit := log (EvPrint text).

Definition reply {A} (a : answer A) : M A :=
  match a with Gives x => ret x | Throws e => raise e end.

(** A call of a collaborator. *)
Definition ask {A} (c : call) (a : answer A) : M A := log (EvCall c) ;; reply a.

(** [os.environ[key] = val] in Python 3.  The write raises [ValueError]
    and changes nothing when the name holds [=] (illegal environment
    variable name) and when the name or the value holds a null byte
    (embedded null byte).  What an empty name does depends on the
    platform and is left out. *)
Definition settable (key val : string) : bool :=
  negb (Py.mem_char "=" key) && negb (Py.mem_char "000" key)
  && negb (Py.mem_char "000" val).

Definition putenv (key val : string) : M unit :=
  fun s =>
    if String.eqb key "" then (Unmodelled, s)
    else if settable key val
    then (Returned tt,
          Process (trace s ++ [EvPutenv key val])
                  (<[key := val]> (environ s)))
    else (Raised ValueError, s).

(** [time.sleep(seconds)] *)
Definition sleep (seconds : Q) : M unit := log (EvSleep seconds).

(** [d[key]] *)
Definition getitem (d : Py.dict) (key : string) : M Py.value :=
  match d !! key with Some v => ret v | None => raise (KeyError key) end.

(** ["{}".format(v)] *)
Definition format (v : Py.value) : M string :=
  match Py.format_value v with Some s => ret s | None => unmodelled end.

(** [try: body finally: exit_] as a context manager runs it: the exit runs
    when the body returns and when it raises, and the exception of the
    body goes on after it. *)
Definition finally_ {A} (body : M A) (exit_ : M unit) : M A :=
  fun s =>
    match body s with
    | (Returned a, s') => (exit_ ;; ret a) s'
    | (Raised e, s') => (exit_ ;; raise e) s'
    | other => other
    end.

(** [with manager: body] *)
Definition with_ {A} (enter : M unit) (exit_ : M unit) (body : M A) : M A :=
  enter ;; finally_ body exit_.

(** [a and not b()], where [b] runs only when [a] holds. *)
Definition and_not (a : bool) (b : M bool) : M bool :=
  if a then let* v := b in ret (negb v) else ret false.

(** ** The functions of [submit.py] *)

Section Submit.

Import Py.

Variable o : oracle.

(** [invoke.run(command, hide=hide)] *)
Definition run (command : string) (hide : option string) : M result :=
  ask (Run command hide) (on_run o command).

(** [import tasks], [import fabfile] *)
Definition import_ (file : user_file) : M (option user_module) :=
  log (EvCall (Import file)) ;;
  match on_import o file with
  | Imported m => ret (Some m)
  | ImportError => ret None
  | ImportCrash e => raise e
  end.

(** [get_user_tasks()]; the insertion of the working directory in
    [sys.path] is not modelled. *)
Definition get_user_tasks : M (option user_module * option user_module) :=
  let* user_invoke := import_ Tasks in
  match user_invoke with
  | None => ret (None, None)
  | Some user_invoke =>
      let* user_fabric := import_ Fabfile in
      match user_fabric with
      | None => ret (None, None)
      | Some user_fabric => ret (Some user_invoke, Some user_fabric)
      end
  end.

(** [getattr(module, name, None)] *)
Definition getattr (m : option user_module)
    (field : user_module -> attribute) : attribute :=
  match m with Some m => field m | None => NotCallable end.

(** [if callable(f): f(topology_name, env_name, env_config)] *)
Definition call_if_callable (f : attribute) (file : user_file)
    (hook : hook_name) (topology_name env_name : string) : M unit :=
  match f with
  | Callable behaviour => ask (Hook file hook topology_name env_name) behaviour
  | NotCallable => ret tt
  end.

Definition jar_for_deploy : M string :=
  print "Cleaning from prior builds..." ;;
  let* res := run "lein clean" (Some "stdout") in
  (if negb (ok res)
   then raise (RuntimeError ("Unable to run 'lein clean'!" +:+ nl
                 +:+ "STDOUT:" +:+ nl +:+ stdout res
                 +:+ nl +:+ "STDERR:" +:+ nl +:+ stderr res))
   else ret tt) ;;
  print "Creating topology uberjar..." ;;
  let* res := run "lein uberjar" (Some "stdout") in
  (if negb (ok res)
   then raise (RuntimeError ("Unable to run 'lein uberjar'!" +:+ nl
                 +:+ "STDOUT:" +:+ nl +:+ stdout res
                 +:+ nl +:+ "STDERR:" +:+ nl +:+ stderr res))
   else ret tt) ;;
  let lines := split_ws (stdout res) in
  let lines :=
    map (fun l => lstrip "Created " (strip l))
        (List.filter (fun l => endswith l "standalone.jar") lines) in
  match lines with
  | [] => raise IndexError
  | uberjar :: _ =>
      print ("Uberjar created: " +:+ uberjar) ;;
      ret uberjar
  end.

(** [_list_topologies(run_kwargs={"hide": "both"}, host=host, port=port)] *)
Definition _list_topologies (host : option string) (port : option Z)
  : M result :=
  fun s =>
    ask (ListTopologies host port)
        (on_list_topologies o (listings (trace s))) s.

(** [re.compile(pattern)] *)
Definition re_compile (pattern : string) : M Re.regex :=
  match Re.compile pattern with
  | Re.Compiled p => ret p
  | Re.BadPattern msg => raise (ReError msg)
  | Re.Unsupported => unmodelled
  end.

(** [r"{}\s+\|\s+(ACTIVE|KILLED)\s+\|".format(topology_name)] *)
Definition safety_pattern (topology_name : string) : string :=
  topology_name +:+ "\s+\|\s+(ACTIVE|KILLED)\s+\|".

Definition is_safe_to_submit (topology_name : string)
    (host : option string) (port : option Z) : M bool :=
  let* result := _list_topologies host port in
  if failed result then
    raise (RuntimeError "Error running streamparse.commands.list/-main")
  else
    let* pattern := re_compile (safety_pattern topology_name) in
    if Re.search pattern (stdout result) then ret false else ret true.

(** [_kill_topology(topology_name, run_kwargs={"hide": "both"},
    wait=wait, host=host, port=port)] *)
Definition _kill_topology (topology_name : string) (wait : option Z)
    (host : option string) (port : option Z) : M unit :=
  ask (KillTopology topology_name wait host port)
      (on_kill_topology o topology_name).

(** The [while not is_safe_to_submit(...)] loop; [fuel] bounds the number
    of checks. *)
Fixpoint wait_for_quit (fuel : nat) (topology_name : string)
    (host : option string) (port : option Z) : M unit :=
  match fuel with
  | O => out_of_fuel
  | S fuel' =>
      let* safe := is_safe_to_submit topology_name host port in
      if negb safe then
        print ("Waiting for topology " +:+ topology_name +:+ " to quit...") ;;
        sleep (1 # 2) ;;
        wait_for_quit fuel' topology_name host port
      else ret tt
  end.

Definition _kill_existing_topology (fuel : nat) (topology_name : string)
    (force : bool) (wait : option Z)
    (host : option string) (port : option Z) : M unit :=
  let* present := and_not force (is_safe_to_submit topology_name host port) in
  if present then
    print ("Killing current " +:+ dq +:+ topology_name +:+ dq
           +:+ " topology.") ;;
    _kill_topology topology_name wait host port ;;
    wait_for_quit fuel topology_name host port ;;
    print "Killed."
  else ret tt.

(** [if host:] and [if port:] *)
Definition truthy_host (host : option string) : bool :=
  match host with Some h => negb (String.eqb h "") | None => false end.
Definition truthy_port (port : option Z) : bool :=
  match port with Some p => negb (p =? 0) | None => false end.

(** The body of the loop over the user's options. *)
Definition user_option (option : string) : M string :=
  if contains "deployment_stage" option then
    match split_on "=" option with
    | [key; val] =>
        ret ("--option '" +:+ key +:+ "=" +:+ dq +:+ val +:+ dq +:+ "'")
    | _ => raise ValueError
    end
  else ret ("--option " +:+ option).

Fixpoint append_user_options (options : list string) (cmd : list string)
  : M (list string) :=
  match options with
  | [] => ret cmd
  | option :: rest =>
      let* entry := user_option option in
      append_user_options rest (cmd ++ [entry])
  end.

(** Lines 107 to 155 of [_submit_topology]: the list [cmd]. *)
Definition _submit_topology_cmd (topology_name topology_file : string)
    (env_config : dict) (workers ackers : Z)
    (options : option (list string)) (debug : bool)
    (host : option string) (port : option Z) : M (list string) :=
  let cmd := ["lein"; submit_main; topology_file] in
  let cmd := if truthy_host host
             then cmd ++ ["--host " +:+ format_opt id host] else cmd in
  let cmd := if truthy_port port
             then cmd ++ ["--port " +:+ format_opt str_of_Z port] else cmd in
  let cmd := if debug then cmd ++ ["--debug"] else cmd in
  let cmd :=
    cmd ++ ["--option 'topology.workers=" +:+ str_of_Z workers +:+ "'"] in
  let cmd :=
    cmd ++ ["--option 'topology.acker.executors=" +:+ str_of_Z ackers
            +:+ "'"] in
  let* cmd := (if truthy (get_default env_config "use_virtualenv" (VBool true))
          then
            let* root := getitem env_config "virtualenv_root" in
            match root with
            | VStr root =>
                let python_path :=
                  join "/" [root; topology_name; "bin"; "python"] in
                ret (cmd ++ ["--option 'topology.python.path=" +:+ dq
                             +:+ python_path +:+ dq +:+ "'"])
            | _ => raise TypeError
            end
          else ret cmd) in
  let* log_config := match get_default env_config "log" (VDict ∅) with
                | VDict d => ret d
                | _ => raise AttributeError
                end in
  let log_path := or_ (get log_config "path") (get env_config "log_path") in
  let* shown := format log_path in
  print ("Routing Python logging to " +:+ shown +:+ ".") ;;
  let cmd := if truthy log_path
             then cmd ++ ["--option 'streamparse.log.path=" +:+ dq
                          +:+ shown +:+ dq +:+ "'"]
             else cmd in
  let* cmd := (if is_int (get log_config "max_bytes")
          then let* shown := format (get log_config "max_bytes") in
               ret (cmd ++ ["--option 'streamparse.log.max_bytes="
                            +:+ shown +:+ "'"])
          else ret cmd) in
  let* cmd := (if is_int (get log_config "backup_count")
          then let* shown := format (get log_config "backup_count") in
               ret (cmd ++ ["--option 'streamparse.log.backup_count="
                            +:+ shown +:+ "'"])
          else ret cmd) in
  let cmd := match get log_config "level" with
             | VStr level =>
                 cmd ++ ["--option 'streamparse.log.level=" +:+ dq
                         +:+ lower level +:+ dq +:+ "'"]
             | _ => cmd
             end in
  let options := match options with Some l => l | None => [] end in
  append_user_options options cmd.

(** The value written to [JVM_OPTS]. *)
Definition jvm_opts (topology_jar : string) : string :=
  join " " ["-Dstorm.jar=" +:+ topology_jar;
            "-Dstorm.options=";
            "-Dstorm.conf.file="].

Definition _submit_topology (topology_name topology_file topology_jar : string)
    (env_config : dict) (workers ackers : Z)
    (options : option (list string)) (debug : bool)
    (host : option string) (port : option Z) : M unit :=
  putenv "JVM_OPTS" (jvm_opts topology_jar) ;;
  let* cmd := _submit_topology_cmd topology_name topology_file env_config
           workers ackers options debug host port in
  let full_cmd := join " " cmd in
  print "Running lein command to submit topology to nimbus:" ;;
  print full_cmd ;;
  run full_cmd None ;;
  ret tt.

Definition _pre_submit_hooks (topology_name env_name : string)
    (env_config : dict) : M unit :=
  let* '(user_invoke, user_fabric) := get_user_tasks in
  let pre_submit_invoke := getattr user_invoke pre_submit in
  call_if_callable pre_submit_invoke Tasks PreSubmit topology_name env_name ;;
  let pre_submit_fabric := getattr user_fabric pre_submit in
  call_if_callable pre_submit_fabric Fabfile PreSubmit topology_name env_name.

Definition _post_submit_hooks (topology_name env_name : string)
    (env_config : dict) : M unit :=
  let* '(user_invoke, user_fabric) := get_user_tasks in
  let post_submit_invoke := getattr user_invoke post_submit in
  call_if_callable post_submit_invoke Tasks PostSubmit
    topology_name env_name ;;
  let post_submit_fabric := getattr user_fabric post_submit in
  call_if_callable post_submit_fabric Fabfile PostSubmit
    topology_name env_name.

(** Lines 190 to 211 of [submit_topology]: everything up to and with
    the build of the jar. *)
Definition prepare_and_build (name env_name : option string)
  : M (string * string * string * dict * option string * option Z
       * string) :=
  ask PrepareTopology (on_prepare_topology o) ;;
  let* config := ask GetConfig (on_get_config o) in
  let* '(name, topology_file) :=
    ask (GetTopologyDefinition name) (on_get_topology_definition o name) in
  let* '(env_name, env_config) :=
    ask (GetEnvConfig env_name) (on_get_env_config o env_name) in
  let* '(host, port) :=
    ask GetNimbusForEnvConfig (on_get_nimbus_for_env_config o env_config) in
  let use_venv := get_default env_config "use_virtualenv" (VBool true) in
  (if truthy use_venv
   then ask (ActivateEnv env_name) (on_activate_env o env_name)
   else ret tt) ;;
  _pre_submit_hooks name env_name env_config ;;
  (if truthy use_venv then
     let* specs := getitem config "virtualenv_specs" in
     match specs with
     | VStr specs =>
         let specs := rstrip "/" specs in
         let requirements := specs +:+ "/" +:+ name +:+ ".txt" in
         ask (CreateOrUpdateVirtualenvs env_name name requirements)
             (on_create_or_update_virtualenvs o env_name name requirements)
     | _ => raise AttributeError
     end
   else ret tt) ;;
  let* topology_jar := jar_for_deploy in
  ret (name, topology_file, env_name, env_config, host, port, topology_jar).

(** [with ssh_tunnel(user, host, 6627, port): body] *)
Definition ssh_tunnel {A} (user : value) (host : option string)
    (local_port : Z) (remote_port : option Z) (body : M A) : M A :=
  with_ (ask (SshTunnelEnter user host local_port remote_port)
             (on_ssh_tunnel_enter o))
        (ask SshTunnelExit (on_ssh_tunnel_exit o))
        body.

Definition submit_topology (fuel : nat) (name env_name : option string)
    (workers ackers : Z) (options : option (list string))
    (force debug : bool) (wait : option Z) : M unit :=
  let* '(name, topology_file, env_name, env_config, host, port, topology_jar) :=
    prepare_and_build name env_name in
  print ("Deploying " +:+ dq +:+ name +:+ dq +:+ " topology...") ;;
  let* ssh := ask IsSshForNimbus (on_is_ssh_for_nimbus o env_config) in
  if ssh then
    let* user := getitem env_config "user" in
    ssh_tunnel user host 6627 port
      (print ("ssh tunnel to Nimbus " +:+ format_opt id host +:+ ":"
              +:+ format_opt str_of_Z port +:+ " established.") ;;
       _kill_existing_topology fuel name force wait None None ;;
       _submit_topology name topology_file topology_jar env_config
         workers ackers options debug None None ;;
       _post_submit_hooks name env_name env_config)
  else
    _kill_existing_topology fuel name force wait host port ;;
    _submit_topology name topology_file topology_jar env_config
      workers ackers options debug host port ;;
    _post_submit_hooks name env_name env_config.

Definition main (fuel : nat) (args : arguments) : M unit :=
  let* args := ask ResolveAckersWorkers (on_resolve_ackers_workers o args) in
  submit_topology fuel (arg_name args) (arg_environment args)
    (arg_workers args) (arg_ackers args) (arg_options args)
    (arg_force args) (arg_debug args) (arg_wait args).

End Submit.

(** The exit status of the interpreter: 0 when [main] returns, 1 when an
    exception leaves it. *)
Definition exit_status (out : outcome unit) : option Z :=
  match out with
  | Returned _ => Some 0
  | Raised _ => Some 1
  | Unmodelled | OutOfFuel => None
  end.

(** The events a run added to the trace it started from. *)
Definition added (s s' : process) : list event :=
  drop (length (trace s)) (trace s').

(** ** The vocabulary of the properties *)

(** A name in which no character has a meaning for [re]. *)
Definition plain_name (name : string) : Prop :=
  forallb (fun c => negb (Re.special c)) (list_ascii_of_string name) = true.

(** One or more blank characters. *)
Definition blank (w : string) : Prop :=
  w ≠ "" ∧ forallb Py.isspace (list_ascii_of_string w) = true.

(** The listing holds [name], blanks, a bar, blanks, one of the two states
    of a topology that is still there, blanks and a bar. *)
Definition listed_as_present (name listing : string) : Prop :=
  ∃ before w1 w2 state w3 after,
    listing = before +:+ name +:+ w1 +:+ "|" +:+ w2 +:+ state +:+ w3
              +:+ "|" +:+ after
    ∧ blank w1 ∧ blank w2 ∧ blank w3
    ∧ (state = "ACTIVE" ∨ state = "KILLED").

(** The words of the specification read to the letter: some line of the
    listing holds [name | ACTIVE |] or [name | KILLED |]. *)
Definition line_shows (name line : string) : bool :=
  Py.contains (name +:+ " | ACTIVE |") line
  || Py.contains (name +:+ " | KILLED |") line.

Definition some_line_shows (name listing : string) : bool :=
  existsb (line_shows name) (Py.lines listing).

(** The [n]-th listing of the run succeeds and the safety check made on it
    says [safe]. *)
Definition reports (o : oracle) (n : nat) (topology_name : string)
    (safe : bool) : Prop :=
  ∃ listing err p,
    on_list_topologies o n = Gives (Result true listing err)
    ∧ Re.compile (safety_pattern topology_name) = Re.Compiled p
    ∧ Re.search p listing = negb safe.

(** The pattern that follows the name in [safety_pattern], and a word
    read letter by letter before a pattern. *)
Definition still_there : Re.regex :=
  Eval vm_compute in
    match Re.compile "\s+\|\s+(ACTIVE|KILLED)\s+\|" with
    | Re.Compiled p => p
    | _ => Re.Failure
    end.

Definition literals (w : list ascii) (r : Re.regex) : Re.regex :=
  fold_right Re.Sequence r (map Re.Literal w).

(** [os.environ] after the writes recorded in a list of events. *)
Definition replay (ev : list event) (env : gmap string string)
  : gmap string string :=
  fold_left (fun env e =>
               match e with
               | EvPutenv key val => <[key := val]> env
               | _ => env
               end) ev env.

(** Whatever way [m] ends, it has only added events that satisfy [P] to
    the trace, and [os.environ] holds the writes among them. *)
Definition emits {A} (P : event -> Prop) (m : M A) : Prop :=
  ∀ s out s',
    m s = (out, s') →
    ∃ ev, s' = Process (trace s ++ ev) (replay ev (environ s)) ∧ Forall P ev.

(** The run ended the Python way, returning or raising. *)
Definition pythonic {A} (out : outcome A) : Prop :=
  match out with
  | Returned _ | Raised _ => True
  | Unmodelled | OutOfFuel => False
  end.

(** An outcome that is not a return, at another type. *)
Definition recast {A B} (out : outcome A) : outcome B :=
  match out with
  | Raised e => Raised e
  | OutOfFuel => OutOfFuel
  | Returned _ | Unmodelled => Unmodelled
  end.

Definition returned {A} (out : outcome A) : bool :=
  match out with Returned _ => true | _ => false end.

Definition is_putenv (e : event) : bool :=
  match e with EvPutenv _ _ => true | _ => false end.

(** Neither a listing, nor a kill, nor the launch of the submission, nor
    a write to [os.environ]. *)
Definition calm (e : event) : Prop :=
  is_listing e = false ∧ is_kill e = false ∧ is_submission e = false
  ∧ is_putenv e = false.

(** What can happen before the deployment starts. *)
Definition before_deploy (e : event) : Prop :=
  calm e ∧ is_post_hook e = false.

(** Every run of [m] ends the Python way. *)
Definition python_only {A} (m : M A) : Prop := ∀ s, pythonic (m s).1.

(** A command that exits with a status other than zero: [invoke.run]
    raises, or hands back a result that is not [ok]. *)
Definition command_fails (o : oracle) (command : string) : Prop :=
  match on_run o command with
  | Gives r => ok r = false
  | Throws _ => True
  end.

Definition build_fails (o : oracle) : Prop :=
  command_fails o "lein clean" ∨ command_fails o "lein uberjar".

(** The messages of the kill phase and one round of its poll loop. *)
Definition killing (topology_name : string) : string :=
  "Killing current " +:+ Py.dq +:+ topology_name +:+ Py.dq +:+ " topology.".

Definition waiting (topology_name : string) : string :=
  "Waiting for topology " +:+ topology_name +:+ " to quit...".

Definition poll_round (topology_name : string) (host : option string)
    (port : option Z) : list event :=
  [EvCall (ListTopologies host port); EvPrint (waiting topology_name);
   EvSleep (1 # 2)].

Fixpoint poll_rounds (k : nat) (topology_name : string)
    (host : option string) (port : option Z) : list event :=
  match k with
  | O => []
  | S k' => poll_round topology_name host port
            ++ poll_rounds k' topology_name host port
  end.

(** What the poll loop may add to the trace. *)
Definition polling (topology_name : string) (host : option string)
    (port : option Z) (e : event) : Prop :=
  e = EvCall (ListTopologies host port)
  ∨ e = EvPrint (waiting topology_name)
  ∨ e = EvSleep (1 # 2).

(** The list command fails: [_list_topologies] raises, or hands back a
    result that is [failed]. *)
Definition listing_fails (o : oracle) (n : nat) : Prop :=
  match on_list_topologies o n with
  | Gives r => failed r = true
  | Throws _ => True
  end.

(** The state after one more call of [_list_topologies]. *)
Definition listed (host : option string) (port : option Z) (s : process)
  : process :=
  Process (trace s ++ [EvCall (ListTopologies host port)]) (environ s).

(** What the kill phase may add to the trace. *)
Definition kill_phase_event (e : event) : Prop :=
  is_submission e = false ∧ is_putenv e = false ∧ is_hook e = false.

(** The flags that come between the topology file and the options, and
    the two options every command has. *)
Definition command_flags (host : option string) (port : option Z)
    (debug : bool) : list string :=
  (if truthy_host host then ["--host " +:+ Py.format_opt id host] else [])
  ++ (if truthy_port port
      then ["--port " +:+ Py.format_opt Py.str_of_Z port] else [])
  ++ (if debug then ["--debug"] else []).

Definition topology_options (workers ackers : Z) : list string :=
  ["--option 'topology.workers=" +:+ Py.str_of_Z workers +:+ "'";
   "--option 'topology.acker.executors=" +:+ Py.str_of_Z ackers +:+ "'"].

(** The entry of the command that stands for one option of the user. *)
Definition entry_of (option entry : string) : Prop :=
  if Py.contains "deployment_stage" option
  then ∃ key val,
      Py.split_on "=" option = [key; val]
      ∧ entry = "--option '" +:+ key +:+ "=" +:+ Py.dq +:+ val +:+ Py.dq
                +:+ "'"
  else entry = "--option " +:+ option.

(** The words of the specification read to the letter: the key of an
    option is what stands before its first [=], and the option is quoted
    again when the key holds the reserved word. *)
Definition option_key (option : string) : string :=
  hd "" (Py.split_on "=" option).

Definition entry_by_key (option entry : string) : Prop :=
  if Py.contains "deployment_stage" (option_key option)
  then ∃ key val,
      Py.split_on "=" option = [key; val]
      ∧ entry = "--option '" +:+ key +:+ "=" +:+ Py.dq +:+ val +:+ Py.dq
                +:+ "'"
  else entry = "--option " +:+ option.

(** The three steps that [submit_topology] runs under the tunnel, or
    without it. *)
Definition deploy (o : oracle) (fuel : nat) (force debug : bool)
    (wait : option Z) (name file env_name jar : string)
    (env_config : Py.dict) (workers ackers : Z)
    (options : option (list string))
    (host : option string) (port : option Z) : M unit :=
  bind (_kill_existing_topology o fuel name force wait host port)
    (fun _ =>
       bind (_submit_topology o name file jar env_config workers ackers
               options debug host port)
         (fun _ => _post_submit_hooks o name env_name env_config)).


(** ** Collaborators for the examples

    A project without virtualenv and without logging settings, reached
    without a tunnel; [lein uberjar] reports two jars.  The listings, the
    answers of [invoke.run] and what [tasks.py] holds are left open. *)

Definition example_config : Py.dict := <["use_virtualenv" := Py.VBool false]> ∅.

Definition example_listing (text : string) : answer result :=
  Gives (Result true text "").

Definition example_run (command : string) : answer result :=
  if String.eqb command "lein uberjar"
  then Gives (Result true ("Created /t/wc-0.1.jar" +:+ Py.nl
                           +:+ "Created /t/wc-0.1-standalone.jar" +:+ Py.nl)
                     "")
  else Gives (Result true "" "").

Definition example_oracle (listings : nat -> answer result)
    (runs : string -> answer result) (tasks : import_result) : oracle :=
  {| on_resolve_ackers_workers := fun args => Gives args;
     on_prepare_topology := Gives tt;
     on_get_config := Gives ∅;
     on_get_topology_definition :=
       fun _ => Gives ("wordcount", "topologies/wordcount.clj");
     on_get_env_config := fun _ => Gives ("prod", example_config);
     on_get_nimbus_for_env_config :=
       fun _ => Gives (Some "nimbus.example.com", Some 6627);
     on_activate_env := fun _ => Gives tt;
     on_import := fun file => match file with
                              | Tasks => tasks
                              | Fabfile => Imported (UserModule NotCallable
                                                       NotCallable)
                              end;
     on_create_or_update_virtualenvs := fun _ _ _ => Gives tt;
     on_run := runs;
     on_is_ssh_for_nimbus := fun _ => Gives false;
     on_ssh_tunnel_enter := Gives tt;
     on_ssh_tunnel_exit := Gives tt;
     on_list_topologies := listings;
     on_kill_topology := fun _ => Gives tt |}.

Definition start : process := Process [] ∅.


(** ** The vocabulary of further properties *)

(** The exception of a build command that did not succeed. *)
Definition build_error (command : string) (res : result) : exn :=
  RuntimeError ("Unable to run '" +:+ command +:+ "'!" +:+ Py.nl
                +:+ "STDOUT:" +:+ Py.nl +:+ stdout res
                +:+ Py.nl +:+ "STDERR:" +:+ Py.nl +:+ stderr res).

(** A word of the build's output that names a standalone jar. *)
Definition is_jar (word : string) : bool := Py.endswith word "standalone.jar".

(** Every character of [w] is one of [chars]. *)
Definition made_of (chars w : string) : Prop :=
  forallb (fun c => Py.mem_char c chars) (list_ascii_of_string w) = true.

(** A word as [str.split()] gives them: not empty, and without a blank. *)
Definition word (w : string) : Prop :=
  w ≠ "" ∧ forallb (fun c => negb (Py.isspace c)) (list_ascii_of_string w) = true.

(** [command] is the first command of the build that comes back with a
    result that is not [ok]. *)
Definition first_failure (o : oracle) (command : string) (res : result)
  : Prop :=
  on_run o command = Gives res ∧ ok res = false
  ∧ (command = "lein clean"
     ∨ command = "lein uberjar"
       ∧ ∃ cleaned, on_run o "lein clean" = Gives cleaned ∧ ok cleaned = true).

(** Both commands of the build succeed, and [built] is what [lein uberjar]
    hands back. *)
Definition builds (o : oracle) (built : result) : Prop :=
  (∃ cleaned, on_run o "lein clean" = Gives cleaned ∧ ok cleaned = true)
  ∧ on_run o "lein uberjar" = Gives built ∧ ok built = true.

(** The hooks of one kind, and the attribute they look up in a module. *)
Definition hooks (o : oracle) (hook : hook_name)
  : string → string → Py.dict → M unit :=
  match hook with
  | PreSubmit => _pre_submit_hooks o
  | PostSubmit => _post_submit_hooks o
  end.

Definition hook_of (hook : hook_name) : user_module → attribute :=
  match hook with PreSubmit => pre_submit | PostSubmit => post_submit end.

(** One of [tasks.py] and [fabfile.py] cannot be imported: the import of
    [tasks] raises [ImportError], or it succeeds and the import of
    [fabfile] raises it. *)
Definition module_missing (o : oracle) : Prop :=
  on_import o Tasks = ImportError
  ∨ (∃ m, on_import o Tasks = Imported m) ∧ on_import o Fabfile = ImportError.

(** What a call that answers [a] ends with. *)
Definition outcome_of {A} (a : answer A) : outcome A :=
  match a with Gives x => Returned x | Throws e => Raised e end.

(** The collaborators [o] with other modules of the user. *)
Definition with_imports (o : oracle) (imports : user_file → import_result)
  : oracle :=
  {| on_resolve_ackers_workers := on_resolve_ackers_workers o;
     on_prepare_topology := on_prepare_topology o;
     on_get_config := on_get_config o;
     on_get_topology_definition := on_get_topology_definition o;
     on_get_env_config := on_get_env_config o;
     on_get_nimbus_for_env_config := on_get_nimbus_for_env_config o;
     on_activate_env := on_activate_env o;
     on_import := imports;
     on_create_or_update_virtualenvs := on_create_or_update_virtualenvs o;
     on_run := on_run o;
     on_is_ssh_for_nimbus := on_is_ssh_for_nimbus o;
     on_ssh_tunnel_enter := on_ssh_tunnel_enter o;
     on_ssh_tunnel_exit := on_ssh_tunnel_exit o;
     on_list_topologies := on_list_topologies o;
     on_kill_topology := on_kill_topology o |}.

(** How many times the character [c] occurs in [s]. *)
Definition occurrences (c : ascii) (s : string) : nat :=
  length (List.filter (Ascii.eqb c) (list_ascii_of_string s)).

Definition is_run (e : event) : bool :=
  match e with EvCall (Run _ _) => true | _ => false end.

(** The calls that keep the virtualenvs. *)
Definition is_venv_call (e : event) : bool :=
  match e with
  | EvCall (ActivateEnv _) | EvCall (CreateOrUpdateVirtualenvs _ _ _) => true
  | _ => false
  end.

Definition is_tunnel_enter (e : event) : bool :=
  match e with EvCall (SshTunnelEnter _ _ _ _) => true | _ => false end.

(** What the three steps of the deployment may add to the trace when they
    are given [host] and [port]. *)
Definition deploy_event (host : option string) (port : option Z) (e : event)
  : Prop :=
  match e with
  | EvPrint _ | EvSleep _ | EvPutenv _ _ => True
  | EvCall (ListTopologies h p) => h = host ∧ p = port
  | EvCall (KillTopology _ _ h p) => h = host ∧ p = port
  | EvCall (Run _ None) => True
  | EvCall (Import _) | EvCall (Hook _ PostSubmit _ _) => True
  | _ => False
  end.

(** What the orchestrator may add to the trace before the deployment. *)
Definition prepare_event (e : event) : Prop :=
  match e with
  | EvPrint _ => True
  | EvCall c =>
      match c with
      | PrepareTopology | GetConfig | GetTopologyDefinition _ | GetEnvConfig _
      | GetNimbusForEnvConfig | ActivateEnv _ | Import _
      | Hook _ PreSubmit _ _ | CreateOrUpdateVirtualenvs _ _ _
      | Run _ (Some _) => True
      | _ => False
      end
  | _ => False
  end.

(** [m] never returns, and whatever way it ends it has only added events
    that satisfy [P] to the trace. *)
Definition stops {A} (P : event → Prop) (m : M A) : Prop :=
  ∀ s out s',
    m s = (out, s') →
    returned out = false
    ∧ ∃ ev, s' = Process (trace s ++ ev) (replay ev (environ s)) ∧ Forall P ev.

(** What the orchestrator may add to the trace before the three steps of
    the deployment: the preparation, the question about the tunnel and
    the opening of the tunnel. *)
Definition opening_event (e : event) : Prop :=
  prepare_event e ∨ e = EvCall IsSshForNimbus ∨ is_tunnel_enter e = true.

(** How Nimbus is named in a call: under the tunnel ([ssh] set) the list
    and kill commands are given neither host nor port, and the tunnel
    itself goes to [host] and [port] from the local port 6627; without
    the tunnel no tunnel is opened or closed and the commands are given
    [host] and [port]. *)
Definition addressed (ssh : bool) (host : option string) (port : option Z)
    (e : event) : Prop :=
  match e with
  | EvCall (ListTopologies h p) | EvCall (KillTopology _ _ h p) =>
      h = (if ssh then None else host) ∧ p = (if ssh then None else port)
  | EvCall (SshTunnelEnter _ h local_port p) =>
      ssh = true ∧ h = host ∧ local_port = 6627 ∧ p = port
  | EvCall SshTunnelExit => ssh = true
  | _ => True
  end.

(** What the orchestrator may add to the trace up to the pre-submit
    hooks. *)
Definition before_build (e : event) : Prop :=
  match e with
  | EvCall c =>
      match c with
      | PrepareTopology | GetConfig | GetTopologyDefinition _ | GetEnvConfig _
      | GetNimbusForEnvConfig | ActivateEnv _ | Import _
      | Hook _ PreSubmit _ _ => True
      | _ => False
      end
  | _ => False
  end.

(** The requirements file that is given to
    [create_or_update_virtualenvs], if the event is a call of it. *)
Definition requirements_are (path : string → string) (e : event) : Prop :=
  match e with
  | EvCall (CreateOrUpdateVirtualenvs _ topology_name requirements) =>
      requirements = path topology_name
  | _ => True
  end.

Definition is_tunnel_exit (e : event) : bool :=
  match e with EvCall SshTunnelExit => true | _ => false end.

(** ** The matcher accepts what the patterns match *)

Section ReFacts.
Import Re.

Ltac invert H := inversion H; subst; clear H.

(** Splitting [s1 ++ s2 = c :: s] on whether [s1] is empty. *)
Ltac split_app :=
  match goal with
  | H : ?s1 ++ ?s2 = [] |- _ => apply app_eq_nil in H as [-> ->]
  | H : [] = ?s1 ++ ?s2 |- _ =>
      symmetry in H; apply app_eq_nil in H as [-> ->]
  | H : ?s1 ++ ?s2 = _ :: _ |- _ =>
      destruct s1; simpl in H; [subst | injection H as ? ?; subst]
  end.

Lemma matches_nil_sequence r1 r2 :
  matches (Sequence r1 r2) [] ↔ matches r1 [] ∧ matches r2 [].
Proof.
  split.
  - intros H. invert H. split_app. done.
  - intros [H1 H2]. apply (m_sequence _ _ [] []); done.
Qed.

Lemma nullable_matches r : nullable r = true ↔ matches r [].
Proof.
  induction r as [| | c | | k | r1 IH1 r2 IH2 | r1 IH1 r2 IH2 | q r IH | r IH];
    simpl.
  - split; [done | inversion 1].
  - split; [constructor | done].
  - split; [done | inversion 1].
  - split; [done | inversion 1].
  - split; [done | inversion 1].
  - rewrite andb_true_iff, IH1, IH2, matches_nil_sequence. done.
  - rewrite orb_true_iff, IH1, IH2. split.
    + intros [H | H]; [apply m_branch_l | apply m_branch_r]; done.
    + intros H; invert H; auto.
  - destruct q.
    + split; [constructor | done].
    + split; [constructor | done].
    + rewrite IH. split.
      * intros H. apply (m_plus _ [] []); [done | constructor].
      * intros H; invert H. split_app. done.
  - rewrite IH. split; [by constructor | by inversion 1].
Qed.

Lemma matches_star_cons r c s :
  matches (Repeat ZeroOrMore r) (c :: s) →
  ∃ s1 s2, s = s1 ++ s2 ∧ matches r (c :: s1)
           ∧ matches (Repeat ZeroOrMore r) s2.
Proof.
  intros H. remember (Repeat ZeroOrMore r) as r' eqn:Hr.
  remember (c :: s) as w eqn:Hw. revert s Hw.
  induction H; try discriminate.
  injection Hr as ->. intros s Hw.
  destruct s1 as [|c1 s1]; simpl in Hw.
  - apply IHmatches2; done.
  - injection Hw as -> <-. eauto.
Qed.

Lemma step_matches b s : matches (step b) s ↔ b = true ∧ s = [].
Proof.
  destruct b; simpl; split.
  - by inversion 1.
  - intros [_ ->]. constructor.
  - inversion 1.
  - intros [? _]. done.
Qed.

Lemma derive_matches r c s : matches (derive c r) s ↔ matches r (c :: s).
Proof.
  revert s.
  induction r as [| | c' | | k | r1 IH1 r2 IH2 | r1 IH1 r2 IH2 | q r IH | r IH];
    intros s; simpl.
  - split; inversion 1.
  - split; inversion 1.
  - rewrite step_matches. split.
    + intros [->%Ascii.eqb_eq ->]. constructor.
    + intros H; invert H. by rewrite Ascii.eqb_refl.
  - rewrite step_matches. split.
    + intros [Hc ->]. constructor. intros ->. done.
    + intros H; invert H. split; [|done].
      apply negb_true_iff, Ascii.eqb_neq. done.
  - rewrite step_matches. split.
    + intros [Hc ->]. by constructor.
    + intros H; by invert H.
  - assert (Hseq : matches (Sequence (derive c r1) r2) s →
                   matches (Sequence r1 r2) (c :: s)).
    { intros H; invert H.
      match goal with H : matches (derive _ _) _ |- _ => apply IH1 in H end.
      apply (m_sequence _ _ (c :: _) _); done. }
    assert (Hinv : matches (Sequence r1 r2) (c :: s) →
                   matches (Sequence (derive c r1) r2) s
                   ∨ (matches r1 [] ∧ matches r2 (c :: s))).
    { intros H; invert H. split_app.
      - right. done.
      - left. constructor; [by apply IH1 | done]. }
    destruct (nullable r1) eqn:Hn.
    + split.
      * intros H; invert H; [by apply Hseq |].
        apply (m_sequence _ _ [] (c :: s)); [by apply nullable_matches |].
        by apply IH2.
      * intros [H | [_ H]]%Hinv; [by apply m_branch_l |].
        apply m_branch_r. by apply IH2.
    + split; [done |].
      intros [H | [H _]]%Hinv; [done |].
      apply nullable_matches in H. congruence.
  - split.
    + intros H; invert H; [apply m_branch_l; by apply IH1 |
                        apply m_branch_r; by apply IH2].
    + intros H; invert H; [apply m_branch_l; by apply IH1 |
                        apply m_branch_r; by apply IH2].
  - destruct q.
    + rewrite IH. split; [by constructor | by inversion 1].
    + split.
      * intros H; invert H.
        match goal with H : matches (derive _ _) _ |- _ => apply IH in H end.
        apply (m_star_more _ (c :: _) _); done.
      * intros (s1 & s2 & -> & H1 & H2)%matches_star_cons.
        constructor; [by apply IH | done].
    + split.
      * intros H; invert H.
        match goal with H : matches (derive _ _) _ |- _ => apply IH in H end.
        apply (m_plus _ (c :: _) _); done.
      * intros H; invert H. split_app.
        -- match goal with H : matches (Repeat ZeroOrMore _) (_ :: _) |- _ =>
             apply matches_star_cons in H as (t1 & t2 & -> & H3 & H4) end.
           constructor; [by apply IH | done].
        -- constructor; [by apply IH | done].
  - rewrite IH. split; [by constructor | by inversion 1].
Qed.

Lemma match_here_spec r s :
  match_here r s = true ↔ ∃ m rest, s = m ++ rest ∧ matches r m.
Proof.
  revert r. induction s as [|c s IH]; intros r; simpl.
  - rewrite orb_false_r, nullable_matches. split.
    + intros H. exists [], []. done.
    + intros (m & rest & Heq & H). split_app. done.
  - rewrite orb_true_iff, nullable_matches, IH. split.
    + intros [H | (m & rest & -> & H)].
      * exists [], (c :: s). done.
      * exists (c :: m), rest. split; [done |]. by apply derive_matches.
    + intros (m & rest & Heq & H). destruct m as [|c' m]; simpl in Heq.
      * by left.
      * injection Heq as <- ->. right. exists m, rest.
        split; [done |]. by apply derive_matches.
Qed.

Lemma search_from_spec r s :
  search_from r s = true ↔
  ∃ before m after, s = before ++ m ++ after ∧ matches r m.
Proof.
  induction s as [|c s IH]; cbn [search_from].
  - rewrite orb_false_r, match_here_spec. split.
    + intros (m & rest & -> & H). exists [], m, rest. done.
    + intros (before & m & after & Heq & H). symmetry in Heq.
      apply app_eq_nil in Heq as [-> Heq]. eauto.
  - rewrite orb_true_iff, match_here_spec, IH. split.
    + intros [(m & rest & -> & H) | (before & m & after & -> & H)].
      * exists [], m, rest. done.
      * exists (c :: before), m, after. done.
    + intros (before & m & after & Heq & H).
      destruct before as [|c' before]; simpl in Heq.
      * left. eauto.
      * injection Heq as <- ->. right. eauto.
Qed.
End ReFacts.

(** ** The pattern of a plain name *)

Section Txt.
Lemma chars_app a b :
  list_ascii_of_string (a +:+ b)
  = list_ascii_of_string a ++ list_ascii_of_string b.
Proof. induction a as [|c a IH]; simpl; [done | by rewrite IH]. Qed.

Lemma chars_inj a b :
  list_ascii_of_string a = list_ascii_of_string b → a = b.
Proof.
  intros H. rewrite <- (string_of_list_ascii_of_string a),
    <- (string_of_list_ascii_of_string b). by rewrite H.
Qed.
End Txt.

Section Pattern.
Import Re.

Lemma special_false c :
  special c = false →
  Ascii.eqb c "\" = false ∧ Ascii.eqb c "|" = false
  ∧ Ascii.eqb c "(" = false ∧ Ascii.eqb c ")" = false
  ∧ quantifier_of c = None ∧ Ascii.eqb c "." = false.
Proof.
  unfold special, Py.mem_char, quantifier_of. simpl.
  intros H. repeat (apply orb_false_elim in H as [? H]).
  repeat match goal with H : Ascii.eqb _ _ = false |- _ => rewrite H; clear H end.
  done.
Qed.

Lemma parse_plain w rest cur stack :
  forallb (fun c => negb (special c)) w = true →
  parse (w ++ rest) cur stack
  = parse rest (Frame (branches cur) (rev (map Literal w) ++ items cur)) stack.
Proof.
  revert cur. induction w as [|c w IH]; intros cur Hw; simpl.
  - by destruct cur.
  - simpl in Hw. apply andb_true_iff in Hw as [Hc Hw].
    apply negb_true_iff in Hc.
    pose proof (special_false c Hc) as (-> & -> & -> & -> & -> & ->).
    rewrite Hc, IH by done. simpl. by rewrite <- app_assoc.
Qed.

Lemma sequence_rev l acc :
  fold_left (fun acc it => Sequence it acc) (rev l) acc
  = fold_right Sequence acc l.
Proof.
  induction l as [|x l IH]; simpl; [done |].
  by rewrite fold_left_app, IH.
Qed.

Lemma parse_still_there its :
  parse (list_ascii_of_string "\s+\|\s+(ACTIVE|KILLED)\s+\|")
        (Frame [] its) []
  = Compiled (fold_left (fun acc it => Sequence it acc) its still_there).
Proof. reflexivity. Qed.

Lemma compile_safety_pattern name :
  plain_name name →
  compile (safety_pattern name)
  = Compiled (literals (list_ascii_of_string name) still_there).
Proof.
  intros Hp. unfold compile, safety_pattern.
  rewrite chars_app, parse_plain by done.
  cbn [empty_frame branches items]. rewrite app_nil_r, parse_still_there.
  by rewrite sequence_rev.
Qed.
End Pattern.

Section Language.
Import Re.

Ltac invert H := inversion H; subst; clear H.

Lemma matches_sequence r1 r2 s :
  matches (Sequence r1 r2) s ↔
  ∃ s1 s2, s = s1 ++ s2 ∧ matches r1 s1 ∧ matches r2 s2.
Proof.
  split.
  - intros H; invert H. eauto.
  - intros (s1 & s2 & -> & H1 & H2). by constructor.
Qed.

Lemma matches_literal c s : matches (Literal c) s ↔ s = [c].
Proof. split; [by inversion 1 | intros ->; constructor]. Qed.

Lemma matches_empty s : matches Empty s ↔ s = [].
Proof. split; [by inversion 1 | intros ->; constructor]. Qed.

Lemma matches_literals w r s :
  matches (literals w r) s ↔ ∃ s', s = w ++ s' ∧ matches r s'.
Proof.
  revert s. induction w as [|c w IH]; intros s.
  - split; [eauto | by intros (s' & -> & H)].
  - change (literals (c :: w) r) with (Sequence (Literal c) (literals w r)).
    rewrite matches_sequence. split.
    + intros (s1 & s2 & -> & ->%matches_literal & (s' & -> & H)%IH). eauto.
    + intros (s' & -> & H). exists [c], (w ++ s').
      split; [done |]. split; [constructor |]. apply IH. eauto.
Qed.

Lemma matches_word w s : matches (literals w Empty) s ↔ s = w.
Proof.
  rewrite matches_literals. split.
  - intros (s' & -> & ->%matches_empty). by rewrite app_nil_r.
  - intros ->. exists []. split; [by rewrite app_nil_r | constructor].
Qed.

Lemma matches_blanks_star w :
  matches (Repeat ZeroOrMore (In CategorySpace)) w ↔
  forallb Py.isspace w = true.
Proof.
  split.
  - intros H. remember (Repeat ZeroOrMore (In CategorySpace)) as r eqn:Hr.
    induction H; try discriminate; [done |].
    injection Hr as ->. specialize (IHmatches2 eq_refl).
    invert H. simpl. by rewrite andb_true_iff.
  - induction w as [|c w IH]; simpl; [constructor |].
    intros [Hc Hw]%andb_true_iff.
    apply (m_star_more _ [c] w); [by constructor | by apply IH].
Qed.

Lemma matches_blanks w :
  matches (Repeat OneOrMore (In CategorySpace)) w ↔
  w ≠ [] ∧ forallb Py.isspace w = true.
Proof.
  split.
  - intros H; invert H.
    match goal with H : matches (In _) _ |- _ => invert H end.
    match goal with H : matches (Repeat _ _) _ |- _ =>
      apply matches_blanks_star in H end.
    simpl. split; [done | by rewrite andb_true_iff].
  - intros [Hne Hw]. destruct w as [|c w]; [done |].
    simpl in Hw. apply andb_true_iff in Hw as [Hc Hw].
    apply (m_plus _ [c] w); [by constructor | by apply matches_blanks_star].
Qed.

Lemma matches_subpattern r s : matches (Subpattern r) s ↔ matches r s.
Proof. split; [by inversion 1 | by constructor]. Qed.

Lemma matches_branch r1 r2 s :
  matches (Branch r1 r2) s ↔ matches r1 s ∨ matches r2 s.
Proof.
  split.
  - intros H; invert H; auto.
  - intros [H | H]; [by apply m_branch_l | by apply m_branch_r].
Qed.

Lemma matches_still_there s :
  matches still_there s ↔
  ∃ w1 w2 state w3,
    s = w1 ++ ["|"%char] ++ w2 ++ state ++ w3 ++ ["|"%char]
    ∧ (w1 ≠ [] ∧ forallb Py.isspace w1 = true)
    ∧ (w2 ≠ [] ∧ forallb Py.isspace w2 = true)
    ∧ (w3 ≠ [] ∧ forallb Py.isspace w3 = true)
    ∧ (state = list_ascii_of_string "ACTIVE"
       ∨ state = list_ascii_of_string "KILLED").
Proof.
  unfold still_there.
  change (Sequence (Literal "A") _)
    with (literals (list_ascii_of_string "ACTIVE") Empty).
  change (Sequence (Literal "K") _)
    with (literals (list_ascii_of_string "KILLED") Empty).
  split.
  - intros (w1 & s1 & -> & H1%matches_blanks
            & (b1 & s2 & -> & ->%matches_literal
               & (w2 & s3 & -> & H2%matches_blanks
                  & (state & s4 & -> & Hst
                     & (w3 & s5 & -> & H3%matches_blanks
                        & (b2 & s6 & -> & ->%matches_literal
                           & ->%matches_empty)%matches_sequence
                       )%matches_sequence
                    )%matches_sequence
                 )%matches_sequence
              )%matches_sequence)%matches_sequence.
    apply -> matches_subpattern in Hst. apply matches_branch in Hst.
    rewrite !matches_word in Hst.
    exists w1, w2, state, w3. done.
  - intros (w1 & w2 & state & w3 & -> & H1 & H2 & H3 & Hst).
    apply matches_sequence. exists w1, (["|"%char] ++ w2 ++ state ++ w3 ++ ["|"%char]).
    split; [done |]. split; [by apply matches_blanks |].
    apply matches_sequence. exists ["|"%char], (w2 ++ state ++ w3 ++ ["|"%char]).
    split; [done |]. split; [constructor |].
    apply matches_sequence. exists w2, (state ++ w3 ++ ["|"%char]).
    split; [done |]. split; [by apply matches_blanks |].
    apply matches_sequence. exists state, (w3 ++ ["|"%char]).
    split; [done |]. split.
    { apply matches_subpattern, matches_branch.
      rewrite !matches_word. done. }
    apply matches_sequence. exists w3, ["|"%char].
    split; [done |]. split; [by apply matches_blanks |].
    apply matches_sequence. exists ["|"%char], [].
    split; [done |]. split; constructor.
Qed.

Lemma blank_chars w :
  blank w ↔
  list_ascii_of_string w ≠ []
  ∧ forallb Py.isspace (list_ascii_of_string w) = true.
Proof.
  unfold blank. split; intros [Hne Hw]; (split; [|done]).
  - intros H. apply Hne. by destruct w.
  - intros ->. done.
Qed.

(** The safety pattern of a plain name is found in a listing exactly
    when the listing shows the name as present. *)
Lemma search_safety_pattern name listing :
  search (literals (list_ascii_of_string name) still_there) listing = true
  ↔ listed_as_present name listing.
Proof.
  unfold search. rewrite search_from_spec. split.
  - intros (before & m & after & Heq & (s' & -> & Hs)%matches_literals).
    apply matches_still_there in Hs
      as (w1 & w2 & state & w3 & -> & H1 & H2 & H3 & Hst).
    exists (string_of_list_ascii before), (string_of_list_ascii w1),
      (string_of_list_ascii w2), (string_of_list_ascii state),
      (string_of_list_ascii w3), (string_of_list_ascii after).
    rewrite !blank_chars, !list_ascii_of_string_of_list_ascii.
    split; [| split; [done | split; [done | split; [done |]]]].
    + apply chars_inj. rewrite Heq, !chars_app.
      rewrite !list_ascii_of_string_of_list_ascii. simpl.
      repeat (simpl; rewrite <- ?app_assoc). done.
    + destruct Hst as [-> | ->]; [left | right]; reflexivity.
  - intros (before & w1 & w2 & state & w3 & after & -> & H1 & H2 & H3 & Hst).
    apply blank_chars in H1, H2, H3.
    exists (list_ascii_of_string before),
      (list_ascii_of_string name
       ++ list_ascii_of_string w1 ++ ["|"%char] ++ list_ascii_of_string w2
       ++ list_ascii_of_string state ++ list_ascii_of_string w3
       ++ ["|"%char]),
      (list_ascii_of_string after).
    split.
    + rewrite !chars_app. repeat (simpl; rewrite <- ?app_assoc). done.
    + apply matches_literals. eexists. split; [done |].
      apply matches_still_there.
      exists (list_ascii_of_string w1), (list_ascii_of_string w2),
        (list_ascii_of_string state), (list_ascii_of_string w3).
      split; [done |]. split; [done |]. split; [done |]. split; [done |].
      destruct Hst as [-> | ->]; [left | right]; reflexivity.
Qed.
End Language.

(** ** The pattern of a name with a dot *)

Section Dot.
Import Re.

(** The pattern of a name made of two plain parts around a dot: the
    dot is compiled to the wildcard. *)
Lemma compile_dotted_pattern a b :
  plain_name a → plain_name b →
  compile (safety_pattern (a +:+ "." +:+ b))
  = Compiled
      (literals (list_ascii_of_string a)
         (Sequence AnyChar (literals (list_ascii_of_string b) still_there))).
Proof.
  intros Ha Hb. unfold compile, safety_pattern.
  rewrite !chars_app, <- !app_assoc, parse_plain by done.
  cbn [empty_frame branches items list_ascii_of_string app parse].
  cbn [Ascii.eqb Bool.eqb quantifier_of push branches items].
  rewrite parse_plain by done.
  cbn [branches items]. rewrite parse_still_there.
  rewrite fold_left_app. unfold push. cbn [items fold_left].
  by rewrite app_nil_r, !sequence_rev.
Qed.

Lemma matches_any s : matches AnyChar s ↔ ∃ c, c ≠ "010"%char ∧ s = [c].
Proof.
  split.
  - inversion 1; subst. eauto.
  - intros (c & Hc & ->). by constructor.
Qed.

(** The wildcard stands for one character that is no line feed. *)
Lemma matches_dotted a b r s :
  matches (literals a (Sequence AnyChar (literals b r))) s
  ↔ ∃ c, c ≠ "010"%char ∧ matches (literals (a ++ [c] ++ b) r) s.
Proof.
  rewrite matches_literals. split.
  - intros (s' & -> & (s1 & s2 & -> & (c & Hc & ->)%matches_any
                       & (s3 & -> & H)%matches_literals)%matches_sequence).
    exists c. split; [done |]. apply matches_literals. exists s3.
    split; [| done]. by rewrite <- !app_assoc.
  - intros (c & Hc & (s3 & -> & H)%matches_literals).
    exists ([c] ++ b ++ s3). split; [by rewrite <- !app_assoc |].
    apply matches_sequence. exists [c], (b ++ s3). split; [done |].
    split; [by constructor |]. apply matches_literals. eauto.
Qed.

(** The pattern of a dotted name is found in a listing exactly when the
    listing shows as present a name that has some character, a line
    feed apart, where the dot is. *)
Lemma search_dotted_pattern a b listing :
  search (literals (list_ascii_of_string a)
            (Sequence AnyChar
               (literals (list_ascii_of_string b) still_there))) listing
  = true
  ↔ ∃ c, c ≠ "010"%char
         ∧ listed_as_present (a +:+ String c "" +:+ b) listing.
Proof.
  split.
  - unfold search. rewrite search_from_spec.
    intros (before & m & after & Heq & (c & Hc & Hm)%matches_dotted).
    exists c. split; [done |]. apply search_safety_pattern.
    unfold search. rewrite search_from_spec. exists before, m, after.
    split; [done |]. by rewrite !chars_app.
  - intros (c & Hc & H%search_safety_pattern).
    unfold search in *. rewrite search_from_spec in *.
    destruct H as (before & m & after & Heq & Hm).
    exists before, m, after. split; [done |].
    apply matches_dotted. exists c. split; [done |].
    by rewrite !chars_app in Hm.
Qed.
End Dot.

(** ** The monad: binds, traces and [os.environ] *)

Section Monad.
Context {A B : Type}.

Lemma bind_inv (m : M A) (k : A → M B) s out s' :
  bind m k s = (out, s') →
  (∃ a s1, m s = (Returned a, s1) ∧ k a s1 = (out, s'))
  ∨ (∃ out1, m s = (out1, s') ∧ returned out1 = false ∧ out = recast out1).
Proof.
  unfold bind. destruct (m s) as [[a | e | |] s1]; intros H.
  - left. eauto.
  - right. exists (Raised e). by injection H as <- <-.
  - right. exists Unmodelled. by injection H as <- <-.
  - right. exists OutOfFuel. by injection H as <- <-.
Qed.

Lemma bind_returned (m : M A) (k : A → M B) s a s1 :
  m s = (Returned a, s1) → bind m k s = k a s1.
Proof. unfold bind. by intros ->. Qed.
End Monad.

Section Replay.
Lemma replay_app ev1 ev2 env :
  replay (ev1 ++ ev2) env = replay ev2 (replay ev1 env).
Proof. unfold replay. by rewrite fold_left_app. Qed.

Lemma process_nil s : s = Process (trace s ++ []) (replay [] (environ s)).
Proof. destruct s. simpl. by rewrite app_nil_r. Qed.

Lemma process_app t env ev1 ev2 :
  Process ((t ++ ev1) ++ ev2) (replay ev2 (replay ev1 env))
  = Process (t ++ ev1 ++ ev2) (replay (ev1 ++ ev2) env).
Proof. by rewrite replay_app, app_assoc. Qed.
End Replay.

Section Emits.
Context {A : Type}.
Implicit Types P : event → Prop.

Lemma emits_ret P (a : A) : emits P (ret a).
Proof.
  intros s out s' [= <- <-]. exists []. split; [apply process_nil | done].
Qed.

Lemma emits_raise P e : emits P (raise e : M A).
Proof.
  intros s out s' [= <- <-]. exists []. split; [apply process_nil | done].
Qed.

Lemma emits_unmodelled P : emits P (unmodelled : M A).
Proof.
  intros s out s' [= <- <-]. exists []. split; [apply process_nil | done].
Qed.

Lemma emits_out_of_fuel P : emits P (out_of_fuel : M A).
Proof.
  intros s out s' [= <- <-]. exists []. split; [apply process_nil | done].
Qed.

Lemma emits_reply P (a : answer A) : emits P (reply a).
Proof. destruct a; [apply emits_ret | apply emits_raise]. Qed.

Lemma emits_bind {B} P (m : M B) (k : B → M A) :
  emits P m → (∀ b, emits P (k b)) → emits P (bind m k).
Proof.
  intros Hm Hk s out s' H.
  apply bind_inv in H as [(b & s1 & H1 & H2) | (out1 & H1 & _ & _)].
  - apply Hm in H1 as (ev1 & -> & HP1).
    apply Hk in H2 as (ev2 & -> & HP2). simpl.
    exists (ev1 ++ ev2). split; [apply process_app |].
    by apply Forall_app.
  - by apply Hm in H1.
Qed.

Lemma emits_weaken P Q (m : M A) :
  (∀ e, P e → Q e) → emits P m → emits Q m.
Proof.
  intros HPQ Hm s out s' H. apply Hm in H as (ev & -> & HP).
  exists ev. split; [done |]. eapply Forall_impl; eauto.
Qed.
End Emits.

Section EmitsPrimitives.
Implicit Types P : event → Prop.

Lemma emits_print P text : P (EvPrint text) → emits P (print text).
Proof.
  intros HP s out s' [= <- <-]. exists [EvPrint text]. split; [done |].
  by constructor.
Qed.

Lemma emits_sleep P t : P (EvSleep t) → emits P (sleep t).
Proof.
  intros HP s out s' [= <- <-]. exists [EvSleep t]. split; [done |].
  by constructor.
Qed.

Lemma emits_call P c : P (EvCall c) → emits P (log (EvCall c)).
Proof.
  intros HP s out s' [= <- <-]. exists [EvCall c]. split; [done |].
  by constructor.
Qed.

Lemma emits_putenv P key val : P (EvPutenv key val) → emits P (putenv key val).
Proof.
  intros HP s out s'. unfold putenv.
  destruct (String.eqb key ""), (settable key val); intros [= <- <-].
  - exists []. split; [apply process_nil | done].
  - exists []. split; [apply process_nil | done].
  - exists [EvPutenv key val]. split; [done |]. by constructor.
  - exists []. split; [apply process_nil | done].
Qed.

Lemma emits_ask {A} P c (a : answer A) : P (EvCall c) → emits P (ask c a).
Proof.
  intros HP. apply emits_bind; [by apply emits_call |].
  intros _. apply emits_reply.
Qed.

Lemma emits_getitem P d key : emits P (getitem d key).
Proof.
  unfold getitem. destruct (d !! key); [apply emits_ret | apply emits_raise].
Qed.

Lemma emits_format P v : emits P (format v).
Proof.
  unfold format.
  destruct (Py.format_value v); [apply emits_ret | apply emits_unmodelled].
Qed.

Lemma emits_finally {A} P (body : M A) exit_ :
  emits P body → emits P exit_ → emits P (finally_ body exit_).
Proof.
  intros Hb Hx s out s' H. unfold finally_ in H.
  destruct (body s) as [[a | e | |] s1] eqn:Hbody;
    apply Hb in Hbody as (ev1 & -> & HP1).
  - pose proof (emits_bind P exit_ (fun _ => ret a) Hx
                  (fun _ => emits_ret P a)) as Hk.
    apply Hk in H as (ev2 & -> & HP2). simpl.
    exists (ev1 ++ ev2). split; [apply process_app | by apply Forall_app].
  - pose proof (emits_bind (A:=A) P exit_ (fun _ => raise e) Hx
                  (fun _ => emits_raise P e)) as Hk.
    apply Hk in H as (ev2 & -> & HP2). simpl.
    exists (ev1 ++ ev2). split; [apply process_app | by apply Forall_app].
  - injection H as <- <-. eauto.
  - injection H as <- <-. eauto.
Qed.
End EmitsPrimitives.

(** ** The safety check *)

Section Listings.
Lemma listings_app t ev : listings (t ++ ev) = (listings t + listings ev)%nat.
Proof. unfold listings. by rewrite List.filter_app, length_app. Qed.
End Listings.

Section SafetyCheck.
Variable o : oracle.
Variables (name : string) (host : option string) (port : option Z).

Lemma is_safe_to_submit_run s :
  is_safe_to_submit o name host port s
  = (match on_list_topologies o (listings (trace s)) with
     | Gives r =>
         if failed r
         then Raised (RuntimeError
                        "Error running streamparse.commands.list/-main")
         else match Re.compile (safety_pattern name) with
              | Re.Compiled p => Returned (negb (Re.search p (stdout r)))
              | Re.BadPattern msg => Raised (ReError msg)
              | Re.Unsupported => Unmodelled
              end
     | Throws e => Raised e
     end, listed host port s).
Proof.
  unfold is_safe_to_submit, _list_topologies, ask, log, reply, re_compile,
    bind, listed. simpl.
  destruct (on_list_topologies o (listings (trace s))) as [r | e]; [|done].
  simpl. destruct (failed r); [done |].
  destruct (Re.compile (safety_pattern name)); [| done | done].
  simpl. by destruct (Re.search p (stdout r)).
Qed.

Lemma is_safe_to_submit_reports s safe :
  reports o (listings (trace s)) name safe →
  is_safe_to_submit o name host port s = (Returned safe, listed host port s).
Proof.
  intros (listing & err & p & Hl & Hp & Hs).
  rewrite is_safe_to_submit_run, Hl, Hp. simpl. rewrite Hs.
  by rewrite negb_involutive.
Qed.

Lemma is_safe_to_submit_returned s safe s' :
  is_safe_to_submit o name host port s = (Returned safe, s') →
  reports o (listings (trace s)) name safe ∧ s' = listed host port s.
Proof.
  rewrite is_safe_to_submit_run. intros [= H <-]. split; [|done].
  destruct (on_list_topologies o (listings (trace s)))
    as [[k out err] | e] eqn:Hl; [|done].
  unfold failed in H. simpl in H. destruct k; [|done]. simpl in H.
  destruct (Re.compile (safety_pattern name)) eqn:Hp; [| done | done].
  injection H as <-. exists out, err, p.
  rewrite negb_involutive. by repeat split.
Qed.

Lemma is_safe_to_submit_state s :
  (is_safe_to_submit o name host port s).2 = listed host port s.
Proof. by rewrite is_safe_to_submit_run. Qed.
End SafetyCheck.

(** ** The poll loop and the kill phase *)

Section KillPhase.
Variable o : oracle.
Variables (name : string) (host : option string) (port : option Z).

#[local] Abbreviation listing := (EvCall (ListTopologies host port)).

Lemma listings_round t :
  listings ((t ++ [listing]) ++ [EvPrint (waiting name); EvSleep (1 # 2)])
  = S (listings t).
Proof. rewrite !listings_app. unfold listings at 2 3. simpl. lia. Qed.

Lemma wait_for_quit_step fuel s :
  wait_for_quit o (S fuel) name host port s
  = match is_safe_to_submit o name host port s with
    | (Returned true, s1) => (Returned tt, s1)
    | (Returned false, s1) =>
        wait_for_quit o fuel name host port
          (Process (trace s1 ++ [EvPrint (waiting name); EvSleep (1 # 2)])
                   (environ s1))
    | (out, s1) => (recast out, s1)
    end.
Proof.
  cbn [wait_for_quit]. unfold bind at 1.
  destruct (is_safe_to_submit o name host port s) as [[[|] | e | |] s1];
    try done.
  cbn [negb]. unfold bind, print, sleep, log. simpl.
  by rewrite <- app_assoc.
Qed.

(** Enough fuel and a listing that shows the topology gone end the
    loop. *)
Lemma wait_for_quit_returns k : ∀ fuel s,
  (k < fuel)%nat →
  (∀ i, (i < k)%nat → reports o (listings (trace s) + i) name false) →
  reports o (listings (trace s) + k) name true →
  wait_for_quit o fuel name host port s
  = (Returned tt,
     Process (trace s ++ poll_rounds k name host port ++ [listing])
             (environ s)).
Proof.
  induction k as [|k IH]; intros fuel s Hfuel Hbusy Hgone;
    (destruct fuel as [|fuel]; [lia |]); rewrite wait_for_quit_step.
  - rewrite Nat.add_0_r in Hgone.
    by rewrite (is_safe_to_submit_reports _ _ _ _ _ _ Hgone).
  - pose proof (Hbusy 0%nat ltac:(lia)) as H0. rewrite Nat.add_0_r in H0.
    rewrite (is_safe_to_submit_reports _ _ _ _ _ _ H0).
    unfold listed. cbn [trace environ].
    rewrite IH; cbn [trace environ].
    + f_equal. f_equal. rewrite <- !app_assoc. reflexivity.
    + lia.
    + intros i Hi. rewrite listings_round.
      replace (S (listings (trace s)) + i)%nat
        with (listings (trace s) + S i)%nat by lia.
      apply Hbusy. lia.
    + rewrite listings_round.
      replace (S (listings (trace s)) + k)%nat
        with (listings (trace s) + S k)%nat by lia.
      done.
Qed.

(** Whatever the listings say, the loop only lists, prints and sleeps;
    and when it returns, the last listing showed the topology gone. *)
Lemma wait_for_quit_polls fuel : ∀ s out s',
  wait_for_quit o fuel name host port s = (out, s') →
  ∃ ev,
    s' = Process (trace s ++ ev) (environ s)
    ∧ Forall (polling name host port) ev
    ∧ (out = Returned tt →
       ∃ k, ev = poll_rounds k name host port ++ [listing]
            ∧ reports o (listings (trace s) + k) name true).
Proof.
  induction fuel as [|fuel IH]; intros s out s'.
  - intros [= <- <-]. exists []. destruct s; simpl.
    rewrite app_nil_r. done.
  - rewrite wait_for_quit_step.
    destruct (is_safe_to_submit o name host port s) as [out1 s1] eqn:Hsafe.
    pose proof (is_safe_to_submit_state o name host port s) as Hs1.
    rewrite Hsafe in Hs1. simpl in Hs1. subst s1.
    destruct out1 as [[|] | e | |].
    + intros [= <- <-]. exists [listing]. split; [done |].
      split; [by apply Forall_singleton; left |]. intros _. exists 0%nat.
      split; [done |]. rewrite Nat.add_0_r.
      by apply is_safe_to_submit_returned in Hsafe as [? _].
    + intros H. apply IH in H as (ev & -> & Hev & Hret).
      unfold listed in *. cbn [trace environ] in *.
      exists (poll_round name host port ++ ev).
      split; [by rewrite <- !app_assoc |]. split.
      * apply Forall_app. split; [|done].
        unfold poll_round, polling.
        repeat first [apply Forall_nil_2 | apply Forall_cons_2]; auto.
      * intros Hout. destruct (Hret Hout) as (k & -> & Hk).
        exists (S k). split; [done |].
        rewrite listings_round in Hk.
        replace (listings (trace s) + S k)%nat
          with (S (listings (trace s)) + k)%nat by lia.
        done.
    + intros [= <- <-]. exists [listing]. split; [done |].
      split; [by apply Forall_singleton; left | done].
    + intros [= <- <-]. exists [listing]. split; [done |].
      split; [by apply Forall_singleton; left | done].
    + intros [= <- <-]. exists [listing]. split; [done |].
      split; [by apply Forall_singleton; left | done].
Qed.
End KillPhase.

Section Added.
Lemma added_app s t env ev :
  t = trace s → added s (Process (t ++ ev) env) = ev.
Proof. intros ->. unfold added. simpl. apply drop_app_length. Qed.

Lemma filter_none (p : event → bool) l :
  Forall (fun e => p e = false) l → List.filter p l = [].
Proof.
  induction 1 as [|e l He _ IH]; simpl; [done |]. by rewrite He.
Qed.
End Added.

Section KillPhaseClaims.
Variable o : oracle.
Variables (name : string) (host : option string) (port : option Z).
Variable wait : option Z.

#[local] Abbreviation listing := (EvCall (ListTopologies host port)).
#[local] Abbreviation kill := (EvCall (KillTopology name wait host port)).

Lemma kill_phase_unforced fuel s :
  _kill_existing_topology o fuel name false wait host port s
  = (Returned tt, s).
Proof. reflexivity. Qed.

Lemma kill_phase_absent fuel s :
  reports o (listings (trace s)) name true →
  _kill_existing_topology o fuel name true wait host port s
  = (Returned tt, listed host port s).
Proof.
  intros H. unfold _kill_existing_topology, and_not.
  unfold bind at 1. unfold bind at 1.
  by rewrite (is_safe_to_submit_reports _ _ _ _ _ _ H).
Qed.

Lemma kill_phase_present fuel s :
  reports o (listings (trace s)) name false →
  _kill_existing_topology o fuel name true wait host port s
  = match on_kill_topology o name with
    | Throws e =>
        (Raised e,
         Process (trace s ++ [listing; EvPrint (killing name); kill])
                 (environ s))
    | Gives _ =>
        match wait_for_quit o fuel name host port
                (Process (trace s ++ [listing; EvPrint (killing name); kill])
                         (environ s)) with
        | (Returned _, s') =>
            (Returned tt,
             Process (trace s' ++ [EvPrint "Killed."]) (environ s'))
        | (out, s') => (recast out, s')
        end
    end.
Proof.
  intros H.
  cbv beta iota delta [_kill_existing_topology and_not bind ret print log
                         ask reply _kill_topology].
  rewrite (is_safe_to_submit_reports _ _ _ _ _ _ H).
  unfold listed. cbn [negb trace environ]. rewrite <- !app_assoc. simpl.
  destruct (on_kill_topology o name) as [[] | e]; [|done].
  destruct (wait_for_quit _ _ _ _ _ _) as [[[] | e | |] s1]; done.
Qed.
End KillPhaseClaims.

(** ** The command of the submitter *)

Section Returned.
Context {A B : Type}.

Lemma bind_returned_inv (m : M A) (k : A → M B) s b s' :
  bind m k s = (Returned b, s') →
  ∃ a s1, m s = (Returned a, s1) ∧ k a s1 = (Returned b, s').
Proof.
  intros [H | (out1 & _ & Hout & Heq)]%bind_inv; [done |].
  by destruct out1.
Qed.
End Returned.

Section Options.
Import Py.

Lemma user_option_run option s :
  user_option option s
  = (if contains "deployment_stage" option
     then match split_on "=" option with
          | [key; val] =>
              Returned ("--option '" +:+ key +:+ "=" +:+ dq +:+ val +:+ dq
                        +:+ "'")
          | _ => Raised ValueError
          end
     else Returned ("--option " +:+ option), s).
Proof.
  unfold user_option. destruct (contains _ _); [|done].
  destruct (split_on "=" option) as [|key [|val [|? ?]]]; done.
Qed.

Lemma user_option_returned option s entry s' :
  user_option option s = (Returned entry, s') →
  s' = s ∧ entry_of option entry.
Proof.
  rewrite user_option_run. unfold entry_of.
  destruct (contains _ _).
  - destruct (split_on "=" option) as [|key [|val [|? ?]]];
      intros [= <- <-]. eauto.
  - by intros [= <- <-].
Qed.

Lemma append_user_options_returned options : ∀ cmd s cmd' s',
  append_user_options options cmd s = (Returned cmd', s') →
  s' = s
  ∧ ∃ entries, cmd' = cmd ++ entries ∧ Forall2 entry_of options entries.
Proof.
  induction options as [|option options IH]; intros cmd s cmd' s'; simpl.
  - intros [= <- <-]. split; [done |]. exists []. by rewrite app_nil_r.
  - intros (entry & s1 & [-> He]%user_option_returned
            & (-> & entries & -> & Hes)%IH)%bind_returned_inv.
    split; [done |]. exists (entry :: entries).
    rewrite <- app_assoc. split; [done |]. by constructor.
Qed.
End Options.

Section Command.
Import Py.

Variables (topology_name topology_file : string) (env_config : dict).
Variables (workers ackers : Z) (debug : bool).
Variables (host : option string) (port : option Z).

Lemma submit_command_returned options s cmd s' :
  _submit_topology_cmd topology_name topology_file env_config
    workers ackers options debug host port s = (Returned cmd, s') →
  ∃ more entries,
    cmd = (["lein"; submit_main; topology_file]
           ++ command_flags host port debug
           ++ topology_options workers ackers ++ more) ++ entries
    ∧ Forall2 entry_of (default [] options) entries
    ∧ _submit_topology_cmd topology_name topology_file env_config
        workers ackers None debug host port s
      = (Returned (["lein"; submit_main; topology_file]
                   ++ command_flags host port debug
                   ++ topology_options workers ackers ++ more), s').
Proof.
  unfold _submit_topology_cmd.
  set (cmd0 := (if debug then _ else _) ++ _).
  assert (Hcmd0 : cmd0 ++ [ "--option 'topology.acker.executors="
                            +:+ str_of_Z ackers +:+ "'"]
                  = ["lein"; submit_main; topology_file]
                    ++ command_flags host port debug
                    ++ topology_options workers ackers).
  { unfold cmd0, command_flags, topology_options.
    destruct (truthy_host host), (truthy_port port), debug; reflexivity. }
  rewrite Hcmd0. clear Hcmd0 cmd0.
  set (base := _ ++ _ ++ topology_options workers ackers).
  intros (cmd1 & s1 & H1 & H)%bind_returned_inv.
  rewrite (bind_returned _ _ _ _ _ H1).
  assert (∃ x1, cmd1 = base ++ x1) as [x1 ->].
  { destruct (truthy _).
    - apply bind_returned_inv in H1 as (root & s0 & _ & H1).
      destruct root; try done. injection H1 as <- _. eauto.
    - injection H1 as <- _. exists []. by rewrite app_nil_r. }
  clear H1.
  apply bind_returned_inv in H as (log_config & s2 & H2 & H).
  rewrite (bind_returned _ _ _ _ _ H2). clear H2.
  apply bind_returned_inv in H as (shown & s3 & H3 & H).
  rewrite (bind_returned _ _ _ _ _ H3). clear H3.
  apply bind_returned_inv in H as ([] & s4 & H4 & H).
  rewrite (bind_returned _ _ _ _ _ H4). clear H4.
  set (cmd4 := if truthy _ then _ else _) in *.
  assert (∃ x4, cmd4 = base ++ x4) as [x4 Hx4].
  { unfold cmd4. destruct (truthy _).
    - rewrite <- app_assoc. eauto.
    - eauto. }
  rewrite Hx4 in *. clear Hx4 cmd4 x1.
  apply bind_returned_inv in H as (cmd5 & s5 & H5 & H).
  rewrite (bind_returned _ _ _ _ _ H5).
  assert (∃ x5, cmd5 = base ++ x5) as [x5 ->].
  { destruct (is_int _).
    - apply bind_returned_inv in H5 as (sh & s0 & _ & H5).
      injection H5 as <- _. rewrite <- app_assoc. eauto.
    - injection H5 as <- _. eauto. }
  clear H5 x4.
  apply bind_returned_inv in H as (cmd6 & s6 & H6 & H).
  rewrite (bind_returned _ _ _ _ _ H6).
  assert (∃ x6, cmd6 = base ++ x6) as [x6 ->].
  { destruct (is_int _).
    - apply bind_returned_inv in H6 as (sh & s0 & _ & H6).
      injection H6 as <- _. rewrite <- app_assoc. eauto.
    - injection H6 as <- _. eauto. }
  clear H6 x5.
  set (cmd7 := match get log_config "level" with VStr _ => _ | _ => _ end)
    in *.
  assert (∃ x7, cmd7 = base ++ x7) as [x7 Hx7].
  { unfold cmd7. destruct (get log_config "level");
      rewrite <- ?app_assoc; eauto. }
  rewrite Hx7 in *. clear Hx7 cmd7 x6.
  apply append_user_options_returned in H as (-> & entries & -> & Hes).
  exists x7, entries. unfold base. rewrite <- !app_assoc. done.
Qed.
End Command.

(** ** What each function may add to the trace *)

Ltac emits_step :=
  lazymatch goal with
  | |- emits _ (bind _ _) => apply emits_bind; [| intros ?]
  | |- emits _ (ret _) => apply emits_ret
  | |- emits _ (raise _) => apply emits_raise
  | |- emits _ unmodelled => apply emits_unmodelled
  | |- emits _ out_of_fuel => apply emits_out_of_fuel
  | |- emits _ (ask _ _) => apply emits_ask
  | |- emits _ (log (EvCall _)) => apply emits_call
  | |- emits _ (print _) => apply emits_print
  | |- emits _ (sleep _) => apply emits_sleep
  | |- emits _ (putenv _ _) => apply emits_putenv
  | |- emits _ (getitem _ _) => apply emits_getitem
  | |- emits _ (format _) => apply emits_format
  | |- emits _ (finally_ _ _) => apply emits_finally
  | |- emits _ (if ?b then _ else _) => destruct b
  | |- emits _ (match ?x with _ => _ end) => destruct x
  end.

Ltac emits_auto := repeat emits_step.

Section EmitsFunctions.
Variable o : oracle.
Implicit Types P : event → Prop.

Lemma emits_run P command hide :
  P (EvCall (Run command hide)) → emits P (run o command hide).
Proof. intros HP. by apply emits_ask. Qed.

Lemma emits_import P file :
  P (EvCall (Import file)) → emits P (import_ o file).
Proof. intros HP. unfold import_. emits_auto. done. Qed.

Lemma emits_get_user_tasks P :
  (∀ file, P (EvCall (Import file))) → emits P (get_user_tasks o).
Proof.
  intros HP. unfold get_user_tasks.
  apply emits_bind; [by apply emits_import |]. intros [m |]; [|emits_auto].
  apply emits_bind; [by apply emits_import |]. intros [m' |]; emits_auto.
Qed.

Lemma emits_call_if_callable P f file hook topology_name env_name :
  P (EvCall (Hook file hook topology_name env_name)) →
  emits P (call_if_callable f file hook topology_name env_name).
Proof. intros HP. unfold call_if_callable. emits_auto. done. Qed.

Lemma emits_pre_submit_hooks topology_name env_name env_config :
  emits before_deploy (_pre_submit_hooks o topology_name env_name env_config).
Proof.
  unfold _pre_submit_hooks.
  apply emits_bind; [by apply emits_get_user_tasks |]. intros [m1 m2].
  apply emits_bind; [by apply emits_call_if_callable |]. intros _.
  by apply emits_call_if_callable.
Qed.


Lemma emits_jar_for_deploy : emits before_deploy (jar_for_deploy o).
Proof.
  unfold jar_for_deploy.
  emits_auto; try done; by apply emits_run.
Qed.

Lemma emits_prepare_and_build name env_name :
  emits before_deploy (prepare_and_build o name env_name).
Proof.
  unfold prepare_and_build.
  repeat first
    [ apply emits_pre_submit_hooks
    | apply emits_jar_for_deploy
    | emits_step
    | match goal with
      | |- emits _ (let (_, _) := ?x in _) => destruct x
      | |- emits _ (let '(_, _) := ?x in _) => destruct x
      end ];
    done.
Qed.

Lemma emits_is_safe_to_submit topology_name host port :
  emits (fun e => e = EvCall (ListTopologies host port))
    (is_safe_to_submit o topology_name host port).
Proof.
  intros s out s' H.
  pose proof (is_safe_to_submit_state o topology_name host port s) as Hs.
  rewrite H in Hs. simpl in Hs. subst s'.
  exists [EvCall (ListTopologies host port)]. split; [done |].
  by apply Forall_singleton.
Qed.

Lemma emits_wait_for_quit topology_name host port fuel :
  emits (polling topology_name host port)
    (wait_for_quit o fuel topology_name host port).
Proof.
  induction fuel as [|fuel IH]; cbn [wait_for_quit]; [emits_auto |].
  apply emits_bind.
  { eapply emits_weaken; [| apply emits_is_safe_to_submit].
    intros e ->. by left. }
  intros safe. destruct (negb safe); emits_auto; try done.
  - right. by left.
  - right. by right.
Qed.

Lemma emits_kill_existing_topology fuel topology_name force wait host port :
  emits kill_phase_event
    (_kill_existing_topology o fuel topology_name force wait host port).
Proof.
  unfold _kill_existing_topology, and_not, _kill_topology.
  assert (Hsafe : emits kill_phase_event
                    (is_safe_to_submit o topology_name host port)).
  { eapply emits_weaken; [| apply emits_is_safe_to_submit].
    by intros e ->. }
  assert (Hwait : emits kill_phase_event
                    (wait_for_quit o fuel topology_name host port)).
  { eapply emits_weaken; [| apply emits_wait_for_quit].
    by intros e [-> | [-> | ->]]. }
  apply emits_bind.
  { destruct force; emits_auto. done. }
  intros present. destruct present; emits_auto; done.
Qed.

Lemma emits_user_option P option : emits P (user_option option).
Proof.
  unfold user_option. emits_auto.
Qed.

Lemma emits_append_user_options P options :
  ∀ cmd, emits P (append_user_options options cmd).
Proof.
  induction options as [|option options IH]; intros cmd; simpl.
  - emits_auto.
  - apply emits_bind; [apply emits_user_option | intros ?; apply IH].
Qed.

Lemma emits_submit_topology_cmd topology_name topology_file env_config
    workers ackers options debug host port :
  emits (fun e => ∃ text, e = EvPrint text)
    (_submit_topology_cmd topology_name topology_file env_config
       workers ackers options debug host port).
Proof.
  unfold _submit_topology_cmd.
  repeat first [apply emits_append_user_options | emits_step]; eauto.
Qed.
End EmitsFunctions.

(** ** The submitter and the orchestrator *)

Section Environ.
Lemma replay_quiet ev env :
  Forall (fun e => is_putenv e = false) ev → replay ev env = env.
Proof.
  intros H. revert env.
  induction H as [|e ev He _ IH]; intros env; [done |].
  unfold replay in *. simpl. by destruct e.
Qed.

End Environ.

Section Submitter.
Variable o : oracle.
Variables (topology_name topology_file topology_jar : string).
Variables (env_config : Py.dict) (workers ackers : Z).
Variables (options : option (list string)) (debug : bool).
Variables (host : option string) (port : option Z).

Lemma submission_launch cmd :
  is_submission
    (EvCall (Run (Py.join " " ("lein" :: submit_main :: topology_file :: cmd))
                 None)) = true.
Proof. reflexivity. Qed.



End Submitter.

Section Deploy.
Variable o : oracle.
Variables (fuel : nat) (force debug : bool) (wait : option Z).
Variables (name file env_name jar : string) (env_config : Py.dict).
Variables (workers ackers : Z) (options : option (list string)).

#[local] Abbreviation this_deploy :=
  (deploy o fuel force debug wait name file env_name jar env_config
     workers ackers options).


Lemma calm_quiet ev :
  Forall calm ev → Forall (fun e => is_putenv e = false) ev.
Proof.
  intros H. eapply Forall_impl; [exact H | by intros e (_ & _ & _ & ?)].
Qed.

Lemma prints_quiet ev :
  Forall (fun e => ∃ text, e = EvPrint text) ev →
  Forall (fun e => is_putenv e = false) ev.
Proof. intros H. eapply Forall_impl; [exact H | by intros e [t ->]]. Qed.

End Deploy.

Section Calls.
Lemma ask_run {A} c (a : answer A) s :
  ask c a s
  = (match a with Gives x => Returned x | Throws e => Raised e end,
     Process (trace s ++ [EvCall c]) (environ s)).
Proof. by destruct a. Qed.

Lemma ask_returned {A} c (a : answer A) s x s' :
  ask c a s = (Returned x, s') → a = Gives x.
Proof. rewrite ask_run. destruct a; by intros [= <- _]. Qed.

End Calls.

Section Build.
Variable o : oracle.

Lemma run_returned command hide s res s' :
  run o command hide s = (Returned res, s') → on_run o command = Gives res.
Proof. apply ask_returned. Qed.

Lemma jar_for_deploy_returned s jar s' :
  jar_for_deploy o s = (Returned jar, s') → ¬ build_fails o.
Proof.
  unfold jar_for_deploy. intros H.
  apply bind_returned_inv in H as ([] & s1 & _ & H).
  apply bind_returned_inv in H as (res1 & s2 & Hclean%run_returned & H).
  apply bind_returned_inv in H as ([] & s3 & Hok1 & H).
  apply bind_returned_inv in H as ([] & s4 & _ & H).
  apply bind_returned_inv in H as (res2 & s5 & Hjar%run_returned & H).
  apply bind_returned_inv in H as ([] & s6 & Hok2 & _).
  unfold build_fails, command_fails. rewrite Hclean, Hjar.
  destruct (ok res1); [| done]. destruct (ok res2); [| done].
  by intros [? | ?].
Qed.

Lemma prepare_and_build_returned name env_name s r s' :
  prepare_and_build o name env_name s = (Returned r, s') →
  on_get_topology_definition o name = Gives (r.1.1.1.1.1.1, r.1.1.1.1.1.2)
  ∧ ¬ build_fails o.
Proof.
  unfold prepare_and_build. intros H.
  apply bind_returned_inv in H as ([] & s1 & _ & H).
  apply bind_returned_inv in H as (config & s2 & _ & H).
  apply bind_returned_inv in H
      as ([name' file] & s3 & Hdef%ask_returned & H).
  apply bind_returned_inv in H as ([env_name' env_config] & s4 & _ & H).
  apply bind_returned_inv in H as ([host port] & s5 & _ & H).
  apply bind_returned_inv in H as ([] & s6 & _ & H).
  apply bind_returned_inv in H as ([] & s7 & _ & H).
  apply bind_returned_inv in H as ([] & s8 & _ & H).
  apply bind_returned_inv in H as (jar & s9 & Hjar & H).
  injection H as <- _. simpl. split; [done |].
  by apply jar_for_deploy_returned in Hjar.
Qed.
End Build.

Section Orchestrator.
Variable o : oracle.
Variables (fuel : nat) (name env_name : option string).
Variables (workers ackers : Z) (options : option (list string)).
Variables (force debug : bool) (wait : option Z).

Lemma before_deploy_calm ev : Forall before_deploy ev → Forall calm ev.
Proof. intros H. eapply Forall_impl; [exact H | by intros e [? _]]. Qed.

End Orchestrator.

(** ** Runs that end the Python way; a kill phase that returns *)

Section PythonOnly.
Lemma python_only_ret {A} (a : A) : python_only (ret a).
Proof. by intros s. Qed.

Lemma python_only_raise {A} e : python_only (raise e : M A).
Proof. by intros s. Qed.

Lemma python_only_bind {A B} (m : M A) (k : A → M B) :
  python_only m → (∀ a, python_only (k a)) → python_only (bind m k).
Proof.
  intros Hm Hk s. unfold bind. specialize (Hm s).
  destruct (m s) as [[a | e | |] s1]; try done. apply Hk.
Qed.

Lemma python_only_print text : python_only (print text).
Proof. by intros s. Qed.

Lemma python_only_ask {A} c (a : answer A) : python_only (ask c a).
Proof. intros s. rewrite ask_run. by destruct a. Qed.

Lemma python_only_getitem d key : python_only (getitem d key).
Proof. intros s. unfold getitem. by destruct (d !! key). Qed.

Lemma raised_of_pythonic {A} (out : outcome A) :
  pythonic out → returned out = false → ∃ e, out = Raised e.
Proof. destruct out; try done. eauto. Qed.
End PythonOnly.

Ltac python_step :=
  lazymatch goal with
  | |- python_only (bind _ _) => apply python_only_bind; [| intros ?]
  | |- python_only (ret _) => apply python_only_ret
  | |- python_only (raise _) => apply python_only_raise
  | |- python_only (ask _ _) => apply python_only_ask
  | |- python_only (run _ _ _) => apply python_only_ask
  | |- python_only (print _) => apply python_only_print
  | |- python_only (getitem _ _) => apply python_only_getitem
  | |- python_only (log (EvCall _)) => by intros ?
  | |- python_only (if ?b then _ else _) => destruct b
  | |- python_only (match ?x with _ => _ end) => destruct x
  end.

Section PythonOnlyFunctions.
Variable o : oracle.

Lemma python_only_pre_submit_hooks topology_name env_name env_config :
  python_only (_pre_submit_hooks o topology_name env_name env_config).
Proof.
  unfold _pre_submit_hooks, get_user_tasks, import_, call_if_callable,
    getattr.
  repeat python_step.
Qed.

Lemma python_only_jar_for_deploy : python_only (jar_for_deploy o).
Proof. unfold jar_for_deploy. repeat python_step. Qed.

Lemma python_only_prepare_and_build name env_name :
  python_only (prepare_and_build o name env_name).
Proof.
  unfold prepare_and_build.
  repeat first [ apply python_only_pre_submit_hooks
               | apply python_only_jar_for_deploy
               | python_step ].
Qed.
End PythonOnlyFunctions.

Section KillPhaseReturned.
Variable o : oracle.
Variables (name : string) (host : option string) (port : option Z).
Variable wait : option Z.


End KillPhaseReturned.

Section AddedEvents.
Lemma added_process s ev env : added s (Process (trace s ++ ev) env) = ev.
Proof. by apply added_app. Qed.
End AddedEvents.

Section Membership.



End Membership.

Section Unforced.
Variable o : oracle.
Implicit Types P : event → Prop.



End Unforced.

(** ** The properties *)




(** C2, amended: for a topology name in which no character is special for
    [re], and a listing that the list command delivered, the safety check
    returns [False] exactly when the listing holds the name followed by
    blanks, a bar, blanks, ACTIVE or KILLED, blanks and a bar (the blanks
    may be line breaks), and [True] otherwise. *)
Theorem safety_check_of_plain_name :
  ∀ o topology_name host port s listing err,
    plain_name topology_name →
    on_list_topologies o (listings (trace s))
    = Gives (Result true listing err) →
    ∃ verdict,
      (is_safe_to_submit o topology_name host port s).1 = Returned verdict
      ∧ (verdict = false ↔ listed_as_present topology_name listing)
      ∧ (verdict = true ↔ ¬ listed_as_present topology_name listing).
Proof.
  intros o name host port s listing err Hplain Hlist.
  rewrite is_safe_to_submit_run, Hlist, (compile_safety_pattern _ Hplain).
  cbn [failed ok negb stdout fst].
  pose proof (search_safety_pattern name listing) as Hsearch.
  destruct (Re.search _ listing); eexists; (split; [reflexivity |]);
    cbn [negb].
  - split; [split; [intros _; by apply Hsearch | done] |].
    split; [done |]. intros H. exfalso. apply H. by apply Hsearch.
  - assert (Hno : ¬ listed_as_present name listing).
    { intros H. apply Hsearch in H. done. }
    split; [split; [done | intros H; by destruct Hno] | done].
Qed.

(** The check of [wordcount] on a listing of two topologies. *)
Lemma safety_check_of_plain_name_witness :
  let o := example_oracle
             (fun _ => example_listing ("other | ACTIVE | 3" +:+ Py.nl
                                       +:+ "wordcount     |   KILLED  | 12"))
             example_run ImportError in
  plain_name "wordcount"
  ∧ ∃ verdict,
      (is_safe_to_submit o "wordcount" None None start).1 = Returned verdict
      ∧ (verdict = false ↔
         listed_as_present "wordcount"
           ("other | ACTIVE | 3" +:+ Py.nl
            +:+ "wordcount     |   KILLED  | 12")).
Proof.
  cbv zeta.
  assert (Hplain : plain_name "wordcount") by reflexivity.
  split; [exact Hplain |].
  destruct (safety_check_of_plain_name
              (example_oracle
                 (fun _ => example_listing
                             ("other | ACTIVE | 3" +:+ Py.nl
                              +:+ "wordcount     |   KILLED  | 12"))
                 example_run ImportError)
              "wordcount" None None start _ "" Hplain eq_refl)
    as (verdict & Hv & Hiff & _).
  exists verdict. split; [exact Hv | exact Hiff].
Defined.

(** C2, the claim as the specification words it, fails: the name [a.c] is
    reported present by a listing that has a line for [abc] only; [wc] is
    reported present although no line holds [wc | ACTIVE |] with its single
    spaces; and [a+b] is reported absent by a listing with the line
    [a+b | ACTIVE |]. *)
Lemma safety_check_is_not_a_line_match :
  let check name text :=
    (is_safe_to_submit
       (example_oracle (fun _ => example_listing text) example_run ImportError)
       name None None start).1 in
  (check "a.c" "abc | ACTIVE |" = Returned false
   ∧ some_line_shows "a.c" "abc | ACTIVE |" = false)
  ∧ (check "wc" "wc   |  ACTIVE  |" = Returned false
     ∧ some_line_shows "wc" "wc   |  ACTIVE  |" = false)
  ∧ (check "a+b" "a+b | ACTIVE |" = Returned true
     ∧ some_line_shows "a+b" "a+b | ACTIVE |" = true).
Proof.
  vm_compute. done.
Qed.

(** C3: when [force] is set and the first safety check reports the
    topology present, the kill phase issues the kill command once, right
    after that check; all it does afterwards is list, print and sleep half
    a second between two listings, then print that the topology is killed.
    It returns only after a listing that shows the topology gone, and it
    does return, after [k] rounds of polling, when the listing that follows
    them is the first to show it gone and the fuel allows [k] rounds. *)
Theorem kill_phase_kills_once :
  ∀ o fuel topology_name wait host port s,
    reports o (listings (trace s)) topology_name false →
    let run :=
      _kill_existing_topology o fuel topology_name true wait host port s in
    let listing := EvCall (ListTopologies host port) in
    ∃ rest,
      trace run.2
      = trace s
        ++ [listing; EvPrint (killing topology_name);
            EvCall (KillTopology topology_name wait host port)]
        ++ rest
      ∧ Forall (fun e => polling topology_name host port e
                         ∨ e = EvPrint "Killed.") rest
      ∧ length (List.filter is_kill (added s run.2)) = 1%nat
      ∧ (run.1 = Returned tt →
         ∃ k, rest = poll_rounds k topology_name host port
                     ++ [listing; EvPrint "Killed."]
              ∧ reports o (listings (trace s) + S k) topology_name true)
      ∧ (∀ k,
           on_kill_topology o topology_name = Gives tt →
           (∀ i, (1 ≤ i ≤ k)%nat →
                 reports o (listings (trace s) + i) topology_name false) →
           reports o (listings (trace s) + S k) topology_name true →
           (k < fuel)%nat →
           run.1 = Returned tt
           ∧ rest = poll_rounds k topology_name host port
                    ++ [listing; EvPrint "Killed."]).
Proof.
  intros o fuel name wait host port s Hpresent run listing.
  set (kill := EvCall (KillTopology name wait host port)).
  set (s1 := Process (trace s ++ [listing; EvPrint (killing name); kill])
                     (environ s)).
  assert (Hcount : ∀ rest env,
             Forall (fun e => polling name host port e
                              ∨ e = EvPrint "Killed.") rest →
             length (List.filter is_kill
                       (added s (Process (trace s
                                          ++ [listing; EvPrint (killing name);
                                              kill] ++ rest) env))) = 1%nat).
  { intros rest env Hrest. rewrite added_app by done.
    rewrite List.filter_app, length_app, (filter_none is_kill rest); [done |].
    eapply Forall_impl; [exact Hrest |].
    intros e [[-> | [-> | ->]] | ->]; done. }
  assert (Hs1 : listings (trace s1) = S (listings (trace s))).
  { unfold s1. cbn [trace]. rewrite listings_app.
    unfold listings at 2. simpl. lia. }
  subst run. rewrite (kill_phase_present _ _ _ _ _ _ _ Hpresent).
  fold listing kill s1.
  destruct (on_kill_topology o name) as [[] | e] eqn:Hkill.
  - destruct (wait_for_quit o fuel name host port s1) as [out s2] eqn:Hwait.
    pose proof (wait_for_quit_polls _ _ _ _ _ _ _ _ Hwait)
      as (ev & -> & Hev & Hret).
    assert (Hliv : ∀ k,
               (∀ i, (1 ≤ i ≤ k)%nat →
                     reports o (listings (trace s) + i) name false) →
               reports o (listings (trace s) + S k) name true →
               (k < fuel)%nat →
               out = Returned tt
               ∧ ev = poll_rounds k name host port ++ [listing]).
    { intros k Hbusy Hgone Hfuel.
      rewrite (wait_for_quit_returns o name host port k fuel s1) in Hwait.
      - injection Hwait as <- Heq. split; [done |].
        by apply app_inv_head in Heq.
      - done.
      - intros i Hi. rewrite Hs1.
        replace (S (listings (trace s)) + i)%nat
          with (listings (trace s) + S i)%nat by lia.
        apply Hbusy. lia.
      - rewrite Hs1.
        replace (S (listings (trace s)) + k)%nat
          with (listings (trace s) + S k)%nat by lia.
        done. }
    destruct out as [[] | e | |]; cbn [fst snd trace environ recast].
    + exists (ev ++ [EvPrint "Killed."]).
      assert (Hall : Forall (fun e => polling name host port e
                                      ∨ e = EvPrint "Killed.")
                       (ev ++ [EvPrint "Killed."])).
      { apply Forall_app. split.
        - eapply Forall_impl; [exact Hev | by left].
        - apply Forall_singleton. by right. }
      unfold s1. cbn [trace]. rewrite <- !app_assoc.
      split; [done |]. split; [done |].
      split; [by apply (Hcount _ _ Hall) |]. split.
      * intros _. destruct (Hret eq_refl) as (k & -> & Hk).
        exists k. rewrite <- app_assoc. split; [done |].
        rewrite Hs1 in Hk.
        replace (listings (trace s) + S k)%nat
          with (S (listings (trace s)) + k)%nat by lia.
        done.
      * intros k _ Hbusy Hgone Hfuel.
        destruct (Hliv k Hbusy Hgone Hfuel) as [_ ->].
        by rewrite <- app_assoc.
    + exists ev.
      assert (Hall : Forall (fun e => polling name host port e
                                      ∨ e = EvPrint "Killed.") ev).
      { eapply Forall_impl; [exact Hev | by left]. }
      unfold s1. cbn [trace]. rewrite <- !app_assoc.
      split; [done |]. split; [done |].
      split; [by apply (Hcount _ _ Hall) |]. split; [done |].
      intros k _ Hbusy Hgone Hfuel.
      by destruct (Hliv k Hbusy Hgone Hfuel) as [? _].
    + exists ev.
      assert (Hall : Forall (fun e => polling name host port e
                                      ∨ e = EvPrint "Killed.") ev).
      { eapply Forall_impl; [exact Hev | by left]. }
      unfold s1. cbn [trace]. rewrite <- !app_assoc.
      split; [done |]. split; [done |].
      split; [by apply (Hcount _ _ Hall) |]. split; [done |].
      intros k _ Hbusy Hgone Hfuel.
      by destruct (Hliv k Hbusy Hgone Hfuel) as [? _].
    + exists ev.
      assert (Hall : Forall (fun e => polling name host port e
                                      ∨ e = EvPrint "Killed.") ev).
      { eapply Forall_impl; [exact Hev | by left]. }
      unfold s1. cbn [trace]. rewrite <- !app_assoc.
      split; [done |]. split; [done |].
      split; [by apply (Hcount _ _ Hall) |]. split; [done |].
      intros k _ Hbusy Hgone Hfuel.
      by destruct (Hliv k Hbusy Hgone Hfuel) as [? _].
  - exists []. cbn [fst snd trace environ]. unfold s1.
    split; [done |]. split; [done |].
    split; [by apply (Hcount [] _) |]. split; [done |].
    intros k Habs. done.
Qed.

(** Three listings show [wordcount] ACTIVE, the fourth shows nothing: the
    phase returns and has killed once. *)
Lemma kill_phase_kills_once_witness :
  let o := example_oracle
             (fun n => if (n <? 3)%nat
                       then example_listing "wordcount | ACTIVE | 12"
                       else example_listing "")
             example_run ImportError in
  let run := _kill_existing_topology o 5 "wordcount" true (Some 5) None None
               start in
  reports o 0 "wordcount" false
  ∧ run.1 = Returned tt
  ∧ length (List.filter is_kill (added start run.2)) = 1%nat.
Proof.
  cbv zeta.
  assert (H : reports
                (example_oracle
                   (fun n => if (n <? 3)%nat
                             then example_listing "wordcount | ACTIVE | 12"
                             else example_listing "")
                   example_run ImportError)
                (listings (trace start)) "wordcount" false).
  { eexists _, _, _. split; [reflexivity |]. split; reflexivity. }
  split; [exact H |]. split; [reflexivity |].
  destruct (kill_phase_kills_once _ 5%nat "wordcount" (Some 5) None None
              start H) as (rest & _ & _ & Hcount & _).
  exact Hcount.
Defined.

(** C4, amended: when the build fails, [submit_topology] and [main] end
    with an exception, the exit status is 1, and the run has made no
    listing, no kill, no launch of the submission command and has called no
    post-submit hook.  (The pre-submit hooks come before the build, so
    nothing is said of them.) *)
Theorem build_failure_aborts_before_deploy :
  ∀ o fuel args s,
    build_fails o →
    let quiet e :=
      is_listing e = false ∧ is_kill e = false ∧ is_submission e = false
      ∧ is_post_hook e = false in
    (∀ name env_name workers ackers options force debug wait,
       let run := submit_topology o fuel name env_name workers ackers options
                    force debug wait s in
       (∃ e, run.1 = Raised e) ∧ Forall quiet (added s run.2))
    ∧ (let run := main o fuel args s in
       (∃ e, run.1 = Raised e)
       ∧ exit_status run.1 = Some 1
       ∧ Forall quiet (added s run.2)).
Proof.
  intros o fuel args s Hfail quiet.
  assert (Hquiet : ∀ ev, Forall before_deploy ev → Forall quiet ev).
  { intros ev H. eapply Forall_impl; [exact H |].
    by intros e [(? & ? & ? & _) ?]. }
  assert (Hsub : ∀ s0 name env_name workers ackers options force debug wait,
             let run := submit_topology o fuel name env_name workers ackers
                          options force debug wait s0 in
             (∃ e, run.1 = Raised e)
             ∧ ∃ ev, run.2 = Process (trace s0 ++ ev) (environ s0)
                     ∧ Forall quiet ev).
  { intros s0 name env_name workers ackers options force debug wait run.
    subst run.
    destruct (submit_topology _ _ _ _ _ _ _ _ _ _ s0) as [out s'] eqn:H.
    unfold submit_topology in H.
    apply bind_inv in H as [(r & s1 & Hprep & _) | (out1 & Hprep & Hout & ->)].
    { by apply prepare_and_build_returned in Hprep as [_ ?]. }
    pose proof (python_only_prepare_and_build o name env_name s0) as Hpy.
    rewrite Hprep in Hpy. cbn [fst] in Hpy.
    destruct (raised_of_pythonic _ Hpy Hout) as [e He]. subst out1.
    apply emits_prepare_and_build in Hprep as (ev & -> & Hev).
    split; [by exists e |]. exists ev.
    rewrite replay_quiet; [auto |].
    by apply calm_quiet, before_deploy_calm. }
  split.
  - intros name env_name workers ackers options force debug wait run.
    destruct (Hsub s name env_name workers ackers options force debug wait)
      as [He (ev & Heq & Hev)].
    split; [done |]. subst run. rewrite Heq. by rewrite added_process.
  - cbv zeta. unfold main. cbv beta iota delta [bind]. rewrite ask_run.
    destruct (on_resolve_ackers_workers o args) as [args' | e].
    + set (s0 := Process (trace s ++ [EvCall ResolveAckersWorkers]) (environ s)).
      destruct (Hsub s0 (arg_name args') (arg_environment args')
                  (arg_workers args') (arg_ackers args') (arg_options args')
                  (arg_force args') (arg_debug args') (arg_wait args'))
        as [[e He] (ev & Heq & Hev)].
      destruct (submit_topology _ _ _ _ _ _ _ _ _ _ s0) as [out s'].
      cbn [fst snd] in *. subst out s'.
      split; [by exists e |]. split; [done |].
      unfold s0. cbn [trace environ]. rewrite <- app_assoc, added_process.
      apply Forall_cons_2; [done | done].
    + cbn [fst snd]. split; [by exists e |]. split; [done |].
      rewrite added_process. by apply Forall_singleton.
Qed.

(** [lein clean] exits with an error: [main] ends with status 1. *)
Lemma build_failure_aborts_before_deploy_witness :
  let o := example_oracle (fun _ => example_listing "")
             (fun _ => Gives (Result false "" "cannot clean")) ImportError in
  let args := Arguments_ None None 2 1 None false false None in
  build_fails o
  ∧ exit_status (main o 0 args start).1 = Some 1.
Proof.
  cbv zeta.
  assert (H : build_fails
                (example_oracle (fun _ => example_listing "")
                   (fun _ => Gives (Result false "" "cannot clean"))
                   ImportError)).
  { left. reflexivity. }
  split; [exact H |].
  exact (proj1 (proj2 (proj2 (build_failure_aborts_before_deploy
                                _ 0%nat (Arguments_ None None 2 1 None false
                                           false None) start H)))).
Defined.

(** C4, the claim as the specification words it, fails: [tasks.py] has a
    [pre_submit], [lein clean] exits with an error, and the hook has run
    all the same. *)
Lemma pre_submit_hook_runs_before_failing_build :
  let o := example_oracle (fun _ => example_listing "")
             (fun _ => Gives (Result false "" "cannot clean"))
             (Imported (UserModule (Callable (Gives tt)) NotCallable)) in
  let run := submit_topology o 0 None None 2 1 None false false None start in
  command_fails o "lein clean"
  ∧ (∃ e, run.1 = Raised e)
  ∧ In (EvCall (Hook Tasks PreSubmit "wordcount" "prod")) (trace run.2)
  ∧ existsb is_hook (trace run.2) = true.
Proof.
  cbv zeta. split; [reflexivity |]. split; [eexists; reflexivity |].
  split; [vm_compute; tauto | reflexivity].
Qed.

(** C5, amended: the entries that stand for the user's options close the
    command, one for each option and in their order: the option as it is
    after [--option] when the word [deployment_stage] occurs nowhere in it,
    in the key or in the value, and otherwise its key, an equals sign and
    its value between double quotes, the whole between single quotes.  So
    [deployment_stage=prod] is passed as [deployment_stage="prod"] and
    [foo=bar] as it is. *)
Theorem user_options_are_quoted_on_the_reserved_word :
  ∀ topology_name topology_file env_config workers ackers options debug
    host port s cmd s',
    _submit_topology_cmd topology_name topology_file env_config workers
      ackers (Some options) debug host port s = (Returned cmd, s') →
    (∃ front entries,
       cmd = front ++ entries
       ∧ _submit_topology_cmd topology_name topology_file env_config workers
           ackers None debug host port s = (Returned front, s')
       ∧ Forall2 entry_of options entries)
    ∧ entry_of "deployment_stage=prod"
        ("--option 'deployment_stage=" +:+ Py.dq +:+ "prod" +:+ Py.dq +:+ "'")
    ∧ entry_of "foo=bar" "--option foo=bar".
Proof.
  intros name file env_config workers ackers options debug host port s cmd s'
    H.
  split.
  - apply submit_command_returned in H as (more & entries & -> & He & Hnone).
    eauto.
  - split.
    + exists "deployment_stage", "prod". split; reflexivity.
    + reflexivity.
Qed.

(** The command for the two options of the specification. *)
Lemma user_options_are_quoted_on_the_reserved_word_witness :
  let run options :=
    _submit_topology_cmd "wordcount" "topologies/wordcount.clj"
      example_config 2 1 options false None None start in
  run (Some ["deployment_stage=prod"; "foo=bar"])
  = (Returned ["lein"; submit_main; "topologies/wordcount.clj";
               "--option 'topology.workers=2'";
               "--option 'topology.acker.executors=1'";
               "--option 'deployment_stage=" +:+ Py.dq +:+ "prod" +:+ Py.dq
               +:+ "'";
               "--option foo=bar"],
     Process [EvPrint "Routing Python logging to None."] ∅)
  ∧ ∃ front entries,
      run None = (Returned front,
                  Process [EvPrint "Routing Python logging to None."] ∅)
      ∧ Forall2 entry_of ["deployment_stage=prod"; "foo=bar"] entries.
Proof.
  cbv zeta.
  assert (H : _submit_topology_cmd "wordcount" "topologies/wordcount.clj"
                example_config 2 1 (Some ["deployment_stage=prod"; "foo=bar"])
                false None None start
              = (Returned ["lein"; submit_main; "topologies/wordcount.clj";
                           "--option 'topology.workers=2'";
                           "--option 'topology.acker.executors=1'";
                           "--option 'deployment_stage=" +:+ Py.dq +:+ "prod"
                           +:+ Py.dq +:+ "'";
                           "--option foo=bar"],
                 Process [EvPrint "Routing Python logging to None."] ∅)).
  { vm_compute. reflexivity. }
  split; [exact H |].
  destruct (proj1 (user_options_are_quoted_on_the_reserved_word
                     _ _ _ _ _ _ _ _ _ _ _ _ H))
    as (front & entries & _ & Hfront & Hentries).
  exists front, entries. split; [exact Hfront | exact Hentries].
Defined.

(** C5, the claim as the specification words it, fails: the key of
    [foo=deployment_stage] is [foo], where the reserved word does not
    occur, yet the option is not passed as it is. *)
Lemma option_is_quoted_for_its_value :
  let run := _submit_topology_cmd "wordcount" "topologies/wordcount.clj"
               example_config 2 1 (Some ["foo=deployment_stage"]) false
               None None start in
  option_key "foo=deployment_stage" = "foo"
  ∧ Py.contains "deployment_stage" (option_key "foo=deployment_stage") = false
  ∧ entry_by_key "foo=deployment_stage" "--option foo=deployment_stage"
  ∧ run.1 = Returned ["lein"; submit_main; "topologies/wordcount.clj";
                      "--option 'topology.workers=2'";
                      "--option 'topology.acker.executors=1'";
                      "--option 'foo=" +:+ Py.dq +:+ "deployment_stage"
                      +:+ Py.dq +:+ "'"]
  ∧ ¬ entry_by_key "foo=deployment_stage"
        ("--option 'foo=" +:+ Py.dq +:+ "deployment_stage" +:+ Py.dq +:+ "'").
Proof.
  cbv zeta. split; [reflexivity |]. split; [reflexivity |].
  split; [reflexivity |]. split; [reflexivity |].
  unfold entry_by_key. vm_compute. discriminate.
Qed.

(** C6: in every command the option builder returns, the two options that
    come first are [topology.workers] and [topology.acker.executors], in
    this order, with the numbers in decimal; before them stand only
    [lein], its [run -m] argument, the topology file and the flags for the
    host, the port and debugging, none of which is an option, and the
    options for the interpreter, the logs and the user come after. *)
Theorem topology_options_come_first :
  ∀ topology_name topology_file env_config workers ackers options debug
    host port s cmd s',
    _submit_topology_cmd topology_name topology_file env_config workers
      ackers options debug host port s = (Returned cmd, s') →
    Forall (fun flag => String.prefix "--option" flag = false)
      (command_flags host port debug)
    ∧ ∃ rest,
        cmd = ["lein"; submit_main; topology_file]
              ++ command_flags host port debug
              ++ ["--option 'topology.workers=" +:+ Py.str_of_Z workers
                  +:+ "'";
                  "--option 'topology.acker.executors="
                  +:+ Py.str_of_Z ackers +:+ "'"]
              ++ rest.
Proof.
  intros name file env_config workers ackers options debug host port s cmd s'
    H.
  split.
  - unfold command_flags.
    destruct (truthy_host host), (truthy_port port), debug;
      repeat first [apply Forall_nil_2 | apply Forall_cons_2]; reflexivity.
  - apply submit_command_returned in H as (more & entries & -> & _ & _).
    exists (more ++ entries). unfold topology_options.
    by rewrite <- !app_assoc.
Qed.

(** The command for two workers and one acker, with all the flags. *)
Lemma topology_options_come_first_witness :
  let run := _submit_topology_cmd "wordcount" "topologies/wordcount.clj"
               example_config 2 1 (Some ["foo=bar"]) true
               (Some "nimbus.example.com") (Some 6627) start in
  run = (Returned ["lein"; submit_main; "topologies/wordcount.clj";
                   "--host nimbus.example.com"; "--port 6627"; "--debug";
                   "--option 'topology.workers=2'";
                   "--option 'topology.acker.executors=1'";
                   "--option foo=bar"],
         Process [EvPrint "Routing Python logging to None."] ∅)
  ∧ ∃ rest,
      run.1 = Returned
                (["lein"; submit_main; "topologies/wordcount.clj"]
                 ++ command_flags (Some "nimbus.example.com") (Some 6627) true
                 ++ ["--option 'topology.workers=" +:+ Py.str_of_Z 2 +:+ "'";
                     "--option 'topology.acker.executors="
                     +:+ Py.str_of_Z 1 +:+ "'"]
                 ++ rest).
Proof.
  cbv zeta.
  assert (H : _submit_topology_cmd "wordcount" "topologies/wordcount.clj"
                example_config 2 1 (Some ["foo=bar"]) true
                (Some "nimbus.example.com") (Some 6627) start
              = (Returned ["lein"; submit_main; "topologies/wordcount.clj";
                           "--host nimbus.example.com"; "--port 6627";
                           "--debug"; "--option 'topology.workers=2'";
                           "--option 'topology.acker.executors=1'";
                           "--option foo=bar"],
                 Process [EvPrint "Routing Python logging to None."] ∅)).
  { vm_compute. reflexivity. }
  split; [exact H |].
  destruct (proj2 (topology_options_come_first _ _ _ _ _ _ _ _ _ _ _ _ H))
    as [rest Hrest].
  exists rest. rewrite H. cbn [fst]. by rewrite Hrest.
Defined.

(** C7: with [force] false the kill phase does nothing: for every topology
    name, every state of the process and whatever the collaborators would
    answer, it returns at once, the trace and [os.environ] are what they
    were, so no listing was asked for and no kill command issued. *)
Theorem kill_phase_without_force_is_noop :
  ∀ o fuel topology_name wait host port s,
    _kill_existing_topology o fuel topology_name false wait host port s
    = (Returned tt, s).
Proof.
  intros o fuel topology_name wait host port s. apply kill_phase_unforced.
Qed.

(** C8: when the list command fails, by an exception of its own or by a
    result that is [failed], the safety check raises: it gives no verdict,
    and the exception is the collaborator's own or the [RuntimeError] of
    the check. *)
Theorem safety_check_propagates_listing_failure :
  ∀ o topology_name host port s,
    listing_fails o (listings (trace s)) →
    let out := (is_safe_to_submit o topology_name host port s).1 in
    (∀ verdict, out ≠ Returned verdict)
    ∧ ∃ e, out = Raised e
           ∧ match on_list_topologies o (listings (trace s)) with
             | Gives _ =>
                 e = RuntimeError
                       "Error running streamparse.commands.list/-main"
             | Throws e' => e = e'
             end.
Proof.
  intros o name host port s Hfail out. subst out.
  rewrite is_safe_to_submit_run. unfold listing_fails in Hfail.
  destruct (on_list_topologies o (listings (trace s))) as [r | e];
    cbn [fst].
  - rewrite Hfail. split; [done | eauto].
  - split; [done | eauto].
Qed.

(** A listing that is [failed]: the check gives no verdict. *)
Lemma safety_check_propagates_listing_failure_witness :
  let o := example_oracle (fun _ => Gives (Result false "" "no nimbus"))
             example_run ImportError in
  listing_fails o (listings (trace start))
  ∧ ∀ verdict,
      (is_safe_to_submit o "wordcount" None None start).1 ≠ Returned verdict.
Proof.
  cbv zeta.
  assert (H : listing_fails
                (example_oracle (fun _ => Gives (Result false "" "no nimbus"))
                   example_run ImportError)
                (listings (trace start))) by reflexivity.
  split; [exact H |].
  exact (proj1 (safety_check_propagates_listing_failure _ "wordcount" None
                  None start H)).
Defined.




(** C10: the topology name goes into the pattern as it is, so a dot in it
    is the wildcard of [re]: for a name made of two plain parts around a
    dot and a listing that the list command delivered, the safety check
    returns [False] exactly when the listing shows as present a name that
    has some character, a line feed apart, where the dot is; so on the
    listing [abc | ACTIVE |], which never holds [a.c], the safety check
    of [a.c] returns [False]. *)
Theorem safety_check_reads_name_as_pattern :
  ∀ o host port s listing err,
    on_list_topologies o (listings (trace s))
    = Gives (Result true listing err) →
    (∀ before after,
       plain_name before → plain_name after →
       ∃ verdict,
         (is_safe_to_submit o (before +:+ "." +:+ after) host port s).1
         = Returned verdict
         ∧ (verdict = false ↔
            ∃ c, c ≠ "010"%char
                 ∧ listed_as_present (before +:+ String c "" +:+ after)
                     listing))
    ∧ (listing = "abc | ACTIVE |" →
       Py.contains "a.c" listing = false
       ∧ Py.lines listing = ["abc | ACTIVE |"]
       ∧ Re.compile (safety_pattern "a.c")
         = Re.Compiled
             (Re.Sequence (Re.Literal "a")
                (Re.Sequence Re.AnyChar
                   (Re.Sequence (Re.Literal "c") still_there)))
       ∧ (is_safe_to_submit o "a.c" host port s).1 = Returned false).
Proof.
  intros o host port s listing err Hlist. split.
  - intros before after Hb Ha.
    rewrite is_safe_to_submit_run, Hlist, (compile_dotted_pattern _ _ Hb Ha).
    cbn [failed ok negb stdout fst].
    pose proof (search_dotted_pattern before after listing) as Hsearch.
    destruct (Re.search _ listing); eexists; (split; [reflexivity |]);
      cbn [negb].
    + split; [intros _; by apply Hsearch | done].
    + split; [done |]. intros H. by apply Hsearch in H.
  - intros ->.
    split; [reflexivity |]. split; [reflexivity |]. split; [reflexivity |].
    rewrite is_safe_to_submit_run, Hlist. reflexivity.
Qed.

(** The check of [a.c] on the listing of [abc]. *)
Lemma safety_check_reads_name_as_pattern_witness :
  let o := example_oracle (fun _ => example_listing "abc | ACTIVE |")
             example_run ImportError in
  on_list_topologies o (listings (trace start))
  = Gives (Result true "abc | ACTIVE |" "")
  ∧ plain_name "a" ∧ plain_name "c"
  ∧ (∃ verdict,
       (is_safe_to_submit o ("a" +:+ "." +:+ "c") None None start).1
       = Returned verdict
       ∧ (verdict = false ↔
          ∃ c, c ≠ "010"%char
               ∧ listed_as_present ("a" +:+ String c "" +:+ "c")
                   "abc | ACTIVE |"))
  ∧ (is_safe_to_submit o "a.c" None None start).1 = Returned false.
Proof.
  cbv zeta.
  assert (Ha : plain_name "a") by reflexivity.
  assert (Hc : plain_name "c") by reflexivity.
  pose proof (safety_check_reads_name_as_pattern
                (example_oracle (fun _ => example_listing "abc | ACTIVE |")
                   example_run ImportError)
                None None start "abc | ACTIVE |" "" eq_refl) as [Hdot Habc].
  split; [reflexivity |]. split; [exact Ha |]. split; [exact Hc |].
  split; [exact (Hdot "a" "c" Ha Hc) |].
  exact (proj2 (proj2 (proj2 (Habc eq_refl)))).
Defined.

(** ** The build, the hooks and the poll loop, step by step *)

Section Words.

Import Py.

Lemma split_ws_words s : Forall word (split_ws s).
Proof.
  induction s as [|c t IH]; cbn [split_ws]; [by constructor|].
  destruct (isspace c) eqn:Hc; [done|].
  destruct t as [|c' t'].
  - constructor; [|by constructor].
    split; [done|]. by cbn; rewrite Hc.
  - destruct (isspace c') eqn:Hc'.
    + constructor; [|done].
      split; [done|]. by cbn; rewrite Hc.
    + destruct (split_ws (String c' t')) as [|h r].
      * constructor; [|by constructor].
        split; [done|]. by cbn; rewrite Hc.
      * apply Forall_cons in IH as [[_ Hh] Hr].
        constructor; [|done].
        split; [done|]. by cbn; rewrite Hc.
Qed.

Lemma rstrip_by_none p s :
  forallb (fun c => negb (p c)) (list_ascii_of_string s) = true →
  rstrip_by p s = s.
Proof.
  induction s as [|c t IH]; [done|].
  cbn. intros [Hc Ht]%andb_prop. rewrite (IH Ht).
  destruct t; [|done]. by destruct (p c).
Qed.

Lemma strip_word w : word w → strip w = w.
Proof.
  intros [Hne Hw]. unfold strip.
  destruct w as [|c t]; [done|].
  cbn in Hw. apply andb_prop in Hw as Hw'. destruct Hw' as [Hc Ht].
  cbn [lstrip_by]. apply negb_true_iff in Hc as ->.
  by apply rstrip_by_none.
Qed.

Lemma lstrip_by_spec p s :
  ∃ eaten,
    s = eaten +:+ lstrip_by p s
    ∧ forallb p (list_ascii_of_string eaten) = true
    ∧ ∀ c rest, lstrip_by p s = String c rest → p c = false.
Proof.
  induction s as [|c t (eaten & Heq & Hp & Hfirst)].
  - by exists "".
  - cbn [lstrip_by]. destruct (p c) eqn:Hc.
    + exists (String c eaten). split.
      { change (String c t = String c (eaten +:+ lstrip_by p t)). by f_equal. }
      split; [by cbn; rewrite Hc|done].
    + exists "". split; [done|]. split; [done|].
      intros c' rest [= -> _]. done.
Qed.

Lemma filter_first {A} (p : A → bool) l x rest :
  List.filter p l = x :: rest →
  ∃ before after,
    l = before ++ x :: after
    ∧ Forall (fun y => p y = false) before
    ∧ p x = true.
Proof.
  induction l as [|y l IH]; [done|].
  cbn. destruct (p y) eqn:Hy.
  - intros [= -> _]. by exists [], l.
  - intros (before & after & -> & Hb & Hx)%IH.
    exists (y :: before), after. by repeat split; [constructor|].
Qed.

End Words.

Section Jar.

Import Py.

Variable o : oracle.

#[local] Abbreviation cleaning :=
  [EvPrint "Cleaning from prior builds...";
   EvCall (Run "lein clean" (Some "stdout"))].
#[local] Abbreviation building :=
  [EvPrint "Cleaning from prior builds...";
   EvCall (Run "lein clean" (Some "stdout"));
   EvPrint "Creating topology uberjar...";
   EvCall (Run "lein uberjar" (Some "stdout"))].

#[local] Ltac tidy :=
  repeat (cbn [trace environ]; rewrite <- ?app_assoc); reflexivity.

(** The build, step by step. *)
Lemma jar_for_deploy_run s :
  jar_for_deploy o s
  = match on_run o "lein clean" with
    | Throws e => (Raised e, Process (trace s ++ cleaning) (environ s))
    | Gives cleaned =>
        if ok cleaned then
          match on_run o "lein uberjar" with
          | Throws e => (Raised e, Process (trace s ++ building) (environ s))
          | Gives built =>
              if ok built then
                match List.filter is_jar (split_ws (stdout built)) with
                | [] =>
                    (Raised IndexError,
                     Process (trace s ++ building) (environ s))
                | l :: _ =>
                    let uberjar := lstrip "Created " (strip l) in
                    (Returned uberjar,
                     Process (trace s ++ building
                              ++ [EvPrint ("Uberjar created: " +:+ uberjar)])
                             (environ s))
                end
              else (Raised (build_error "lein uberjar" built),
                    Process (trace s ++ building) (environ s))
          end
        else (Raised (build_error "lein clean" cleaned),
              Process (trace s ++ cleaning) (environ s))
    end.
Proof.
  unfold jar_for_deploy, run, ask, print, log, bind, reply, ret, raise.
  unfold build_error. cbn [trace environ].
  destruct (on_run o "lein clean") as [cleaned|e];
    [|tidy].
  destruct (ok cleaned); cbn [negb];
    [|tidy].
  destruct (on_run o "lein uberjar") as [built|e];
    [|tidy].
  destruct (ok built); cbn [negb];
    [|tidy].
  fold is_jar.
  destruct (List.filter is_jar (split_ws (stdout built))) as [|l rest];
    cbn [map]; tidy.
Qed.

End Jar.

Section Hooks.

Variable o : oracle.
Variables (hook : hook_name) (topology_name env_name : string).
Variable env_config : Py.dict.

#[local] Abbreviation call_of file :=
  (EvCall (Hook file hook topology_name env_name)).

#[local] Ltac tidy :=
  repeat (cbn [trace environ]; rewrite <- ?app_assoc); reflexivity.

Lemma get_user_tasks_run s :
  get_user_tasks o s
  = match on_import o Tasks with
    | ImportCrash e =>
        (Raised e, Process (trace s ++ [EvCall (Import Tasks)]) (environ s))
    | ImportError =>
        (Returned (None, None),
         Process (trace s ++ [EvCall (Import Tasks)]) (environ s))
    | Imported user_invoke =>
        (match on_import o Fabfile with
         | ImportCrash e => Raised e
         | ImportError => Returned (None, None)
         | Imported user_fabric =>
             Returned (Some user_invoke, Some user_fabric)
         end,
         Process (trace s ++ [EvCall (Import Tasks); EvCall (Import Fabfile)])
                 (environ s))
    end.
Proof.
  unfold get_user_tasks, import_, log, bind, ret, raise.
  destruct (on_import o Tasks); [|done..].
  cbn [trace environ].
  destruct (on_import o Fabfile); tidy.
Qed.

(** The hooks of one kind, step by step. *)
Lemma hooks_run s :
  hooks o hook topology_name env_name env_config s
  = match on_import o Tasks with
    | ImportCrash e =>
        (Raised e, Process (trace s ++ [EvCall (Import Tasks)]) (environ s))
    | ImportError =>
        (Returned tt,
         Process (trace s ++ [EvCall (Import Tasks)]) (environ s))
    | Imported user_invoke =>
        let imports := [EvCall (Import Tasks); EvCall (Import Fabfile)] in
        match on_import o Fabfile with
        | ImportCrash e =>
            (Raised e, Process (trace s ++ imports) (environ s))
        | ImportError =>
            (Returned tt, Process (trace s ++ imports) (environ s))
        | Imported user_fabric =>
            match hook_of hook user_invoke with
            | Callable (Throws e) =>
                (Raised e,
                 Process (trace s ++ imports ++ [call_of Tasks]) (environ s))
            | Callable (Gives _) =>
                match hook_of hook user_fabric with
                | Callable behaviour =>
                    (outcome_of behaviour,
                     Process (trace s ++ imports
                              ++ [call_of Tasks; call_of Fabfile])
                             (environ s))
                | NotCallable =>
                    (Returned tt,
                     Process (trace s ++ imports ++ [call_of Tasks])
                             (environ s))
                end
            | NotCallable =>
                match hook_of hook user_fabric with
                | Callable behaviour =>
                    (outcome_of behaviour,
                     Process (trace s ++ imports ++ [call_of Fabfile])
                             (environ s))
                | NotCallable =>
                    (Returned tt, Process (trace s ++ imports) (environ s))
                end
            end
        end
    end.
Proof.
  assert (Hask : ∀ file (b : answer unit) t,
             ask (Hook file hook topology_name env_name) b t
             = (outcome_of b,
                Process (trace t ++ [call_of file]) (environ t)))
    by (intros file b t; apply ask_run).
  destruct hook; cbn [hooks hook_of];
    unfold _pre_submit_hooks, _post_submit_hooks, bind at 1;
    rewrite get_user_tasks_run;
    (destruct (on_import o Tasks) as [user_invoke| |e]; [|done..]);
    (destruct (on_import o Fabfile) as [user_fabric| |e]; [|done..]);
    cbn [getattr call_if_callable]; unfold bind;
    [destruct (pre_submit user_invoke) as [|[[]|e]],
       (pre_submit user_fabric) as [|[[]|e']]
    |destruct (post_submit user_invoke) as [|[[]|e]],
       (post_submit user_fabric) as [|[[]|e']]];
    cbn [call_if_callable]; rewrite ?Hask; unfold ret; cbn [outcome_of];
    rewrite ?Hask; cbn [outcome_of]; tidy.
Qed.

End Hooks.

Section Waiting.

Variable o : oracle.
Variables (name : string) (host : option string) (port : option Z).

(** As long as the listings show the topology, the loop goes on. *)
Lemma wait_for_quit_waits fuel : ∀ s,
  (∀ i, (i < fuel)%nat → reports o (listings (trace s) + i) name false) →
  wait_for_quit o fuel name host port s
  = (OutOfFuel,
     Process (trace s ++ poll_rounds fuel name host port) (environ s)).
Proof.
  induction fuel as [|fuel IH]; intros s Hshown.
  - destruct s as [t env]. cbn. by rewrite app_nil_r.
  - rewrite wait_for_quit_step.
    rewrite (is_safe_to_submit_reports o name host port s false);
      [|rewrite <- (Nat.add_0_r (listings (trace s))); apply Hshown; lia].
    rewrite IH.
    + unfold listed. cbn [trace environ poll_rounds poll_round].
      by rewrite <- !app_assoc.
    + intros i Hi. unfold listed. cbn [trace].
      rewrite listings_round.
      replace (S (listings (trace s)) + i)%nat
        with (listings (trace s) + S i)%nat by lia.
      apply Hshown. lia.
Qed.

End Waiting.

(** ** Names that are no patterns, names within names *)

Section Names.

Lemma text_assoc a b c : (a +:+ b) +:+ c = a +:+ b +:+ c.
Proof.
  apply chars_inj. by rewrite !chars_app, app_assoc.
Qed.

(** A closing parenthesis after plain characters ends the parse. *)
Lemma compile_unbalanced prefix rest :
  plain_name prefix →
  Re.compile (safety_pattern (prefix +:+ ")" +:+ rest))
  = Re.BadPattern "unbalanced parenthesis".
Proof.
  intros Hplain. unfold Re.compile, safety_pattern.
  rewrite !chars_app, <- !app_assoc.
  rewrite (parse_plain _ _ _ _ Hplain).
  reflexivity.
Qed.

Lemma listed_under_a_longer_name longer name listing :
  listed_as_present (longer +:+ name) listing →
  listed_as_present name listing.
Proof.
  intros (before & w1 & w2 & state & w3 & after & -> & H).
  exists (before +:+ longer), w1, w2, state, w3, after.
  split; [|exact H]. by rewrite !text_assoc.
Qed.

End Names.

(** ** The command, part by part *)

Section Split.

Import Py.

Lemma occurrences_cons sep c t :
  occurrences sep (String c t)
  = ((if Ascii.eqb c sep then 1 else 0) + occurrences sep t)%nat.
Proof.
  unfold occurrences. cbn [list_ascii_of_string List.filter].
  rewrite (Ascii.eqb_sym sep c). by destruct (Ascii.eqb c sep).
Qed.

Lemma split_on_length sep s :
  length (split_on sep s) = S (occurrences sep s).
Proof.
  induction s as [|c t IH]; [done|].
  rewrite occurrences_cons. cbn [split_on].
  destruct (Ascii.eqb c sep); cbn [length]; [by rewrite IH|].
  destruct (split_on sep t); [done|]. cbn [length] in *. lia.
Qed.

End Split.

Section CommandParts.

Import Py.

Variables (topology_name topology_file : string) (env_config : dict).
Variables (workers ackers : Z) (debug : bool).
Variables (host : option string) (port : option Z).

#[local] Abbreviation size_option key v :=
  (match v with
   | VInt z => ["--option 'streamparse.log." +:+ key +:+ "=" +:+ str_of_Z z
                +:+ "'"]
   | VBool b => ["--option 'streamparse.log." +:+ key +:+ "="
                 +:+ str_of_bool b +:+ "'"]
   | _ => []
   end).

Lemma format_size key v s shown s' :
  is_int v = true →
  format v s = (Returned shown, s') →
  s' = s
  ∧ ["--option 'streamparse.log." +:+ key +:+ "=" +:+ shown +:+ "'"]
    = size_option key v.
Proof.
  unfold format. destruct v; try done; cbn; by intros _ [= <- <-].
Qed.

(** The command that [_submit_topology] assembles, part by part. *)
Lemma submit_command_parts options s cmd s' :
  _submit_topology_cmd topology_name topology_file env_config
    workers ackers options debug host port s = (Returned cmd, s') →
  ∃ d shown interpreter entries,
    get_default env_config "log" (VDict ∅) = VDict d
    ∧ format_value (or_ (get d "path") (get env_config "log_path"))
      = Some shown
    ∧ s' = Process (trace s
                    ++ [EvPrint ("Routing Python logging to " +:+ shown
                                 +:+ ".")])
                   (environ s)
    ∧ (if truthy (get_default env_config "use_virtualenv" (VBool true))
       then ∃ root,
           env_config !! "virtualenv_root" = Some (VStr root)
           ∧ interpreter
             = ["--option 'topology.python.path=" +:+ dq
                +:+ join "/" [root; topology_name; "bin"; "python"]
                +:+ dq +:+ "'"]
       else interpreter = [])
    ∧ Forall2 entry_of (default [] options) entries
    ∧ cmd = ["lein"; submit_main; topology_file]
            ++ command_flags host port debug
            ++ topology_options workers ackers
            ++ interpreter
            ++ (if truthy (or_ (get d "path") (get env_config "log_path"))
                then ["--option 'streamparse.log.path=" +:+ dq +:+ shown
                      +:+ dq +:+ "'"]
                else [])
            ++ size_option "max_bytes" (get d "max_bytes")
            ++ size_option "backup_count" (get d "backup_count")
            ++ (match get d "level" with
                | VStr level =>
                    ["--option 'streamparse.log.level=" +:+ dq
                     +:+ lower level +:+ dq +:+ "'"]
                | _ => []
                end)
            ++ entries.
Proof.
  unfold _submit_topology_cmd.
  set (cmd0 := (if debug then _ else _) ++ _).
  assert (Hcmd0 : cmd0 ++ [ "--option 'topology.acker.executors="
                            +:+ str_of_Z ackers +:+ "'"]
                  = ["lein"; submit_main; topology_file]
                    ++ command_flags host port debug
                    ++ topology_options workers ackers).
  { unfold cmd0, command_flags, topology_options.
    destruct (truthy_host host), (truthy_port port), debug; reflexivity. }
  rewrite Hcmd0. clear Hcmd0 cmd0.
  set (base := _ ++ _ ++ topology_options workers ackers).
  intros (cmd1 & s1 & H1 & H)%bind_returned_inv.
  assert (Hinterpreter :
            s1 = s
            ∧ ∃ interpreter,
                cmd1 = base ++ interpreter
                ∧ if truthy (get_default env_config "use_virtualenv"
                               (VBool true))
                  then ∃ root,
                      env_config !! "virtualenv_root" = Some (VStr root)
                      ∧ interpreter
                        = ["--option 'topology.python.path=" +:+ dq
                           +:+ join "/" [root; topology_name; "bin";
                                         "python"]
                           +:+ dq +:+ "'"]
                  else interpreter = []).
  { destruct (truthy _).
    - apply bind_returned_inv in H1 as (root & s0 & Hroot & H1).
      unfold getitem in Hroot.
      destruct (env_config !! "virtualenv_root") as [v|] eqn:Hv; [|done].
      injection Hroot as -> ->.
      destruct root; try done. injection H1 as <- <-.
      split; [done|]. eexists. split; [done|]. by eexists.
    - injection H1 as <- <-. split; [done|]. exists [].
      by rewrite app_nil_r. }
  destruct Hinterpreter as (-> & interpreter & -> & Hinterpreter).
  clear H1.
  apply bind_returned_inv in H as (d & s2 & H2 & H).
  assert (Hd : get_default env_config "log" (VDict ∅) = VDict d ∧ s2 = s).
  { destruct (get_default env_config "log" (VDict ∅)); try done.
    by injection H2 as <- <-. }
  destruct Hd as [Hd ->]. clear H2.
  apply bind_returned_inv in H as (shown & s3 & H3 & H).
  assert (Hshown : format_value (or_ (get d "path")
                                   (get env_config "log_path"))
                   = Some shown ∧ s3 = s).
  { unfold format in H3. destruct (format_value _); [|done].
    by injection H3 as <- <-. }
  destruct Hshown as [Hshown ->]. clear H3.
  apply bind_returned_inv in H as ([] & s4 & H4 & H).
  injection H4 as <-.
  apply bind_returned_inv in H as (cmd5 & s5 & H5 & H).
  set (path := if truthy (or_ (get d "path") (get env_config "log_path"))
               then _ else base ++ interpreter) in *.
  assert (Hpath : ∃ q, path = base ++ interpreter ++ q
            ∧ q = if truthy (or_ (get d "path") (get env_config "log_path"))
                  then ["--option 'streamparse.log.path=" +:+ dq +:+ shown
                        +:+ dq +:+ "'"]
                  else []).
  { unfold path. destruct (truthy (or_ _ _)); eexists; (split; [|done]);
      by rewrite <- ?app_assoc, ?app_nil_r. }
  destruct Hpath as (q & Hpath & Hq). rewrite Hpath in *. clear Hpath path.
  assert (H5' : s5 = Process (trace s ++ [EvPrint ("Routing Python logging to "
                                                  +:+ shown +:+ ".")])
                             (environ s)
                ∧ cmd5 = (base ++ interpreter ++ q)
                         ++ size_option "max_bytes" (get d "max_bytes")).
  { destruct (is_int (get d "max_bytes")) eqn:Hint.
    - apply bind_returned_inv in H5 as (sh & s0 & Hsh & H5).
      eapply (format_size "max_bytes") in Hsh as [-> Hsh]; [|done].
      injection H5 as <- <-. split; [done|].
      rewrite <- Hsh. reflexivity.
    - injection H5 as <- <-. split; [done|].
      destruct (get d "max_bytes"); try done; by rewrite app_nil_r. }
  destruct H5' as [-> ->]. clear H5.
  apply bind_returned_inv in H as (cmd6 & s6 & H6 & H).
  match type of H6 with
  | _ ?t = _ => set (s5 := t) in *
  end.
  assert (H6' : s6 = s5
                ∧ cmd6 = ((base ++ interpreter ++ q)
                          ++ size_option "max_bytes" (get d "max_bytes"))
                         ++ size_option "backup_count"
                              (get d "backup_count")).
  { destruct (is_int (get d "backup_count")) eqn:Hint.
    - apply bind_returned_inv in H6 as (sh & s0 & Hsh & H6).
      eapply (format_size "backup_count") in Hsh as [-> Hsh]; [|done].
      injection H6 as <- <-. split; [done|].
      rewrite <- Hsh. reflexivity.
    - injection H6 as <- <-. split; [done|].
      destruct (get d "backup_count"); try done; by rewrite app_nil_r. }
  destruct H6' as [-> ->]. clear H6.
  apply append_user_options_returned in H as (-> & entries & -> & Hes).
  exists d, shown, interpreter, entries.
  split; [done|]. split; [done|]. split; [done|]. split; [done|].
  split; [done|]. rewrite Hq. unfold base.
  destruct (get d "level"); rewrite <- ?app_assoc, ?app_nil_r; try done.
Qed.

End CommandParts.

Section SplitJoin.

Import Py.

Lemma split_on_parts sep s :
  Forall (fun part => occurrences sep part = 0%nat) (split_on sep s).
Proof.
  induction s as [|c t IH]; [by repeat constructor|].
  cbn [split_on]. destruct (Ascii.eqb c sep) eqn:Hc.
  - by constructor.
  - destruct (split_on sep t) as [|h r].
    + constructor; [|done]. by rewrite occurrences_cons, Hc.
    + apply Forall_cons in IH as [Hh Hr]. constructor; [|done].
      by rewrite occurrences_cons, Hc.
Qed.

(** [sep.join(s.split(sep))] is [s]. *)
Lemma join_split_on sep s : join (String sep "") (split_on sep s) = s.
Proof.
  induction s as [|c t IH]; [done|].
  cbn [split_on]. destruct (Ascii.eqb c sep) eqn:Hc.
  - apply Ascii.eqb_eq in Hc as ->.
    pose proof (split_on_length sep t) as Hlen.
    destruct (split_on sep t) as [|h r]; [done|].
    unfold join in *. cbn [String.concat] in *. rewrite IH. reflexivity.
  - pose proof (split_on_length sep t) as Hlen.
    destruct (split_on sep t) as [|h r]; [done|].
    unfold join in *. destruct r as [|h' r]; cbn [String.concat] in *;
      rewrite <- IH; reflexivity.
Qed.

Lemma split_on_two sep s key val :
  split_on sep s = [key; val] →
  s = key +:+ String sep val
  ∧ occurrences sep key = 0%nat ∧ occurrences sep val = 0%nat.
Proof.
  intros H. pose proof (join_split_on sep s) as Hjoin.
  pose proof (split_on_parts sep s) as Hparts.
  rewrite H in Hjoin, Hparts. split; [by rewrite <- Hjoin|].
  apply Forall_cons in Hparts as [Hk Hv].
  by apply Forall_cons in Hv as [Hv _].
Qed.

End SplitJoin.

Section Submitter2.

Import Py.

Variable o : oracle.
Variables (topology_name topology_file topology_jar : string).
Variables (env_config : dict) (workers ackers : Z).
Variables (options : option (list string)) (debug : bool).
Variables (host : option string) (port : option Z).

(** The submitter in terms of the command it assembles. *)
Lemma submitter_steps s :
  _submit_topology o topology_name topology_file topology_jar env_config
    workers ackers options debug host port s
  = if settable "JVM_OPTS" (jvm_opts topology_jar)
    then
      match _submit_topology_cmd topology_name topology_file env_config
              workers ackers options debug host port
              (Process (trace s ++ [EvPutenv "JVM_OPTS" (jvm_opts topology_jar)])
                       (<["JVM_OPTS" := jvm_opts topology_jar]> (environ s)))
      with
      | (Returned cmd, s1) =>
          (match on_run o (join " " cmd) with
           | Gives _ => Returned tt
           | Throws e => Raised e
           end,
           Process (trace s1
                    ++ [EvPrint "Running lein command to submit topology to nimbus:";
                        EvPrint (join " " cmd);
                        EvCall (Run (join " " cmd) None)])
                   (environ s1))
      | (out, s1) => (recast out, s1)
      end
    else (Raised ValueError, s).
Proof.
  unfold _submit_topology, putenv, bind at 1 2.
  change (String.eqb "JVM_OPTS" "") with false. cbv iota.
  change (settable "JVM_OPTS" (join " " _))
    with (settable "JVM_OPTS" (jvm_opts topology_jar)).
  destruct (settable "JVM_OPTS" (jvm_opts topology_jar)); [| done].
  destruct (_submit_topology_cmd _ _ _ _ _ _ _ _ _ _) as [[cmd| | |] s1];
    [|done..].
  unfold print, run, ask, log, bind, reply, ret, raise.
  cbn [trace environ].
  destruct (on_run o (join " " cmd)); by rewrite <- !app_assoc.
Qed.


End Submitter2.

Section BindFacts.

Context {A B : Type}.

Lemma bind_ext (m : M A) (k k' : A → M B) s :
  (∀ a s1, k a s1 = k' a s1) → bind m k s = bind m k' s.
Proof.
  intros H. unfold bind. by destruct (m s) as [[a| | |] s1].
Qed.

Lemma bind_ret (a : A) (k : A → M B) s : bind (ret a) k s = k a s.
Proof. reflexivity. Qed.

End BindFacts.

(** ** The orchestrator, step by step *)

Section Binds.

Context {A B : Type}.

Lemma emits_bind_returned P (m : M A) (k : A → M B) :
  emits P m →
  (∀ s a s1, m s = (Returned a, s1) → emits P (k a)) →
  emits P (bind m k).
Proof.
  intros Hm Hk s out s' H.
  apply bind_inv in H as [(a & s1 & Hms & H) | (out1 & Hms & _ & _)].
  - pose proof (Hk _ _ _ Hms _ _ _ H) as (ev2 & -> & Hev2).
    apply Hm in Hms as (ev1 & -> & Hev1). cbn [trace environ].
    exists (ev1 ++ ev2). split; [apply process_app|].
    by apply Forall_app.
  - by apply Hm in Hms.
Qed.

Lemma emits_bind_ask P c (a : answer A) (k : A → M B) :
  P (EvCall c) → (∀ x, a = Gives x → emits P (k x)) →
  emits P (bind (ask c a) k).
Proof.
  intros Hc Hk. apply emits_bind_returned; [by apply emits_ask|].
  intros s x s1 Hx%ask_returned. by apply Hk.
Qed.

Lemma stops_bind_l P (m : M A) (k : A → M B) :
  stops P m → stops P (bind m k).
Proof.
  intros Hm s out s' H.
  apply bind_inv in H as [(a & s1 & Hms & H) | (out1 & Hms & Hret & ->)].
  - by apply Hm in Hms as [? _].
  - apply Hm in Hms as [_ Hev]. split; [by destruct out1|done].
Qed.

Lemma stops_bind_returned P (m : M A) (k : A → M B) :
  emits P m →
  (∀ s a s1, m s = (Returned a, s1) → stops P (k a)) →
  stops P (bind m k).
Proof.
  intros Hm Hk s out s' H.
  apply bind_inv in H as [(a & s1 & Hms & H) | (out1 & Hms & Hret & ->)].
  - pose proof (Hk _ _ _ Hms _ _ _ H) as (Hout & ev2 & -> & Hev2).
    split; [done|].
    apply Hm in Hms as (ev1 & -> & Hev1). cbn [trace environ].
    exists (ev1 ++ ev2). split; [apply process_app|].
    by apply Forall_app.
  - split; [by destruct out1|]. by apply Hm in Hms.
Qed.

Lemma stops_bind_r P (m : M A) (k : A → M B) :
  emits P m → (∀ a, stops P (k a)) → stops P (bind m k).
Proof.
  intros Hm Hk. apply stops_bind_returned; [done|]. intros _ a _ _. apply Hk.
Qed.

End Binds.

Section Both.

Lemma emits_and {A} P Q (m : M A) :
  emits P m → emits Q m → emits (fun e => P e ∧ Q e) m.
Proof.
  intros HP HQ s out s' H.
  destruct (HP _ _ _ H) as (ev & -> & Hev).
  destruct (HQ _ _ _ H) as (ev' & Heq & Hev').
  injection Heq as Heq%app_inv_head _. subst ev'.
  exists ev. split; [done|].
  apply Forall_forall. intros e He.
  rewrite Forall_forall in Hev, Hev'. by split; [apply Hev|apply Hev'].
Qed.

End Both.

Section Classes.

Variable o : oracle.

Lemma emits_kill_phase fuel topology_name force wait host port :
  emits (deploy_event host port)
    (_kill_existing_topology o fuel topology_name force wait host port).
Proof.
  assert (Hcheck : emits (deploy_event host port)
                     (is_safe_to_submit o topology_name host port)).
  { eapply emits_weaken; [|apply emits_is_safe_to_submit].
    by intros e ->. }
  unfold _kill_existing_topology, and_not, _kill_topology.
  destruct force.
  - apply emits_bind; [apply emits_bind; [done|intros ?; apply emits_ret]|].
    intros present. destruct present; [|apply emits_ret].
    apply emits_bind; [by apply emits_print|]. intros _.
    apply emits_bind; [by apply emits_ask|]. intros _.
    apply emits_bind; [|intros _; by apply emits_print].
    eapply emits_weaken; [|apply emits_wait_for_quit].
    by intros e [->|[->| ->]].
  - apply emits_bind; [apply emits_ret|]. intros present.
    destruct present; [|apply emits_ret].
    apply emits_bind; [by apply emits_print|]. intros _.
    apply emits_bind; [by apply emits_ask|]. intros _.
    apply emits_bind; [|intros _; by apply emits_print].
    eapply emits_weaken; [|apply emits_wait_for_quit].
    by intros e [->|[->| ->]].
Qed.

Lemma emits_hooks P hook topology_name env_name env_config :
  (∀ file, P (EvCall (Import file))) →
  (∀ file, P (EvCall (Hook file hook topology_name env_name))) →
  emits P (hooks o hook topology_name env_name env_config).
Proof.
  intros Himport Hhook.
  destruct hook; cbn [hooks];
    unfold _pre_submit_hooks, _post_submit_hooks;
    (apply emits_bind; [by apply emits_get_user_tasks|]);
    intros [user_invoke user_fabric];
    (apply emits_bind; [|intros _]); by apply emits_call_if_callable.
Qed.

Lemma emits_deploy fuel force debug wait name file env_name jar env_config
    workers ackers options host port :
  emits (deploy_event host port)
    (deploy o fuel force debug wait name file env_name jar env_config
       workers ackers options host port).
Proof.
  unfold deploy.
  apply emits_bind; [apply emits_kill_phase|]. intros _.
  apply emits_bind.
  - unfold _submit_topology.
    apply emits_bind; [by apply emits_putenv|]. intros _.
    apply emits_bind.
    { eapply emits_weaken; [|apply emits_submit_topology_cmd].
      by intros e [text ->]. }
    intros cmd.
    apply emits_bind; [by apply emits_print|]. intros _.
    apply emits_bind; [by apply emits_print|]. intros _.
    apply emits_bind; [by apply emits_run|]. intros _. apply emits_ret.
  - intros _. by apply (emits_hooks _ PostSubmit name env_name env_config).
Qed.

Lemma emits_build : emits prepare_event (jar_for_deploy o).
Proof.
  unfold jar_for_deploy. emits_auto; try done; by apply emits_run.
Qed.

Lemma emits_prepare name env_name :
  emits prepare_event (prepare_and_build o name env_name).
Proof.
  unfold prepare_and_build.
  apply emits_bind; [by apply emits_ask|]. intros _.
  apply emits_bind; [by apply emits_ask|]. intros config.
  apply emits_bind; [by apply emits_ask|]. intros [name' file].
  apply emits_bind; [by apply emits_ask|]. intros [env' env_config].
  apply emits_bind; [by apply emits_ask|]. intros [host port].
  apply emits_bind.
  { destruct (Py.truthy _); [by apply emits_ask|apply emits_ret]. }
  intros _.
  apply emits_bind;
    [by apply (emits_hooks _ PreSubmit name' env' env_config)|]. intros _.
  apply emits_bind.
  { destruct (Py.truthy _); [|apply emits_ret].
    apply emits_bind; [apply emits_getitem|]. intros specs.
    destruct specs; try apply emits_raise. by apply emits_ask. }
  intros _.
  apply emits_bind; [apply emits_build|]. intros jar. apply emits_ret.
Qed.

Lemma prepare_and_build_answers name env_name s name' file env' env_config
    host port jar s' :
  prepare_and_build o name env_name s
  = (Returned (name', file, env', env_config, host, port, jar), s') →
  on_get_topology_definition o name = Gives (name', file)
  ∧ on_get_env_config o env_name = Gives (env', env_config)
  ∧ on_get_nimbus_for_env_config o env_config = Gives (host, port).
Proof.
  unfold prepare_and_build.
  intros ([] & s1 & _ & H)%bind_returned_inv.
  apply bind_returned_inv in H as (config & s2 & _ & H).
  apply bind_returned_inv in H as ([n f] & s3 & Hdef%ask_returned & H).
  apply bind_returned_inv in H as ([e c] & s4 & Henv%ask_returned & H).
  apply bind_returned_inv in H as ([h p] & s5 & Hnimbus%ask_returned & H).
  apply bind_returned_inv in H as ([] & s6 & _ & H).
  apply bind_returned_inv in H as ([] & s7 & _ & H).
  apply bind_returned_inv in H as ([] & s8 & _ & H).
  apply bind_returned_inv in H as (j & s9 & _ & H).
  by injection H as <- <- <- <- <- <- <- <-.
Qed.

End Classes.

Section Steps.

Variable o : oracle.
Variables (fuel : nat) (name env_name : option string).
Variables (workers ackers : Z) (options : option (list string)).
Variables (force debug : bool) (wait : option Z).

#[local] Abbreviation deploying name' :=
  (EvPrint ("Deploying " +:+ Py.dq +:+ name' +:+ Py.dq +:+ " topology...")).
#[local] Abbreviation established host port :=
  (EvPrint ("ssh tunnel to Nimbus " +:+ Py.format_opt id host +:+ ":"
            +:+ Py.format_opt Py.str_of_Z port +:+ " established.")).

(** The orchestrator, step by step. *)
Lemma submit_topology_steps s :
  submit_topology o fuel name env_name workers ackers options force debug
    wait s
  = match prepare_and_build o name env_name s with
    | (Returned (name', file, env', env_config, host, port, jar), s0) =>
        let s1 := Process (trace s0 ++ [deploying name';
                                        EvCall IsSshForNimbus])
                          (environ s0) in
        match on_is_ssh_for_nimbus o env_config with
        | Throws e => (Raised e, s1)
        | Gives false =>
            deploy o fuel force debug wait name' file env' jar env_config
              workers ackers options host port s1
        | Gives true =>
            match env_config !! "user" with
            | None => (Raised (KeyError "user"), s1)
            | Some user =>
                let s2 :=
                  Process (trace s1
                           ++ [EvCall (SshTunnelEnter user host 6627 port)])
                          (environ s1) in
                match on_ssh_tunnel_enter o with
                | Throws e => (Raised e, s2)
                | Gives _ =>
                    match deploy o fuel force debug wait name' file env'
                            jar env_config workers ackers options None None
                            (Process (trace s2 ++ [established host port])
                                     (environ s2))
                    with
                    | (Returned a, s3) =>
                        (match on_ssh_tunnel_exit o with
                         | Gives _ => Returned a
                         | Throws e => Raised e
                         end,
                         Process (trace s3 ++ [EvCall SshTunnelExit])
                                 (environ s3))
                    | (Raised e, s3) =>
                        (match on_ssh_tunnel_exit o with
                         | Gives _ => Raised e
                         | Throws e' => Raised e'
                         end,
                         Process (trace s3 ++ [EvCall SshTunnelExit])
                                 (environ s3))
                    | other => other
                    end
                end
            end
        end
    | (out, s0) => (recast out, s0)
    end.
Proof.
  unfold submit_topology. unfold bind at 1.
  destruct (prepare_and_build o name env_name s)
    as [[[[[[[[name' file] env'] cfg] host] port] jar]| | |] s0]; [|done..].
  unfold bind at 1 2. unfold print at 1, log. cbn [trace environ].
  rewrite ask_run. cbn [trace environ]. rewrite <- app_assoc. cbn [app].
  destruct (on_is_ssh_for_nimbus o cfg) as [[|]|e]; [|done..].
  unfold bind at 1, getitem.
  destruct (cfg !! "user") as [user|]; [|done].
  unfold ret at 1. unfold ssh_tunnel, with_, bind at 1.
  rewrite ask_run. cbn [trace environ].
  destruct (on_ssh_tunnel_enter o) as [[]|e]; [|done].
  unfold finally_. unfold bind at 1, print at 1, log. cbn [trace environ].
  fold (deploy o fuel force debug wait name' file env' jar cfg workers
          ackers options None None).
  destruct (deploy _ _ _ _ _ _ _ _ _ _ _ _ _ _ _ _) as [[[]|e| |] s3];
    [| |done..].
  - unfold bind. rewrite ask_run.
    by destruct (on_ssh_tunnel_exit o) as [[]|e].
  - unfold bind. rewrite ask_run.
    by destruct (on_ssh_tunnel_exit o) as [[]|e'].
Qed.

End Steps.

Section Deploys.

Variable o : oracle.
Variables (fuel : nat) (name env_name : option string).
Variables (workers ackers : Z) (options : option (list string)).
Variables (force debug : bool) (wait : option Z).

#[local] Abbreviation opening e := (opening_event e ∧ before_deploy e).
#[local] Abbreviation deploying name' :=
  (EvPrint ("Deploying " +:+ Py.dq +:+ name' +:+ Py.dq +:+ " topology...")).
#[local] Abbreviation established host port :=
  (EvPrint ("ssh tunnel to Nimbus " +:+ Py.format_opt id host +:+ ":"
            +:+ Py.format_opt Py.str_of_Z port +:+ " established.")).

Lemma prepare_quiet ev :
  Forall (fun e => prepare_event e ∧ before_deploy e) ev →
  Forall (fun e => is_putenv e = false) ev.
Proof.
  intros H. eapply Forall_impl; [exact H|]. by intros [] [].
Qed.

Lemma prepare_opening ev :
  Forall (fun e => prepare_event e ∧ before_deploy e) ev →
  Forall (fun e => opening e) ev.
Proof.
  intros H. eapply Forall_impl; [exact H|]. intros e [? ?].
  split; [by left|done].
Qed.

Lemma prepare_no_tunnel ev :
  Forall (fun e => prepare_event e ∧ before_deploy e) ev →
  Forall (fun e => is_tunnel_enter e = false) ev.
Proof.
  intros H. eapply Forall_impl; [exact H|]. by intros [|[]| |] [].
Qed.

(** Every run of the orchestrator stops before the deployment, or runs
    its three steps, under the tunnel or without it. *)
Lemma submit_topology_deploys s out s' :
  submit_topology o fuel name env_name workers ackers options force debug
    wait s = (out, s') →
  ∃ before,
    Forall (fun e => opening e) before
    ∧ ((s' = Process (trace s ++ before) (environ s)
        ∧ returned out = false
        ∧ (Forall (fun e => is_tunnel_enter e = false) before
           ∨ ∃ e name' env' env_config host port user prep,
               on_ssh_tunnel_enter o = Throws e
               ∧ on_get_env_config o env_name = Gives (env', env_config)
               ∧ on_get_nimbus_for_env_config o env_config
                 = Gives (host, port)
               ∧ on_is_ssh_for_nimbus o env_config = Gives true
               ∧ Forall prepare_event prep
               ∧ before = prep ++ [deploying name'; EvCall IsSshForNimbus;
                                   EvCall (SshTunnelEnter user host 6627
                                             port)]))
       ∨ ∃ name' file env' env_config host port jar ssh out1 s1,
           on_get_topology_definition o name = Gives (name', file)
           ∧ on_get_env_config o env_name = Gives (env', env_config)
           ∧ on_get_nimbus_for_env_config o env_config = Gives (host, port)
           ∧ on_is_ssh_for_nimbus o env_config = Gives ssh
           ∧ deploy o fuel force debug wait name' file env' jar env_config
               workers ackers options
               (if ssh then None else host) (if ssh then None else port)
               (Process (trace s ++ before) (environ s))
             = (out1, s1)
           ∧ ∃ prep opened,
               before = prep ++ [deploying name'; EvCall IsSshForNimbus]
                        ++ opened
               ∧ Forall prepare_event prep
               ∧ if ssh
                 then (∃ user,
                          env_config !! "user" = Some user
                          ∧ opened
                            = [EvCall (SshTunnelEnter user host 6627 port);
                               established host port])
                      ∧ match out1 with
                        | Returned _ | Raised _ =>
                            s' = Process (trace s1 ++ [EvCall SshTunnelExit])
                                         (environ s1)
                            ∧ out = match on_ssh_tunnel_exit o with
                                    | Gives _ => out1
                                    | Throws e => Raised e
                                    end
                        | _ => s' = s1 ∧ out = out1
                        end
                 else opened = [] ∧ s' = s1 ∧ out = out1).
Proof.
  rewrite submit_topology_steps.
  destruct (prepare_and_build o name env_name s) as [out0 s0] eqn:Hprep.
  pose proof (emits_and _ _ _ (emits_prepare o name env_name)
                (emits_prepare_and_build o name env_name) s out0 s0 Hprep)
    as (ev & -> & Hev).
  rewrite (replay_quiet ev) in * by by apply prepare_quiet.
  assert (Hstop : returned out0 = false →
            (recast out0 : outcome unit, Process (trace s ++ ev) (environ s))
            = (out, s') →
            ∃ before,
              Forall (fun e => opening e) before
              ∧ ((s' = Process (trace s ++ before) (environ s)
                  ∧ returned out = false
                  ∧ Forall (fun e => is_tunnel_enter e = false) before)
                 ∨ False)).
  { intros Hout0 [= <- <-]. exists ev.
    split; [by apply prepare_opening|]. left.
    split; [done|]. split; [by destruct out0|].
    by apply prepare_no_tunnel. }
  destruct out0 as [[[[[[[name' file] env'] cfg] host] port] jar]| | |].
  2-4: intros H;
       destruct (Hstop eq_refl H) as (before & Hb & [(? & ? & ?)|[]]);
       exists before; (split; [done|]); left;
       (split; [done|]); (split; [done|]); by left.
  clear Hstop.
  apply prepare_and_build_answers in Hprep as (Hdef & Henv & Hnimbus).
  cbn zeta. cbn [trace environ].
  set (asking := [EvPrint _; EvCall IsSshForNimbus]).
  assert (Hasking : Forall (fun e => opening e) (ev ++ asking)).
  { apply Forall_app. split; [by apply prepare_opening|].
    apply Forall_cons_2; [split; [by left|done]|].
    apply Forall_cons_2; [split; [right; by left|done]|done]. }
  assert (Hquiet : Forall (fun e => is_tunnel_enter e = false)
                     (ev ++ asking)).
  { apply Forall_app. split; [by apply prepare_no_tunnel|].
    by repeat constructor. }
  destruct (on_is_ssh_for_nimbus o cfg) as [[|]|e] eqn:Hssh.
  - destruct (cfg !! "user") as [user|] eqn:Huser.
    2:{ intros [= <- <-]. exists (ev ++ asking). split; [done|]. left.
        rewrite <- app_assoc. split; [done|]. split; [done|]. by left. }
    set (enter := EvCall (SshTunnelEnter user host 6627 port)).
    assert (Henter : Forall (fun e => opening e) ((ev ++ asking) ++ [enter])).
    { apply Forall_app. split; [done|].
      apply Forall_singleton. split; [right; by right|done]. }
    destruct (on_ssh_tunnel_enter o) as [[]|e] eqn:Hopen.
    2:{ intros [= <- <-]. exists ((ev ++ asking) ++ [enter]).
        split; [done|]. left. rewrite <- !app_assoc.
        split; [done|]. split; [done|]. right.
        exists e, name', env', cfg, host, port, user, ev.
        split; [done|]. split; [done|]. split; [done|]. split; [done|].
        split; [eapply Forall_impl; [exact Hev|]; by intros x [? _]|].
        done. }
    set (shown := EvPrint ("ssh tunnel to Nimbus " +:+ _)).
    destruct (deploy _ _ _ _ _ _ _ _ _ _ _ _ _ _ _ _) as [out1 s1] eqn:Hdeploy.
    intros H.
    exists (((ev ++ asking) ++ [enter]) ++ [shown]).
    split.
    { apply Forall_app. split; [done|].
      apply Forall_singleton. split; [by left|done]. }
    right. exists name', file, env', cfg, host, port, jar, true, out1, s1.
    split; [done|]. split; [done|]. split; [done|]. split; [done|].
    split.
    { rewrite <- Hdeploy. f_equal. by rewrite <- !app_assoc. }
    exists ev, [enter; shown].
    split; [by rewrite <- !app_assoc|].
    split; [eapply Forall_impl; [exact Hev|]; by intros x [? _]|].
    split; [by exists user|].
    destruct out1 as [[]|e| |]; injection H as <- <-; by split.
  - intros H. exists (ev ++ asking). split; [done|]. right.
    exists name', file, env', cfg, host, port, jar, false, out, s'.
    split; [done|]. split; [done|]. split; [done|]. split; [done|].
    split; [rewrite <- H; f_equal; by rewrite <- !app_assoc|].
    exists ev, []. split; [done|].
    split; [eapply Forall_impl; [exact Hev|]; by intros x [? _]|]. done.
  - intros [= <- <-]. exists (ev ++ asking). split; [done|]. left.
    rewrite <- app_assoc. split; [done|]. split; [done|]. by left.
Qed.

End Deploys.

Section DeployCases.

Variable o : oracle.
Variables (fuel : nat) (force debug : bool) (wait : option Z).
Variables (name file env_name jar : string) (env_config : Py.dict).
Variables (workers ackers : Z) (options : option (list string)).
Variables (host : option string) (port : option Z).

#[local] Abbreviation launch cmd := (EvCall (Run (Py.join " " cmd) None)).
#[local] Abbreviation written :=
  (EvPutenv "JVM_OPTS" (jvm_opts jar)).

(** The three steps of the deployment, one after the other. *)
Lemma deploy_cases s out s' :
  deploy o fuel force debug wait name file env_name jar env_config workers
    ackers options host port s = (out, s') →
  ∃ kills,
    Forall (fun e => deploy_event host port e ∧ kill_phase_event e) kills
    ∧ ((s' = Process (trace s ++ kills) (environ s) ∧ returned out = false)
       ∨ ∃ prints,
           Forall (fun e => ∃ text, e = EvPrint text) prints
           ∧ ((s' = Process (trace s ++ kills ++ [written] ++ prints)
                            (<["JVM_OPTS" := jvm_opts jar]> (environ s))
               ∧ returned out = false)
              ∨ ∃ cmd rest,
                  s' = Process (trace s ++ kills ++ [written] ++ prints
                                ++ [launch cmd] ++ rest)
                               (<["JVM_OPTS" := jvm_opts jar]> (environ s))
                  ∧ (∃ s0 s1,
                        _submit_topology_cmd name file env_config workers
                          ackers options debug host port s0
                        = (Returned cmd, s1))
                  ∧ Forall (fun e => calm e ∧ deploy_event host port e)
                      rest
                  ∧ match on_run o (Py.join " " cmd) with
                    | Throws e => out = Raised e ∧ rest = []
                    | Gives _ => True
                    end)).
Proof.
  unfold deploy. intros H.
  apply bind_inv in H as [([] & s1 & Hkill & H) | (out1 & Hkill & Hret & ->)].
  2:{ apply (emits_and _ _ _ (emits_kill_phase o fuel name force wait host
                                port)
               (emits_kill_existing_topology o fuel name force wait host
                  port)) in Hkill as (kills & -> & Hkills).
      exists kills. split; [done|]. left.
      rewrite (replay_quiet kills).
      - split; [done|]. by destruct out1.
      - eapply Forall_impl; [exact Hkills|]. by intros e [_ (_ & ? & _)]. }
  apply (emits_and _ _ _ (emits_kill_phase o fuel name force wait host port)
           (emits_kill_existing_topology o fuel name force wait host port))
    in Hkill as (kills & -> & Hkills).
  rewrite (replay_quiet kills) in H
    by (eapply Forall_impl; [exact Hkills|]; by intros e [_ (_ & ? & _)]).
  exists kills. split; [done|].
  apply bind_inv in H as [([] & s2 & Hsub & H) | (out1 & Hsub & Hret & ->)].
  - rewrite submitter_steps in Hsub. cbn [trace environ] in Hsub.
    destruct (settable "JVM_OPTS" (jvm_opts jar)); [| done]. right.
    destruct (_submit_topology_cmd _ _ _ _ _ _ _ _ _ _) as [out0 s0] eqn:Hcmd.
    pose proof (emits_submit_topology_cmd _ _ _ _ _ _ _ _ _ _ _ _ Hcmd)
      as (prints & -> & Hprints).
    rewrite (replay_quiet prints) in Hsub by by apply prints_quiet.
    cbn [trace environ] in Hsub.
    destruct out0 as [cmd| | |]; [|done..].
    destruct (on_run o (Py.join " " cmd)) as [r|e] eqn:Hrun; [|done].
    injection Hsub as <-.
    pose proof (emits_hooks o (fun e => calm e ∧ deploy_event host port e)
                  PostSubmit name env_name env_config) as Hhooks.
    destruct (Hhooks ltac:(done) ltac:(done) _ _ _ H) as (rest & -> & Hrest).
    cbn [trace environ].
    exists (prints
            ++ [EvPrint "Running lein command to submit topology to nimbus:";
                EvPrint (Py.join " " cmd)]).
    split.
    { apply Forall_app. split; [done|]. repeat constructor; by eexists. }
    right. exists cmd, rest. rewrite Hrun.
    rewrite (replay_quiet rest).
    2:{ eapply Forall_impl; [exact Hrest|]. by intros e [(_ & _ & _ & ?) _]. }
    split; [by rewrite <- !app_assoc|].
    split; [by eexists _, _|]. done.
  - rewrite submitter_steps in Hsub. cbn [trace environ] in Hsub.
    destruct (settable "JVM_OPTS" (jvm_opts jar)).
    2:{ injection Hsub as <- <-. by left. }
    right.
    destruct (_submit_topology_cmd _ _ _ _ _ _ _ _ _ _) as [out0 s0] eqn:Hcmd.
    pose proof (emits_submit_topology_cmd _ _ _ _ _ _ _ _ _ _ _ _ Hcmd)
      as (prints & -> & Hprints).
    rewrite (replay_quiet prints) in Hsub by by apply prints_quiet.
    cbn [trace environ] in Hsub.
    destruct out0 as [cmd| | |].
    + destruct (on_run o (Py.join " " cmd)) as [r|e] eqn:Hrun;
        [by injection Hsub as <-|].
      injection Hsub as <- <-.
      exists (prints
              ++ [EvPrint "Running lein command to submit topology to nimbus:";
                  EvPrint (Py.join " " cmd)]).
      split.
      { apply Forall_app. split; [done|]. repeat constructor; by eexists. }
      right. exists cmd, [].
      rewrite Hrun, app_nil_r.
      split; [by rewrite <- !app_assoc|].
      split; [by eexists _, _|]. done.
    + injection Hsub as <- <-. exists prints. split; [done|].
      left. by rewrite <- !app_assoc.
    + injection Hsub as <- <-. exists prints. split; [done|].
      left. by rewrite <- !app_assoc.
    + injection Hsub as <- <-. exists prints. split; [done|].
      left. by rewrite <- !app_assoc.
Qed.

End DeployCases.

Section Launch.

Variable o : oracle.
Variables (fuel : nat) (name env_name : option string).
Variables (workers ackers : Z) (options : option (list string)).
Variables (force debug : bool) (wait : option Z).

#[local] Abbreviation not_yet e :=
  (is_submission e = false ∧ is_post_hook e = false).

Lemma command_is_submission topology_name file env_config host port s0 cmd
    s1 :
  _submit_topology_cmd topology_name file env_config workers ackers options
    debug host port s0 = (Returned cmd, s1) →
  is_submission (EvCall (Run (Py.join " " cmd) None)) = true.
Proof.
  intros (more & entries & -> & _)%submit_command_returned.
  rewrite <- !app_assoc. apply submission_launch.
Qed.

Lemma prefix_append a b : String.prefix a (a +:+ b) = true.
Proof.
  induction a as [|c a IH]; [by destruct b |].
  change (String c a +:+ b) with (String c (a +:+ b)).
  cbn [String.prefix]. by destruct (ascii_dec c c).
Qed.

(** After the flags every entry of the command is an option. *)
Lemma submit_command_options topology_name file env_config host port s0 cmd
    s1 :
  _submit_topology_cmd topology_name file env_config workers ackers options
    debug host port s0 = (Returned cmd, s1) →
  ∃ rest,
    cmd = ["lein"; submit_main; file] ++ command_flags host port debug
          ++ rest
    ∧ Forall (fun w => String.prefix "--option " w = true) rest.
Proof.
  intros (d & shown & interpreter & entries & _ & _ & _ & Hint & Hentries
          & ->)%submit_command_parts.
  eexists. split; [reflexivity |].
  repeat (apply Forall_app; split).
  - by repeat constructor.
  - destruct (Py.truthy _); [| by subst].
    destruct Hint as (root & _ & ->). by repeat constructor.
  - destruct (Py.truthy (Py.or_ _ _)); cbv iota; by repeat constructor.
  - destruct (Py.get d "max_bytes"); cbv iota; by repeat constructor.
  - destruct (Py.get d "backup_count"); cbv iota; by repeat constructor.
  - destruct (Py.get d "level"); cbv iota; by repeat constructor.
  - clear -Hentries.
    induction Hentries as [|option entry opts entries Hentry _ IH];
      [done |].
    constructor; [| done]. unfold entry_of in Hentry.
    destruct (Py.contains "deployment_stage" option).
    + by destruct Hentry as (key & val & _ & ->).
    + cbv iota in Hentry. subst. apply prefix_append.
Qed.

(** In every run of the orchestrator the submission command is launched
    at most once, and the post-submit hooks are called only after a
    launch that returned. *)
Lemma submit_topology_launches s out s' :
  submit_topology o fuel name env_name workers ackers options force debug
    wait s = (out, s') →
  (returned out = false
   ∧ Forall (fun e => not_yet e) (added s s'))
  ∨ ∃ before cmd after,
      added s s' = before ++ [EvCall (Run cmd None)] ++ after
      ∧ is_submission (EvCall (Run cmd None)) = true
      ∧ Forall (fun e => not_yet e) before
      ∧ Forall (fun e => is_submission e = false) after
      ∧ match on_run o cmd with
        | Throws _ =>
            returned out = false
            ∧ Forall (fun e => is_post_hook e = false) after
        | Gives _ => True
        end
      ∧ ∃ name' file env' env_config host port ssh words s0 s1,
          on_get_topology_definition o name = Gives (name', file)
          ∧ on_get_env_config o env_name = Gives (env', env_config)
          ∧ on_get_nimbus_for_env_config o env_config = Gives (host, port)
          ∧ on_is_ssh_for_nimbus o env_config = Gives ssh
          ∧ cmd = Py.join " " words
          ∧ _submit_topology_cmd name' file env_config workers ackers
              options debug (if ssh then None else host)
              (if ssh then None else port) s0
            = (Returned words, s1).
Proof.
  intros H. apply submit_topology_deploys in H as (before & Hbefore & H).
  assert (Hbefore' : Forall (fun e => not_yet e) before).
  { eapply Forall_impl; [exact Hbefore|].
    by intros e [_ [(_ & _ & ? & _) ?]]. }
  destruct H as [(-> & Hout & _)
                | (name' & file & env' & cfg & host & port & jar & ssh & out1
                   & s1 & Hdef & Henv & Hnimbus & Hssh & Hdeploy & prep
                   & opened & _ & _ & Hend)].
  { left. by rewrite added_process. }
  assert (Hclosing : ∃ closing,
             s' = Process (trace s1 ++ closing) (environ s1)
             ∧ (closing = [] ∨ closing = [EvCall SshTunnelExit])
             ∧ (returned out1 = false → returned out = false)).
  { destruct ssh.
    - destruct Hend as [_ Hend].
      destruct out1 as [[]|e| |]; destruct Hend as [-> ->].
      + exists [EvCall SshTunnelExit]. split; [done|]. split; [by right|done].
      + exists [EvCall SshTunnelExit]. split; [done|]. split; [by right|].
        intros _. by destruct (on_ssh_tunnel_exit o).
      + exists []. rewrite app_nil_r.
        split; [by destruct s1|]. split; [by left|done].
      + exists []. rewrite app_nil_r.
        split; [by destruct s1|]. split; [by left|done].
    - destruct Hend as (_ & -> & ->). exists []. rewrite app_nil_r.
      split; [by destruct s1|]. split; [by left|done]. }
  destruct Hclosing as (closing & -> & Hclosing & Hret).
  assert (Hquiet : Forall (fun e => is_submission e = false
                                    ∧ is_post_hook e = false) closing).
  { destruct Hclosing as [-> | ->]; by repeat constructor. }
  clear Hend.
  apply deploy_cases in Hdeploy as (kills & Hkills & Hdeploy).
  assert (Hkills' : Forall (fun e => not_yet e) kills).
  { eapply Forall_impl; [exact Hkills|].
    intros e [_ (? & _ & Hhook)]. split; [done|]. by destruct e as [|[]| |]. }
  destruct Hdeploy as [[-> Hout1]
                      | (prints & Hprints & [[-> Hout1]
                                            | (cmd & rest & -> & Hcmd & Hrest
                                               & Hrun)])];
    cbn [trace environ]; rewrite <- ?app_assoc, added_process.
  - left. split; [by apply Hret|]. by repeat (apply Forall_app; split).
  - left. split; [by apply Hret|].
    repeat (apply Forall_app; split); try done.
    + by repeat constructor.
    + eapply Forall_impl; [exact Hprints|]. by intros e [text ->].
  - right.
    exists (before ++ kills ++ [EvPutenv "JVM_OPTS" (jvm_opts jar)] ++ prints),
      (Py.join " " cmd), (rest ++ closing).
    split; [by rewrite <- !app_assoc|].
    destruct Hcmd as (s0 & s2 & Hcmd).
    split; [by apply command_is_submission in Hcmd|].
    split.
    { repeat (apply Forall_app; split); try done.
      - by repeat constructor.
      - eapply Forall_impl; [exact Hprints|]. by intros e [text ->]. }
    split.
    { apply Forall_app. split.
      - eapply Forall_impl; [exact Hrest|]. by intros e [(_ & _ & ? & _) _].
      - eapply Forall_impl; [exact Hquiet|]. by intros e [? _]. }
    split.
    { destruct (on_run o (Py.join " " cmd)) as [r|err]; [done|].
      destruct Hrun as [-> ->]. split; [by apply Hret|].
      eapply Forall_impl; [exact Hquiet|]. by intros x [_ ?]. }
    by exists name', file, env', cfg, host, port, ssh, cmd, s0, s2.
Qed.

End Launch.

(** ** Runs under a hypothesis on the collaborators *)

Section Rstrip.

Import Py.

Lemma rstrip_by_spec p s :
  ∃ eaten,
    s = rstrip_by p s +:+ eaten
    ∧ forallb p (list_ascii_of_string eaten) = true
    ∧ ∀ init c, rstrip_by p s = init +:+ String c "" → p c = false.
Proof.
  induction s as [|c t (eaten & Heq & Hp & Hlast)].
  - exists "". split; [done|]. split; [done|].
    intros [|c' init] c; discriminate.
  - cbn [rstrip_by]. destruct (rstrip_by p t) as [|c' t'] eqn:Ht.
    + destruct (p c) eqn:Hc.
      * exists (String c eaten). split; [by rewrite Heq at 1|].
        split; [by cbn; rewrite Hc|].
        intros [|c' init] c0; discriminate.
      * exists eaten. split.
        { change (String c t = String c ("" +:+ eaten)). by f_equal. }
        split; [done|].
        intros [|c' init] c0.
        -- by intros [= <-].
        -- intros [= _ H]. by destruct init.
    + exists eaten. split.
      { change (String c t = String c (String c' t' +:+ eaten)).
        by f_equal. }
      split; [done|].
      intros [|c0 init] c1.
      * discriminate.
      * intros [= _ H]. by apply (Hlast init c1).
Qed.

End Rstrip.

Section Build2.

Variable o : oracle.

Lemma emits_build_any P :
  (∀ text, P (EvPrint text)) →
  (∀ command hide, P (EvCall (Run command hide))) →
  emits P (jar_for_deploy o).
Proof.
  intros Hprint Hrun.
  unfold jar_for_deploy. emits_auto; try done; by apply emits_run.
Qed.

Lemma emits_deploy_any P fuel force debug wait name file env_name jar
    env_config workers ackers options host port :
  (∀ e, deploy_event host port e → P e) →
  emits P (deploy o fuel force debug wait name file env_name jar env_config
             workers ackers options host port).
Proof.
  intros H. eapply emits_weaken; [exact H|apply emits_deploy].
Qed.

(** What follows the preparation, for a class of events that holds the
    events of the deployment and of the tunnel. *)
Lemma emits_deployment P fuel workers ackers options force debug wait
    (r : string * string * string * Py.dict * option string * option Z
         * string) :
  (∀ text, P (EvPrint text)) →
  P (EvCall IsSshForNimbus) →
  (∀ user host port, P (EvCall (SshTunnelEnter user host 6627 port))) →
  P (EvCall SshTunnelExit) →
  (∀ host port e, deploy_event host port e → P e) →
  emits P
    (let '(name, topology_file, env_name, env_config, host, port,
           topology_jar) := r in
     bind (print ("Deploying " +:+ Py.dq +:+ name +:+ Py.dq
                  +:+ " topology..."))
       (fun _ =>
          bind (ask IsSshForNimbus (on_is_ssh_for_nimbus o env_config))
            (fun ssh : bool =>
               if ssh then
                 bind (getitem env_config "user")
                   (fun user =>
                      ssh_tunnel o user host 6627 port
                        (bind (print ("ssh tunnel to Nimbus "
                                      +:+ Py.format_opt id host +:+ ":"
                                      +:+ Py.format_opt Py.str_of_Z port
                                      +:+ " established."))
                           (fun _ =>
                              deploy o fuel force debug wait name
                                topology_file env_name topology_jar
                                env_config workers ackers options None
                                None)))
               else
                 deploy o fuel force debug wait name topology_file env_name
                   topology_jar env_config workers ackers options host
                   port))).
Proof.
  intros Hprint Hask Henter Hexit Hdeploy.
  destruct r as [[[[[[name' file] env'] cfg] host] port] jar].
  apply emits_bind; [by apply emits_print|]. intros _.
  apply emits_bind; [by apply emits_ask|]. intros ssh.
  destruct ssh; [|by apply emits_deploy_any, Hdeploy].
  apply emits_bind; [apply emits_getitem|]. intros user.
  unfold ssh_tunnel, with_.
  apply emits_bind; [by apply emits_ask|]. intros _.
  apply emits_finally; [|by apply emits_ask].
  apply emits_bind; [by apply emits_print|]. intros _.
  by apply emits_deploy_any, Hdeploy.
Qed.

End Build2.

Section RaisingHook.

Variable o : oracle.
Variables (user_invoke user_fabric : user_module) (e : exn).
Hypothesis Htasks : on_import o Tasks = Imported user_invoke.
Hypothesis Hfabfile : on_import o Fabfile = Imported user_fabric.
Hypothesis Hraises : pre_submit user_invoke = Callable (Throws e).

Lemma stops_pre_submit_hooks topology_name env_name env_config :
  stops before_build (_pre_submit_hooks o topology_name env_name env_config).
Proof.
  intros s out s' H.
  pose proof (hooks_run o PreSubmit topology_name env_name env_config s)
    as Hrun.
  cbn [hooks hook_of] in Hrun. rewrite Hrun, Htasks, Hfabfile in H.
  cbn zeta in H. rewrite Hraises in H. injection H as <- <-.
  split; [done|].
  exists [EvCall (Import Tasks); EvCall (Import Fabfile);
          EvCall (Hook Tasks PreSubmit topology_name env_name)].
  split; [done|]. by repeat constructor.
Qed.

Lemma stops_prepare_and_build name env_name :
  stops before_build (prepare_and_build o name env_name).
Proof.
  unfold prepare_and_build.
  apply stops_bind_r; [by apply emits_ask|]. intros _.
  apply stops_bind_r; [by apply emits_ask|]. intros config.
  apply stops_bind_r; [by apply emits_ask|]. intros [name' file].
  apply stops_bind_r; [by apply emits_ask|]. intros [env' env_config].
  apply stops_bind_r; [by apply emits_ask|]. intros [host port].
  apply stops_bind_r.
  { destruct (Py.truthy _); [by apply emits_ask|apply emits_ret]. }
  intros _. apply stops_bind_l, stops_pre_submit_hooks.
Qed.

End RaisingHook.

Section WithoutVirtualenv.

Variable o : oracle.
Variables (env_name : option string) (env' : string) (env_config : Py.dict).
Hypothesis Henv : on_get_env_config o env_name = Gives (env', env_config).
Hypothesis Hoff :
  Py.truthy (Py.get_default env_config "use_virtualenv" (Py.VBool true))
  = false.

Lemma emits_prepare_without_virtualenv name :
  emits (fun e => is_venv_call e = false) (prepare_and_build o name env_name).
Proof.
  unfold prepare_and_build.
  apply emits_bind; [by apply emits_ask|]. intros _.
  apply emits_bind; [by apply emits_ask|]. intros config.
  apply emits_bind; [by apply emits_ask|]. intros [name' file].
  apply emits_bind_ask; [done|]. intros [env'' cfg] Hgives.
  rewrite Henv in Hgives. injection Hgives as <- <-.
  apply emits_bind; [by apply emits_ask|]. intros [host port].
  rewrite Hoff.
  apply emits_bind; [apply emits_ret|]. intros _.
  apply emits_bind;
    [by apply (emits_hooks _ _ PreSubmit name' env' env_config)|].
  intros _.
  apply emits_bind; [apply emits_ret|]. intros _.
  apply emits_bind; [by apply emits_build_any|]. intros jar.
  apply emits_ret.
Qed.

Lemma emits_submit_topology_without_virtualenv fuel name workers ackers
    options force debug wait :
  emits (fun e => is_venv_call e = false)
    (submit_topology o fuel name env_name workers ackers options force
       debug wait).
Proof.
  unfold submit_topology.
  apply emits_bind; [apply emits_prepare_without_virtualenv|]. intros r.
  apply (emits_deployment o (fun e => is_venv_call e = false)); try done.
  by intros host port [|[]| |].
Qed.

End WithoutVirtualenv.

Section Requirements.

Variable o : oracle.
Variables (config : Py.dict) (specs : string).
Hypothesis Hconfig : on_get_config o = Gives config.
Hypothesis Hspecs : config !! "virtualenv_specs" = Some (Py.VStr specs).

#[local] Abbreviation path topology_name :=
  (Py.rstrip "/" specs +:+ "/" +:+ topology_name +:+ ".txt").

Lemma emits_prepare_requirements name env_name :
  emits (requirements_are (fun topology_name => path topology_name))
    (prepare_and_build o name env_name).
Proof.
  unfold prepare_and_build.
  apply emits_bind; [by apply emits_ask|]. intros _.
  apply emits_bind_ask; [done|]. intros config' Hgives.
  rewrite Hconfig in Hgives. injection Hgives as <-.
  apply emits_bind; [by apply emits_ask|]. intros [name' file].
  apply emits_bind; [by apply emits_ask|]. intros [env' env_config].
  apply emits_bind; [by apply emits_ask|]. intros [host port].
  apply emits_bind.
  { destruct (Py.truthy _); [by apply emits_ask|apply emits_ret]. }
  intros _.
  apply emits_bind;
    [by apply (emits_hooks _ _ PreSubmit name' env' env_config)|].
  intros _.
  apply emits_bind.
  { destruct (Py.truthy _); [|apply emits_ret].
    unfold getitem. rewrite Hspecs.
    apply emits_bind_returned; [apply emits_ret|].
    intros s0 v s1 [= <- _]. by apply emits_ask. }
  intros _.
  apply emits_bind; [by apply emits_build_any|]. intros jar.
  apply emits_ret.
Qed.

End Requirements.

(** ** Further properties *)

(** X1: when a command of the build comes back with a result that is not
    [ok], [jar_for_deploy] raises a [RuntimeError] whose message names that
    command and carries its standard output and its standard error, and
    the call of that command is the last thing the build has done: after a
    failed [lein clean], [lein uberjar] is not run. *)
Theorem build_error_names_the_failed_command :
  ∀ o s command res,
    first_failure o command res →
    let run := jar_for_deploy o s in
    run.1 = Raised (build_error command res)
    ∧ last (added s run.2) = Some (EvCall (Run command (Some "stdout")))
    ∧ (command = "lein clean" →
       ¬ In (EvCall (Run "lein uberjar" (Some "stdout"))) (added s run.2)).
Proof.
  intros o s command res (Hrun & Hok & Hwhich) run. subst run.
  rewrite jar_for_deploy_run.
  destruct Hwhich as [->|[-> (cleaned & Hclean & Hcleaned)]].
  - rewrite Hrun, Hok. cbn [fst snd]. rewrite added_process.
    split; [done|]. split; [done|].
    intros _ [H|[H|[]]]; discriminate H.
  - rewrite Hclean, Hcleaned, Hrun, Hok. cbn [fst snd].
    rewrite added_process. split; [done|]. split; [done|]. done.
Qed.

(** [lein clean] succeeds and [lein uberjar] exits with an error. *)
Lemma build_error_names_the_failed_command_witness :
  let o := example_oracle (fun _ => example_listing "")
             (fun command =>
                if String.eqb command "lein clean"
                then Gives (Result true "" "")
                else Gives (Result false "Compiling" "no main class"))
             ImportError in
  first_failure o "lein uberjar" (Result false "Compiling" "no main class")
  ∧ (jar_for_deploy o start).1
    = Raised (RuntimeError
                ("Unable to run 'lein uberjar'!" +:+ Py.nl
                 +:+ "STDOUT:" +:+ Py.nl +:+ "Compiling" +:+ Py.nl
                 +:+ "STDERR:" +:+ Py.nl +:+ "no main class")).
Proof.
  intros o.
  assert (H : first_failure o "lein uberjar"
                (Result false "Compiling" "no main class")).
  { split; [reflexivity|]. split; [reflexivity|].
    right. split; [reflexivity|]. by exists (Result true "" ""). }
  split; [exact H|].
  exact (proj1 (build_error_names_the_failed_command o start _ _ H)).
Defined.

(** X2: when both commands of the build succeed, [jar_for_deploy] ends
    with an [IndexError] exactly when no word of the output of
    [lein uberjar] ends with [standalone.jar], and returns a jar exactly
    when some word does. *)
Theorem build_without_standalone_jar_is_an_index_error :
  ∀ o s built,
    builds o built →
    let out := (jar_for_deploy o s).1 in
    let words := Py.split_ws (stdout built) in
    (out = Raised IndexError ↔ Forall (fun w => is_jar w = false) words)
    ∧ ((∃ jar, out = Returned jar) ↔ Exists (fun w => is_jar w = true) words).
Proof.
  intros o s built ((cleaned & Hclean & Hcleaned) & Hbuilt & Hok) out words.
  subst out words. rewrite jar_for_deploy_run.
  rewrite Hclean, Hcleaned, Hbuilt, Hok.
  destruct (List.filter is_jar (Py.split_ws (stdout built))) as [|l rest] eqn:Hf.
  - assert (Hnone : Forall (fun w => is_jar w = false)
                      (Py.split_ws (stdout built))).
    { apply Forall_forall. intros w Hw.
      destruct (is_jar w) eqn:Hj; [|done].
      assert (Hin : In w (List.filter is_jar (Py.split_ws (stdout built))))
        by (apply filter_In; split; [by apply list_elem_of_In|done]).
      rewrite Hf in Hin. destruct Hin. }
    split; [done|]. split.
    + by intros [jar Hjar].
    + intros Hsome. apply Exists_exists in Hsome as (w & Hw & Hj).
      rewrite Forall_forall in Hnone. rewrite (Hnone w Hw) in Hj. done.
  - apply filter_first in Hf as (before & after & Hwords & Hbefore & Hl).
    cbn [fst]. split.
    + split; [done|]. rewrite Hwords. intros Hall.
      apply Forall_app in Hall as [_ Hall].
      apply Forall_cons in Hall as [Hl' _]. by rewrite Hl' in Hl.
    + split; [|by eexists].
      intros _. rewrite Hwords. apply Exists_app. right. by constructor.
Qed.

(** The build says what it made without naming a standalone jar. *)
Lemma build_without_standalone_jar_is_an_index_error_witness :
  let o := example_oracle (fun _ => example_listing "")
             (fun _ => Gives (Result true "Created /t/wc-0.1.jar" ""))
             ImportError in
  builds o (Result true "Created /t/wc-0.1.jar" "")
  ∧ (jar_for_deploy o start).1 = Raised IndexError.
Proof.
  intros o.
  assert (H : builds o (Result true "Created /t/wc-0.1.jar" "")).
  { split; [by exists (Result true "Created /t/wc-0.1.jar" "")|].
    split; reflexivity. }
  split; [exact H|].
  assert (Hnone : Forall (fun w => is_jar w = false)
                    (Py.split_ws "Created /t/wc-0.1.jar"))
    by (vm_compute; repeat constructor).
  exact (proj2 (proj1 (build_without_standalone_jar_is_an_index_error o start
                         _ H)) Hnone).
Defined.

(** X3: the jar that [jar_for_deploy] returns comes from the first word of
    the output of [lein uberjar] that ends with [standalone.jar]; later
    ones are ignored.  It is that word without its longest prefix made of
    the characters of [Created ]: the characters are removed one by one,
    not the word [Created ], so a word that starts with [/] is returned
    whole and a word such as [target/x-standalone.jar] loses [tar]. *)
Theorem build_returns_the_first_standalone_jar :
  ∀ o s built jar s',
    on_run o "lein uberjar" = Gives built →
    jar_for_deploy o s = (Returned jar, s') →
    ∃ before w after eaten,
      Py.split_ws (stdout built) = before ++ w :: after
      ∧ Forall (fun w => is_jar w = false) before
      ∧ is_jar w = true
      ∧ w = eaten +:+ jar
      ∧ made_of "Created " eaten
      ∧ (∀ c rest, jar = String c rest → Py.mem_char c "Created " = false)
      ∧ last (added s s') = Some (EvPrint ("Uberjar created: " +:+ jar)).
Proof.
  intros o s built jar s' Hbuilt. rewrite jar_for_deploy_run, Hbuilt.
  destruct (on_run o "lein clean") as [cleaned|e]; [|done].
  destruct (ok cleaned); [|done].
  destruct (ok built); [|done].
  destruct (List.filter is_jar (Py.split_ws (stdout built))) as [|l rest] eqn:Hf;
    [done|].
  cbn zeta. intros [= <- <-].
  apply filter_first in Hf as (before & after & Hwords & Hbefore & Hl).
  assert (Hword : word l).
  { pose proof (split_ws_words (stdout built)) as Hall.
    rewrite Hwords in Hall. apply Forall_app in Hall as [_ Hall].
    by apply Forall_cons in Hall as [? _]. }
  rewrite (strip_word l Hword).
  destruct (lstrip_by_spec (fun c => Py.mem_char c "Created ") l)
    as (eaten & Heq & Heaten & Hfirst).
  exists before, l, after, eaten.
  rewrite added_process. by repeat split.
Qed.

(** The build reports a jar by a relative path. *)
Lemma build_returns_the_first_standalone_jar_witness :
  let built := Result true ("Created target/wc-0.1-standalone.jar" +:+ Py.nl
                            +:+ "Created /t/other-standalone.jar") "" in
  let o := example_oracle (fun _ => example_listing "")
             (fun _ => Gives built) ImportError in
  jar_for_deploy o start
  = (Returned "get/wc-0.1-standalone.jar",
     Process [EvPrint "Cleaning from prior builds...";
              EvCall (Run "lein clean" (Some "stdout"));
              EvPrint "Creating topology uberjar...";
              EvCall (Run "lein uberjar" (Some "stdout"));
              EvPrint "Uberjar created: get/wc-0.1-standalone.jar"] ∅)
  ∧ ∃ before w after eaten,
      Py.split_ws (stdout built) = before ++ w :: after
      ∧ w = eaten +:+ "get/wc-0.1-standalone.jar"
      ∧ made_of "Created " eaten.
Proof.
  intros built o.
  assert (H : jar_for_deploy o start
              = (Returned "get/wc-0.1-standalone.jar",
                 Process [EvPrint "Cleaning from prior builds...";
                          EvCall (Run "lein clean" (Some "stdout"));
                          EvPrint "Creating topology uberjar...";
                          EvCall (Run "lein uberjar" (Some "stdout"));
                          EvPrint "Uberjar created: get/wc-0.1-standalone.jar"]
                         ∅)) by reflexivity.
  split; [exact H|].
  destruct (build_returns_the_first_standalone_jar o start built _ _
              eq_refl H)
    as (before & w & after & eaten & Hwords & _ & _ & Hw & Heaten & _).
  by exists before, w, after, eaten.
Defined.

(** X4: the hooks need both modules of the user.  When [tasks.py] or
    [fabfile.py] cannot be imported, the pre-submit hooks and the
    post-submit hooks return without an error and call no hook at all,
    not even the hook of the module that is there. *)
Theorem hooks_need_both_modules :
  ∀ o hook topology_name env_name env_config s,
    module_missing o →
    let run := hooks o hook topology_name env_name env_config s in
    run.1 = Returned tt ∧ Forall (fun e => is_hook e = false) (added s run.2).
Proof.
  intros o hook name env cfg s Hmissing run. subst run.
  rewrite hooks_run.
  destruct Hmissing as [->|[[m ->] ->]]; cbn [fst snd];
    rewrite added_process; split; by repeat constructor.
Qed.

(** [tasks.py] has a [pre_submit], and there is no [fabfile.py]. *)
Lemma hooks_need_both_modules_witness :
  let o := with_imports
             (example_oracle (fun _ => example_listing "") example_run
                ImportError)
             (fun file =>
                match file with
                | Tasks => Imported (UserModule (Callable (Gives tt))
                                       NotCallable)
                | Fabfile => ImportError
                end) in
  module_missing o
  ∧ _pre_submit_hooks o "wordcount" "prod" ∅ start
    = (Returned tt,
       Process [EvCall (Import Tasks); EvCall (Import Fabfile)] ∅)
  ∧ Forall (fun e => is_hook e = false)
      (added start (_pre_submit_hooks o "wordcount" "prod" ∅ start).2).
Proof.
  intros o.
  assert (H : module_missing o).
  { right. split; [by eexists|reflexivity]. }
  split; [exact H|]. split; [reflexivity|].
  exact (proj2 (hooks_need_both_modules o PreSubmit "wordcount" "prod" ∅
                  start H)).
Defined.

(** X5: when both modules are imported and both have the hook, the hook of
    [tasks.py] is called first and the hook of [fabfile.py] after it; an
    exception of the first hook leaves the function at once, so that the
    second hook is not called. *)
Theorem hooks_stop_at_the_first_error :
  ∀ o hook topology_name env_name env_config s user_invoke user_fabric
    first second,
    on_import o Tasks = Imported user_invoke →
    on_import o Fabfile = Imported user_fabric →
    hook_of hook user_invoke = Callable first →
    hook_of hook user_fabric = Callable second →
    let run := hooks o hook topology_name env_name env_config s in
    let call file := EvCall (Hook file hook topology_name env_name) in
    match first with
    | Gives _ =>
        run.1 = outcome_of second
        ∧ added s run.2
          = [EvCall (Import Tasks); EvCall (Import Fabfile);
             call Tasks; call Fabfile]
    | Throws e =>
        run.1 = Raised e
        ∧ added s run.2
          = [EvCall (Import Tasks); EvCall (Import Fabfile); call Tasks]
    end.
Proof.
  intros o hook name env cfg s user_invoke user_fabric first second
    Htasks Hfabfile Hfirst Hsecond run call. subst run call.
  rewrite hooks_run, Htasks, Hfabfile. cbn zeta.
  rewrite Hfirst, Hsecond.
  destruct first as [[]|e]; cbn [fst snd]; by rewrite added_process.
Qed.

(** The [post_submit] of [tasks.py] raises. *)
Lemma hooks_stop_at_the_first_error_witness :
  let o := with_imports
             (example_oracle (fun _ => example_listing "") example_run
                ImportError)
             (fun file =>
                match file with
                | Tasks => Imported (UserModule NotCallable
                                       (Callable (Throws (Foreign "Exit"))))
                | Fabfile => Imported (UserModule NotCallable
                                         (Callable (Gives tt)))
                end) in
  let run := _post_submit_hooks o "wordcount" "prod" ∅ start in
  run.1 = Raised (Foreign "Exit")
  ∧ added start run.2
    = [EvCall (Import Tasks); EvCall (Import Fabfile);
       EvCall (Hook Tasks PostSubmit "wordcount" "prod")].
Proof.
  intros o.
  exact (hooks_stop_at_the_first_error o PostSubmit "wordcount" "prod" ∅
           start _ _ _ _ eq_refl eq_refl eq_refl eq_refl).
Defined.

(** X6: with [force] set and a first listing that shows the topology gone,
    the kill phase returns after that one listing: it prints nothing,
    issues no kill command and polls no further, whatever the fuel. *)
Theorem forced_kill_phase_leaves_an_absent_topology_alone :
  ∀ o fuel topology_name wait host port s,
    reports o (listings (trace s)) topology_name true →
    let run :=
      _kill_existing_topology o fuel topology_name true wait host port s in
    run.1 = Returned tt
    ∧ added s run.2 = [EvCall (ListTopologies host port)]
    ∧ environ run.2 = environ s.
Proof.
  intros o fuel name wait host port s Hgone run. subst run.
  rewrite (kill_phase_absent o name host port wait fuel s Hgone).
  unfold listed. cbn [fst snd]. by rewrite added_process.
Qed.

(** The listing shows another topology only. *)
Lemma forced_kill_phase_leaves_an_absent_topology_alone_witness :
  let o := example_oracle (fun _ => example_listing "other | ACTIVE | 3")
             example_run ImportError in
  let run := _kill_existing_topology o 0 "wordcount" true None None None
               start in
  reports o (listings (trace start)) "wordcount" true
  ∧ run.1 = Returned tt
  ∧ added start run.2 = [EvCall (ListTopologies None None)].
Proof.
  intros o.
  assert (H : reports o (listings (trace start)) "wordcount" true).
  { eexists _, _, _. split; [reflexivity|]. split; reflexivity. }
  split; [exact H|].
  destruct (forced_kill_phase_leaves_an_absent_topology_alone o 0
              "wordcount" None None None start H) as (Hout & Hadded & _).
  by split.
Defined.

(** X7: the poll loop has no timeout.  When the kill command returns and
    every later listing still shows the topology, the kill phase is still
    waiting after any number of rounds: for every bound [fuel] on the
    number of checks it has made [fuel] rounds of listing, message and
    sleep after the kill, and has not ended. *)
Theorem kill_phase_has_no_timeout :
  ∀ o topology_name wait host port s,
    on_kill_topology o topology_name = Gives tt →
    (∀ n, (listings (trace s) ≤ n)%nat → reports o n topology_name false) →
    ∀ fuel,
      let run :=
        _kill_existing_topology o fuel topology_name true wait host port s in
      run.1 = OutOfFuel
      ∧ added s run.2
        = [EvCall (ListTopologies host port); EvPrint (killing topology_name);
           EvCall (KillTopology topology_name wait host port)]
          ++ poll_rounds fuel topology_name host port.
Proof.
  intros o name wait host port s Hkill Hshown fuel run. subst run.
  rewrite (kill_phase_present o name host port wait fuel s);
    [|apply Hshown; lia].
  rewrite Hkill, wait_for_quit_waits.
  - cbn [fst snd recast trace]. by rewrite <- app_assoc, added_process.
  - intros i _. apply Hshown. cbn [trace]. rewrite listings_app. lia.
Qed.

(** Every listing shows [wordcount] ACTIVE: four rounds with fuel 4. *)
Lemma kill_phase_has_no_timeout_witness :
  let o := example_oracle (fun _ => example_listing "wordcount | ACTIVE | 12")
             example_run ImportError in
  let run := _kill_existing_topology o 4 "wordcount" true None None None
               start in
  run.1 = OutOfFuel
  ∧ added start run.2
    = [EvCall (ListTopologies None None); EvPrint (killing "wordcount");
       EvCall (KillTopology "wordcount" None None None)]
      ++ poll_rounds 4 "wordcount" None None.
Proof.
  intros o.
  apply (kill_phase_has_no_timeout o "wordcount" None None None start);
    [reflexivity|].
  intros n _. eexists _, _, _. split; [reflexivity|]. split; reflexivity.
Defined.

(** X8: when the kill command raises, the kill phase ends with its
    exception right after the call: it does not poll and does not print
    that the topology is killed. *)
Theorem failed_kill_ends_the_kill_phase :
  ∀ o fuel topology_name wait host port s e,
    reports o (listings (trace s)) topology_name false →
    on_kill_topology o topology_name = Throws e →
    let run :=
      _kill_existing_topology o fuel topology_name true wait host port s in
    run.1 = Raised e
    ∧ added s run.2
      = [EvCall (ListTopologies host port); EvPrint (killing topology_name);
         EvCall (KillTopology topology_name wait host port)].
Proof.
  intros o fuel name wait host port s e Hshown Hkill run. subst run.
  rewrite (kill_phase_present o name host port wait fuel s Hshown), Hkill.
  cbn [fst snd]. by rewrite added_process.
Qed.

(** The kill command of a topology that is listed ACTIVE raises. *)
Lemma failed_kill_ends_the_kill_phase_witness :
  let o := example_oracle (fun _ => example_listing "wordcount | ACTIVE | 12")
             example_run ImportError in
  let failing :=
    {| on_resolve_ackers_workers := on_resolve_ackers_workers o;
       on_prepare_topology := on_prepare_topology o;
       on_get_config := on_get_config o;
       on_get_topology_definition := on_get_topology_definition o;
       on_get_env_config := on_get_env_config o;
       on_get_nimbus_for_env_config := on_get_nimbus_for_env_config o;
       on_activate_env := on_activate_env o;
       on_import := on_import o;
       on_create_or_update_virtualenvs := on_create_or_update_virtualenvs o;
       on_run := on_run o;
       on_is_ssh_for_nimbus := on_is_ssh_for_nimbus o;
       on_ssh_tunnel_enter := on_ssh_tunnel_enter o;
       on_ssh_tunnel_exit := on_ssh_tunnel_exit o;
       on_list_topologies := on_list_topologies o;
       on_kill_topology := fun _ => Throws (Foreign "UnexpectedExit") |} in
  let run := _kill_existing_topology failing 5 "wordcount" true None None None
               start in
  run.1 = Raised (Foreign "UnexpectedExit")
  ∧ added start run.2
    = [EvCall (ListTopologies None None); EvPrint (killing "wordcount");
       EvCall (KillTopology "wordcount" None None None)].
Proof.
  intros o failing.
  apply (failed_kill_ends_the_kill_phase failing 5 "wordcount" None None None
           start (Foreign "UnexpectedExit")); [|reflexivity].
  eexists _, _, _. split; [reflexivity|]. split; reflexivity.
Defined.

(** X10: the name is compiled as a part of the pattern.  A name in which a
    closing parenthesis follows plain characters is not a pattern: on a
    listing that the list command delivered, the safety check raises
    [re.error] and gives no verdict, whatever the listing holds. *)
Theorem unbalanced_name_makes_the_safety_check_raise :
  ∀ o prefix rest host port s res,
    plain_name prefix →
    on_list_topologies o (listings (trace s)) = Gives res →
    failed res = false →
    (is_safe_to_submit o (prefix +:+ ")" +:+ rest) host port s).1
    = Raised (ReError "unbalanced parenthesis").
Proof.
  intros o prefix rest host port s res Hplain Hlist Hok.
  rewrite is_safe_to_submit_run, Hlist, Hok.
  by rewrite (compile_unbalanced prefix rest Hplain).
Qed.

(** The check of [wc)] on an empty listing. *)
Lemma unbalanced_name_makes_the_safety_check_raise_witness :
  let o := example_oracle (fun _ => example_listing "") example_run
             ImportError in
  plain_name "wc"
  ∧ (is_safe_to_submit o "wc)" None None start).1
    = Raised (ReError "unbalanced parenthesis").
Proof.
  intros o.
  assert (H : plain_name "wc") by reflexivity.
  split; [exact H|].
  exact (unbalanced_name_makes_the_safety_check_raise o "wc" "" None None
           start (Result true "" "") H eq_refl eq_refl).
Defined.

(** X11: the safety check does not anchor the name.  For a name without
    special characters, a listing that shows a topology whose name ends
    with that name, ACTIVE or KILLED, makes the check answer [False]: a
    running [wordcount] makes it unsafe to submit [count]. *)
Theorem safety_check_takes_the_end_of_a_longer_name :
  ∀ o topology_name longer host port s listing err,
    plain_name topology_name →
    on_list_topologies o (listings (trace s))
    = Gives (Result true listing err) →
    listed_as_present (longer +:+ topology_name) listing →
    (is_safe_to_submit o topology_name host port s).1 = Returned false.
Proof.
  intros o name longer host port s listing err Hplain Hlist Hlisted.
  rewrite is_safe_to_submit_run, Hlist, (compile_safety_pattern _ Hplain).
  cbn [failed ok negb stdout fst].
  apply listed_under_a_longer_name in Hlisted.
  apply search_safety_pattern in Hlisted. by rewrite Hlisted.
Qed.

(** [wordcount] is active and [count] is checked. *)
Lemma safety_check_takes_the_end_of_a_longer_name_witness :
  let o := example_oracle (fun _ => example_listing "wordcount | ACTIVE | 12")
             example_run ImportError in
  plain_name "count"
  ∧ listed_as_present ("word" +:+ "count") "wordcount | ACTIVE | 12"
  ∧ (is_safe_to_submit o "count" None None start).1 = Returned false.
Proof.
  intros o.
  assert (Hplain : plain_name "count") by reflexivity.
  assert (Hlisted : listed_as_present ("word" +:+ "count")
                      "wordcount | ACTIVE | 12").
  { exists "", " ", " ", "ACTIVE", " ", " 12".
    split; [reflexivity|]. repeat split; try done. by left. }
  split; [exact Hplain|]. split; [exact Hlisted|].
  exact (safety_check_takes_the_end_of_a_longer_name o "count" "word" None
           None start _ "" Hplain eq_refl Hlisted).
Defined.

(** X12: an option of the user that holds the word [deployment_stage] is
    split at its equals signs and must have exactly one of them.  With one
    it is [key=val] and is passed as [--option 'key="val"']; with none,
    or with two or more, the loop over the options raises [ValueError]. *)
Theorem reserved_option_needs_one_equals_sign :
  ∀ option s,
    Py.contains "deployment_stage" option = true →
    let out := (user_option option s).1 in
    (occurrences "=" option = 1%nat →
     ∃ key val,
       option = key +:+ "=" +:+ val
       ∧ out = Returned ("--option '" +:+ key +:+ "=" +:+ Py.dq +:+ val
                         +:+ Py.dq +:+ "'"))
    ∧ (occurrences "=" option ≠ 1%nat → out = Raised ValueError).
Proof.
  intros option s Hword out. subst out.
  rewrite user_option_run, Hword. cbn [fst].
  pose proof (split_on_length "=" option) as Hlen.
  destruct (Py.split_on "=" option) as [|key [|val [|more rest]]] eqn:Hsplit;
    cbn [length] in Hlen.
  - lia.
  - split; [lia|done].
  - split; [|lia]. intros _.
    apply split_on_two in Hsplit as (Hoption & _ & _).
    exists key, val. by split.
  - split; [lia|done].
Qed.

(** [deployment_stage=a=b] has two equals signs. *)
Lemma reserved_option_needs_one_equals_sign_witness :
  Py.contains "deployment_stage" "deployment_stage=a=b" = true
  ∧ occurrences "=" "deployment_stage=a=b" ≠ 1%nat
  ∧ (user_option "deployment_stage=a=b" start).1 = Raised ValueError.
Proof.
  assert (Hword : Py.contains "deployment_stage" "deployment_stage=a=b" = true)
    by reflexivity.
  assert (Htwo : occurrences "=" "deployment_stage=a=b" ≠ 1%nat)
    by (vm_compute; lia).
  split; [exact Hword|]. split; [exact Htwo|].
  exact (proj2 (reserved_option_needs_one_equals_sign "deployment_stage=a=b"
                  start Hword) Htwo).
Defined.



(** X14: when the [log] settings hold a [level] that is a string, every
    command that is assembled passes it in lower case, between double
    quotes, as the last option before the options of the user. *)
Theorem log_level_is_passed_in_lower_case :
  ∀ topology_name topology_file env_config workers ackers options debug
    host port s cmd s' d level,
    env_config !! "log" = Some (Py.VDict d) →
    d !! "level" = Some (Py.VStr level) →
    _submit_topology_cmd topology_name topology_file env_config workers
      ackers options debug host port s = (Returned cmd, s') →
    ∃ front entries,
      cmd = front
            ++ ["--option 'streamparse.log.level=" +:+ Py.dq
                +:+ Py.lower level +:+ Py.dq +:+ "'"]
            ++ entries
      ∧ Forall2 entry_of (default [] options) entries.
Proof.
  intros name file cfg workers ackers options debug host port s cmd s' d
    level Hlog Hlevel Hrun.
  apply submit_command_parts in Hrun
    as (d' & shown & interpreter & entries & Hd & _ & _ & _ & Hentries & ->).
  unfold Py.get_default in Hd. rewrite Hlog in Hd. injection Hd as <-.
  unfold Py.get. rewrite Hlevel. cbn [default].
  eexists _, entries. split; [|done].
  rewrite !app_assoc. reflexivity.
Qed.

(** The level [DEBUG] and one option of the user. *)
Lemma log_level_is_passed_in_lower_case_witness :
  let config :=
    <["log" := Py.VDict (<["level" := Py.VStr "DEBUG"]> ∅)]> example_config in
  let cmd := ["lein"; submit_main; "topologies/wordcount.clj";
              "--option 'topology.workers=2'";
              "--option 'topology.acker.executors=1'";
              "--option 'streamparse.log.level=" +:+ Py.dq +:+ "debug"
              +:+ Py.dq +:+ "'";
              "--option foo=bar"] in
  _submit_topology_cmd "wordcount" "topologies/wordcount.clj" config 2 1
    (Some ["foo=bar"]) false None None start
  = (Returned cmd, Process [EvPrint "Routing Python logging to None."] ∅)
  ∧ ∃ front entries,
      cmd = front
            ++ ["--option 'streamparse.log.level=" +:+ Py.dq
                +:+ Py.lower "DEBUG" +:+ Py.dq +:+ "'"]
            ++ entries
      ∧ Forall2 entry_of ["foo=bar"] entries.
Proof.
  intros config cmd.
  assert (Hrun : _submit_topology_cmd "wordcount" "topologies/wordcount.clj"
                   config 2 1 (Some ["foo=bar"]) false None None start
                 = (Returned cmd,
                    Process [EvPrint "Routing Python logging to None."] ∅))
    by (vm_compute; reflexivity).
  split; [exact Hrun|].
  exact (log_level_is_passed_in_lower_case "wordcount"
           "topologies/wordcount.clj" config 2 1 (Some ["foo=bar"]) false
           None None start cmd _ (<["level" := Py.VStr "DEBUG"]> ∅) "DEBUG"
           eq_refl eq_refl Hrun).
Defined.

(** X15: the [path] of the [log] settings comes before the older
    [log_path] key.  When it is a string that is not empty, the message
    and the [streamparse.log.path] option of every command that is
    assembled name it, whatever [log_path] holds. *)
Theorem log_path_setting_comes_first :
  ∀ topology_name topology_file env_config workers ackers options debug
    host port s cmd s' d path,
    env_config !! "log" = Some (Py.VDict d) →
    d !! "path" = Some (Py.VStr path) →
    path ≠ "" →
    _submit_topology_cmd topology_name topology_file env_config workers
      ackers options debug host port s = (Returned cmd, s') →
    added s s' = [EvPrint ("Routing Python logging to " +:+ path +:+ ".")]
    ∧ In ("--option 'streamparse.log.path=" +:+ Py.dq +:+ path +:+ Py.dq
          +:+ "'") cmd.
Proof.
  intros name file cfg workers ackers options debug host port s cmd s' d
    path Hlog Hpath Hne Hrun.
  apply submit_command_parts in Hrun
    as (d' & shown & interpreter & entries & Hd & Hshown & -> & _ & _ & ->).
  unfold Py.get_default in Hd. rewrite Hlog in Hd. injection Hd as <-.
  assert (Hchosen : Py.or_ (Py.get d "path") (Py.get cfg "log_path")
                    = Py.VStr path).
  { unfold Py.or_, Py.get at 1 2. rewrite Hpath.
    cbn [default from_option id Py.truthy].
    apply String.eqb_neq in Hne. by rewrite Hne. }
  rewrite Hchosen in *. injection Hshown as <-.
  rewrite added_process. split; [done|].
  cbn [Py.truthy]. apply String.eqb_neq in Hne. rewrite Hne. cbn [negb].
  rewrite !in_app_iff. do 4 right. left. by left.
Qed.

(** Both keys are set. *)
Lemma log_path_setting_comes_first_witness :
  let config :=
    <["log" := Py.VDict (<["path" := Py.VStr "/var/log/sp"]> ∅)]>
      (<["log_path" := Py.VStr "/old"]> example_config) in
  let cmd := ["lein"; submit_main; "topologies/wordcount.clj";
              "--option 'topology.workers=2'";
              "--option 'topology.acker.executors=1'";
              "--option 'streamparse.log.path=" +:+ Py.dq +:+ "/var/log/sp"
              +:+ Py.dq +:+ "'"] in
  let s' := Process [EvPrint "Routing Python logging to /var/log/sp."] ∅ in
  _submit_topology_cmd "wordcount" "topologies/wordcount.clj" config 2 1
    None false None None start = (Returned cmd, s')
  ∧ added start s' = [EvPrint "Routing Python logging to /var/log/sp."]
  ∧ In ("--option 'streamparse.log.path=" +:+ Py.dq +:+ "/var/log/sp"
        +:+ Py.dq +:+ "'") cmd.
Proof.
  intros config cmd s'.
  assert (Hrun : _submit_topology_cmd "wordcount" "topologies/wordcount.clj"
                   config 2 1 None false None None start = (Returned cmd, s'))
    by (vm_compute; reflexivity).
  split; [exact Hrun|].
  apply (log_path_setting_comes_first "wordcount" "topologies/wordcount.clj"
           config 2 1 None false None None start cmd s'
           (<["path" := Py.VStr "/var/log/sp"]> ∅) "/var/log/sp");
    [reflexivity|reflexivity|discriminate|exact Hrun].
Defined.

(** X16: the sizes of the log files are passed only when they are
    integers.  A [max_bytes] or a [backup_count] of another type, a string
    of digits for instance, is left out without a message: the command is
    assembled as if the key were not there. *)
Theorem log_size_that_is_no_integer_is_ignored :
  ∀ key v d topology_name topology_file env_config workers ackers options
    debug host port s,
    key = "max_bytes" ∨ key = "backup_count" →
    Py.is_int v = false →
    _submit_topology_cmd topology_name topology_file
      (<["log" := Py.VDict (<[key := v]> d)]> env_config)
      workers ackers options debug host port s
    = _submit_topology_cmd topology_name topology_file
        (<["log" := Py.VDict (delete key d)]> env_config)
        workers ackers options debug host port s.
Proof.
  intros key v d name file cfg workers ackers options debug host port s
    Hkey Hint.
  unfold _submit_topology_cmd, Py.get_default, Py.get, getitem.
  rewrite !lookup_insert_eq, !(lookup_insert_ne _ "log") by done.
  cbn [default from_option id].
  apply bind_ext. intros cmd s1. rewrite !bind_ret.
  destruct Hkey as [-> | ->];
    rewrite ?lookup_insert_eq, ?lookup_delete_eq;
    rewrite !lookup_insert_ne, ?lookup_delete_ne by done;
    cbn [default from_option id]; rewrite Hint; reflexivity.
Qed.

(** A [max_bytes] written between quotes. *)
Lemma log_size_that_is_no_integer_is_ignored_witness :
  let run log :=
    _submit_topology_cmd "wordcount" "topologies/wordcount.clj"
      (<["log" := Py.VDict log]> example_config) 2 1 None false None None
      start in
  run (<["max_bytes" := Py.VStr "1000000"]> ∅) = run (delete "max_bytes" ∅)
  ∧ run (<["max_bytes" := Py.VStr "1000000"]> ∅)
    = (Returned ["lein"; submit_main; "topologies/wordcount.clj";
                 "--option 'topology.workers=2'";
                 "--option 'topology.acker.executors=1'"],
       Process [EvPrint "Routing Python logging to None."] ∅).
Proof.
  intros run. split; [|by vm_compute].
  apply (log_size_that_is_no_integer_is_ignored "max_bytes"
           (Py.VStr "1000000") ∅ "wordcount" "topologies/wordcount.clj"
           example_config 2 1 None false None None start);
    [by left|reflexivity].
Defined.

(** X17: the post-submit hooks are called only after the submission
    command was launched and [invoke.run] came back from it.  In every run
    of the orchestrator, a call of a post-submit hook stands after the
    launch of the command, and the launch did not raise. *)
Theorem post_submit_hooks_follow_the_submission :
  ∀ o fuel name env_name workers ackers options force debug wait s out s' e,
    submit_topology o fuel name env_name workers ackers options force debug
      wait s = (out, s') →
    In e (added s s') →
    is_post_hook e = true →
    ∃ before cmd res after,
      added s s' = before ++ [EvCall (Run cmd None)] ++ after
      ∧ is_submission (EvCall (Run cmd None)) = true
      ∧ on_run o cmd = Gives res
      ∧ In e after.
Proof.
  intros o fuel name env_name workers ackers options force debug wait s out
    s' e Hrun Hin Hpost.
  apply submit_topology_launches in Hrun
    as [[_ Hnone] | (before & cmd & after & Hadded & Hsub & Hbefore & _ & Hres & _)].
  { rewrite Forall_forall in Hnone. apply list_elem_of_In in Hin.
    destruct (Hnone e Hin) as [_ Hno]. by rewrite Hno in Hpost. }
  rewrite Hadded in Hin. rewrite !in_app_iff in Hin.
  destruct Hin as [Hin | [[<- | []] | Hin]].
  - rewrite Forall_forall in Hbefore. apply list_elem_of_In in Hin.
    destruct (Hbefore e Hin) as [_ Hno]. by rewrite Hno in Hpost.
  - done.
  - destruct (on_run o cmd) as [res|err] eqn:Hgives.
    + exists before, cmd, res, after. by repeat split.
    + destruct Hres as [_ Hno]. rewrite Forall_forall in Hno.
      apply list_elem_of_In in Hin. by rewrite (Hno e Hin) in Hpost.
Qed.

(** [tasks.py] has a [post_submit]; the run is not forced. *)
Lemma post_submit_hooks_follow_the_submission_witness :
  let o := example_oracle (fun _ => example_listing "") example_run
             (Imported (UserModule NotCallable (Callable (Gives tt)))) in
  let run := submit_topology o 0 None None 2 1 None false false None start in
  let e := EvCall (Hook Tasks PostSubmit "wordcount" "prod") in
  In e (added start run.2)
  ∧ ∃ before cmd res after,
      added start run.2 = before ++ [EvCall (Run cmd None)] ++ after
      ∧ is_submission (EvCall (Run cmd None)) = true
      ∧ on_run o cmd = Gives res
      ∧ In e after.
Proof.
  intros o run e.
  assert (Hin : In e (added start run.2)).
  { vm_compute. tauto. }
  split; [exact Hin|].
  apply (post_submit_hooks_follow_the_submission o 0 None None 2 1 None false
           false None start run.1 run.2 e); [apply surjective_pairing|exact Hin|reflexivity].
Defined.

(** X18: in every run of the orchestrator the submission command is
    launched at most once, and in a run that returns it is launched
    exactly once. *)
Theorem submission_is_launched_once :
  ∀ o fuel name env_name workers ackers options force debug wait s,
    let run := submit_topology o fuel name env_name workers ackers options
                 force debug wait s in
    let launches := length (List.filter is_submission (added s run.2)) in
    (launches ≤ 1)%nat ∧ (run.1 = Returned tt → launches = 1%nat).
Proof.
  intros o fuel name env_name workers ackers options force debug wait s run
    launches. subst launches.
  destruct run as [out s'] eqn:Hrun. subst run. cbn [fst snd].
  apply submit_topology_launches in Hrun
    as [[Hout Hnone] | (before & cmd & after & -> & Hsub & Hbefore & Hafter & _ & _)].
  - rewrite filter_none.
    + split; [cbn; lia|]. by intros ->.
    + eapply Forall_impl; [exact Hnone|]. by intros e [? _].
  - rewrite !List.filter_app. cbn [List.filter]. rewrite Hsub.
    rewrite (filter_none _ before), (filter_none _ after); [by cbn|done|].
    eapply Forall_impl; [exact Hbefore|]. by intros e [? _].
Qed.

(** X19: Nimbus is reached through the tunnel or by its host and port,
    never both.  When [is_ssh_for_nimbus] holds for the configuration of
    the environment, the tunnel goes to the host and the port of Nimbus
    from the local port 6627, the list command and the kill command are
    given neither host nor port, and the submission command is [lein],
    the submit entry point and the topology file, then [--debug] when it
    is set, then entries that all start with [--option]: it has no entry
    for a host or a port.  Otherwise no tunnel is opened, the list and
    kill commands are given the host and the port of Nimbus, and the
    submission command has, between the topology file and [--debug], the
    entry [--host] when the host is not empty and the entry [--port] when
    the port is not zero. *)
Theorem nimbus_is_reached_by_the_tunnel_or_by_its_address :
  ∀ o fuel name env_name workers ackers options force debug wait s out s'
    env' env_config host port ssh,
    on_get_env_config o env_name = Gives (env', env_config) →
    on_get_nimbus_for_env_config o env_config = Gives (host, port) →
    on_is_ssh_for_nimbus o env_config = Gives ssh →
    submit_topology o fuel name env_name workers ackers options force debug
      wait s = (out, s') →
    Forall (addressed ssh host port) (added s s')
    ∧ ∀ e,
        In e (added s s') → is_submission e = true →
        ∃ name' file rest,
          on_get_topology_definition o name = Gives (name', file)
          ∧ e = EvCall
                  (Run (Py.join " "
                          (["lein"; submit_main; file]
                           ++ (if ssh then []
                               else (if truthy_host host
                                     then ["--host " +:+ Py.format_opt id host]
                                     else [])
                                    ++ (if truthy_port port
                                        then ["--port "
                                              +:+ Py.format_opt Py.str_of_Z
                                                    port]
                                        else []))
                           ++ (if debug then ["--debug"] else [])
                           ++ rest))
                       None)
          ∧ Forall (fun w => String.prefix "--option " w = true) rest.
Proof.
  intros o fuel name env_name workers ackers options force debug wait s out
    s' env' cfg host port ssh Henv Hnimbus Hssh Hrun.
  assert (Hlaunch :
            ∀ e, In e (added s s') → is_submission e = true →
                 ∃ name' file rest,
          on_get_topology_definition o name = Gives (name', file)
          ∧ e = EvCall
                  (Run (Py.join " "
                          (["lein"; submit_main; file]
                           ++ (if ssh then []
                               else (if truthy_host host
                                     then ["--host " +:+ Py.format_opt id host]
                                     else [])
                                    ++ (if truthy_port port
                                        then ["--port "
                                              +:+ Py.format_opt Py.str_of_Z
                                                    port]
                                        else []))
                           ++ (if debug then ["--debug"] else [])
                           ++ rest))
                       None)
          ∧ Forall (fun w => String.prefix "--option " w = true) rest).
  { intros e He Hsub.
    assert (Hno : ∀ l, Forall (fun x => is_submission x = false) l →
                       In e l → False).
    { intros l Hl Hin. rewrite Forall_forall in Hl.
      apply list_elem_of_In in Hin. by rewrite (Hl e Hin) in Hsub. }
    apply submit_topology_launches in Hrun
      as [[_ Hnone]
         | (before & cmd & after & Hadded & _ & Hbefore & Hafter & _ & name'
            & file & env'' & cfg' & host' & port' & ssh' & words & s0 & s1
            & Hdef & Henv' & Hnimbus' & Hssh' & -> & Hcmd)].
    { exfalso. apply (Hno (added s s')); [|done].
      eapply Forall_impl; [exact Hnone|]. by intros x [? _]. }
    rewrite Henv in Henv'. injection Henv' as <- <-.
    rewrite Hnimbus in Hnimbus'. injection Hnimbus' as <- <-.
    rewrite Hssh in Hssh'. injection Hssh' as <-.
    rewrite Hadded in He. apply in_app_or in He as [He|He].
    { exfalso. apply (Hno before); [|done].
      eapply Forall_impl; [exact Hbefore|]. by intros x [? _]. }
    apply in_app_or in He as [[<-|[]]|He]; [|exfalso; by apply (Hno after)].
    apply submit_command_options in Hcmd as (rest & -> & Hrest).
    exists name', file, rest. split; [done|]. split; [|done].
    unfold command_flags. destruct ssh; [reflexivity|].
    by rewrite <- !app_assoc. }
  split; [|exact Hlaunch]. clear Hlaunch.
  apply submit_topology_deploys in Hrun as (before & Hbefore & Hrun).
  assert (Hprepared : ∀ prep, Forall prepare_event prep →
                        Forall (addressed ssh host port) prep).
  { intros prep Hprep. eapply Forall_impl; [exact Hprep|].
    by intros [|[]| |]. }
  destruct Hrun as [(-> & _ & Hstopped)
                   | (name' & file & env'' & cfg' & host' & port' & jar & ssh'
                      & out1 & s1 & _ & Henv' & Hnimbus' & Hssh' & Hdeploy
                      & prep & opened & -> & Hprep & Hend)].
  - rewrite added_process.
    destruct Hstopped as [Hquiet
                         | (e & name' & env'' & cfg' & host' & port' & user
                            & prep & _ & Henv' & Hnimbus' & Hssh' & Hprep
                            & ->)].
    + apply Forall_forall. intros e He.
      rewrite Forall_forall in Hbefore, Hquiet.
      destruct (Hbefore e He) as [Hopening [(Hl & Hk & _) _]].
      pose proof (Hquiet e He) as Hq.
      destruct e as [|[]| |]; try done.
      by destruct Hopening as [?|[?|?]].
    + rewrite Henv in Henv'. injection Henv' as <- <-.
      rewrite Hnimbus in Hnimbus'. injection Hnimbus' as <- <-.
      rewrite Hssh in Hssh'. injection Hssh' as ->.
      apply Forall_app. split; [by apply Hprepared|].
      by repeat constructor.
  - rewrite Henv in Henv'. injection Henv' as <- <-.
    rewrite Hnimbus in Hnimbus'. injection Hnimbus' as <- <-.
    rewrite Hssh in Hssh'. injection Hssh' as <-.
    set (h := if ssh then None else host) in *.
    set (p := if ssh then None else port) in *.
    assert (Hclosing : ∃ closing,
               s' = Process (trace s1 ++ closing) (environ s1)
               ∧ (closing = [] ∨ ssh = true ∧ closing = [EvCall SshTunnelExit])).
    { destruct ssh.
      - destruct Hend as [_ Hend].
        destruct out1 as [[]|e| |]; destruct Hend as [-> _].
        + exists [EvCall SshTunnelExit]. split; [done|]. by right.
        + exists [EvCall SshTunnelExit]. split; [done|]. by right.
        + exists []. rewrite app_nil_r. split; [by destruct s1|]. by left.
        + exists []. rewrite app_nil_r. split; [by destruct s1|]. by left.
      - destruct Hend as (_ & -> & _). exists []. rewrite app_nil_r.
        split; [by destruct s1|]. by left. }
    destruct Hclosing as (closing & -> & Hclosing).
    assert (Hopened : Forall (addressed ssh host port) opened).
    { destruct ssh.
      - destruct Hend as [(user & _ & ->) _]. by repeat constructor.
      - by destruct Hend as (-> & _). }
    assert (Hclosed : Forall (addressed ssh host port) closing).
    { destruct Hclosing as [-> | [-> ->]]; by repeat constructor. }
    assert (Hdeployed : ∀ ev, Forall (deploy_event h p) ev →
                          Forall (addressed ssh host port) ev).
    { intros ev Hev. eapply Forall_impl; [exact Hev|].
      by intros [|[]| |]. }
    pose proof (emits_deploy o fuel force debug wait name' file env' jar cfg
                  workers ackers options h p _ _ _ Hdeploy)
      as (ev & Hs1 & Hev).
    rewrite Hs1. cbn [trace environ]. rewrite <- !app_assoc, added_process.
    repeat (apply Forall_app; split); try done.
    + by apply Hprepared.
    + by repeat constructor.
    + by apply Hdeployed.
Qed.

(** Nimbus behind a tunnel: the listings of a forced run name no host. *)
Lemma nimbus_is_reached_by_the_tunnel_or_by_its_address_witness :
  let o := example_oracle (fun _ => example_listing "") example_run
             ImportError in
  let tunnelled :=
    {| on_resolve_ackers_workers := on_resolve_ackers_workers o;
       on_prepare_topology := on_prepare_topology o;
       on_get_config := on_get_config o;
       on_get_topology_definition := on_get_topology_definition o;
       on_get_env_config :=
         fun _ => Gives ("prod", <["user" := Py.VStr "storm"]> example_config);
       on_get_nimbus_for_env_config := on_get_nimbus_for_env_config o;
       on_activate_env := on_activate_env o;
       on_import := on_import o;
       on_create_or_update_virtualenvs := on_create_or_update_virtualenvs o;
       on_run := on_run o;
       on_is_ssh_for_nimbus := fun _ => Gives true;
       on_ssh_tunnel_enter := on_ssh_tunnel_enter o;
       on_ssh_tunnel_exit := on_ssh_tunnel_exit o;
       on_list_topologies := on_list_topologies o;
       on_kill_topology := on_kill_topology o |} in
  let run :=
    submit_topology tunnelled 1 None None 2 1 None true false None start in
  run.1 = Returned tt
  ∧ In (EvCall (SshTunnelEnter (Py.VStr "storm") (Some "nimbus.example.com")
                  6627 (Some 6627)))
       (added start run.2)
  ∧ In (EvCall (ListTopologies None None)) (added start run.2)
  ∧ Forall (addressed true (Some "nimbus.example.com") (Some 6627))
      (added start run.2).
Proof.
  intros o tunnelled run.
  split; [by vm_compute|]. split; [vm_compute; tauto|].
  split; [vm_compute; tauto|].
  apply (nimbus_is_reached_by_the_tunnel_or_by_its_address tunnelled 1 None
           None 2 1 None true false None start run.1 run.2 "prod"
           (<["user" := Py.VStr "storm"]> example_config)
           (Some "nimbus.example.com") (Some 6627) true);
    [reflexivity|reflexivity|reflexivity|apply surjective_pairing].
Defined.

(** X20: the tunnel is closed on every way out.  When the tunnel to
    Nimbus was opened, every run of the orchestrator that ends the Python
    way, by a return or by an exception of the kill phase, of the
    submitter or of a post-submit hook, ends with the exit of the tunnel,
    and the tunnel is entered and left once. *)
Theorem tunnel_is_closed_on_every_way_out :
  ∀ o fuel name env_name workers ackers options force debug wait s out s'
    user host local_port port,
    on_ssh_tunnel_enter o = Gives tt →
    submit_topology o fuel name env_name workers ackers options force debug
      wait s = (out, s') →
    pythonic out →
    In (EvCall (SshTunnelEnter user host local_port port)) (added s s') →
    last (added s s') = Some (EvCall SshTunnelExit)
    ∧ length (List.filter is_tunnel_enter (added s s')) = 1%nat
    ∧ length (List.filter is_tunnel_exit (added s s')) = 1%nat.
Proof.
  intros o fuel name env_name workers ackers options force debug wait s out
    s' user host local_port port Henter Hrun Hpy Hin.
  assert (Hno : ∀ l, Forall (fun e => is_tunnel_enter e = false) l →
                     In (EvCall (SshTunnelEnter user host local_port port)) l →
                     False).
  { intros l Hl Hl'. rewrite Forall_forall in Hl.
    apply list_elem_of_In in Hl'. by apply Hl in Hl'. }
  apply submit_topology_deploys in Hrun as (before & Hbefore & Hrun).
  destruct Hrun as [(-> & _ & Hstopped)
                   | (name' & file & env' & cfg & host' & port' & jar & ssh
                      & out1 & s1 & _ & _ & _ & _ & Hdeploy & prep & opened
                      & -> & Hprep & Hend)].
  { rewrite added_process in Hin.
    destruct Hstopped as [Hquiet | (e & ? & ? & ? & ? & ? & ? & ? & Hthrows & _)].
    - by destruct (Hno before).
    - by rewrite Henter in Hthrows. }
  pose proof (emits_deploy o fuel force debug wait name' file env' jar cfg
                workers ackers options _ _ _ _ _ Hdeploy) as (ev & -> & Hev).
  cbn [trace environ] in *.
  assert (Hev1 : Forall (fun e => is_tunnel_enter e = false) ev)
    by (eapply Forall_impl; [exact Hev|]; by intros [|[]| |]).
  assert (Hev2 : Forall (fun e => is_tunnel_exit e = false) ev)
    by (eapply Forall_impl; [exact Hev|]; by intros [|[]| |]).
  assert (Hprep1 : Forall (fun e => is_tunnel_enter e = false) prep)
    by (eapply Forall_impl; [exact Hprep|]; by intros [|[]| |]).
  assert (Hprep2 : Forall (fun e => is_tunnel_exit e = false) prep)
    by (eapply Forall_impl; [exact Hprep|]; by intros [|[]| |]).
  destruct ssh.
  - destruct Hend as [(user' & _ & ->) Hend].
    destruct out1 as [[]|e| |]; destruct Hend as [-> ->]; try done;
      cbn [trace environ]; rewrite <- !app_assoc, added_process;
      (split; [by rewrite !app_assoc, last_snoc|]);
      rewrite !List.filter_app, !length_app,
        (filter_none is_tunnel_enter prep), (filter_none is_tunnel_exit prep),
        (filter_none is_tunnel_enter ev), (filter_none is_tunnel_exit ev)
        by done; done.
  - destruct Hend as (-> & -> & ->). exfalso.
    rewrite <- !app_assoc, added_process in Hin.
    apply (Hno (prep ++ [EvPrint ("Deploying " +:+ Py.dq +:+ name' +:+ Py.dq
                                  +:+ " topology...");
                         EvCall IsSshForNimbus] ++ [] ++ ev)); [|done].
    repeat (apply Forall_app; split); try done. by repeat constructor.
Qed.

(** Under the tunnel the kill command raises: the tunnel is closed. *)
Lemma tunnel_is_closed_on_every_way_out_witness :
  let o := example_oracle (fun _ => example_listing "wordcount | ACTIVE | 12")
             example_run ImportError in
  let tunnelled :=
    {| on_resolve_ackers_workers := on_resolve_ackers_workers o;
       on_prepare_topology := on_prepare_topology o;
       on_get_config := on_get_config o;
       on_get_topology_definition := on_get_topology_definition o;
       on_get_env_config :=
         fun _ => Gives ("prod", <["user" := Py.VStr "storm"]> example_config);
       on_get_nimbus_for_env_config := on_get_nimbus_for_env_config o;
       on_activate_env := on_activate_env o;
       on_import := on_import o;
       on_create_or_update_virtualenvs := on_create_or_update_virtualenvs o;
       on_run := on_run o;
       on_is_ssh_for_nimbus := fun _ => Gives true;
       on_ssh_tunnel_enter := on_ssh_tunnel_enter o;
       on_ssh_tunnel_exit := on_ssh_tunnel_exit o;
       on_list_topologies := on_list_topologies o;
       on_kill_topology := fun _ => Throws (Foreign "UnexpectedExit") |} in
  let run :=
    submit_topology tunnelled 1 None None 2 1 None true false None start in
  run.1 = Raised (Foreign "UnexpectedExit")
  ∧ last (added start run.2) = Some (EvCall SshTunnelExit).
Proof.
  intros o tunnelled run.
  assert (Hout : run.1 = Raised (Foreign "UnexpectedExit")) by by vm_compute.
  split; [exact Hout|].
  apply (tunnel_is_closed_on_every_way_out tunnelled 1 None None 2 1 None
           true false None start run.1 run.2 (Py.VStr "storm")
           (Some "nimbus.example.com") 6627 (Some 6627));
    [reflexivity|apply surjective_pairing|by rewrite Hout|vm_compute; tauto].
Defined.

(** X21: an exception of a pre-submit hook stops the run before anything
    is built.  When [tasks.py] and [fabfile.py] are imported and the
    [pre_submit] of [tasks.py] raises, every run of the orchestrator ends
    with an exception and has only prepared the topology, read the
    configurations, activated the virtualenv, imported the two modules and
    called hooks: it has printed nothing, updated no virtualenv and run
    no command. *)
Theorem raising_pre_submit_hook_stops_the_run :
  ∀ o fuel name env_name workers ackers options force debug wait s
    user_invoke user_fabric e,
    on_import o Tasks = Imported user_invoke →
    on_import o Fabfile = Imported user_fabric →
    pre_submit user_invoke = Callable (Throws e) →
    let run := submit_topology o fuel name env_name workers ackers options
                 force debug wait s in
    (∃ e', run.1 = Raised e')
    ∧ Forall before_build (added s run.2)
    ∧ Forall (fun x => is_run x = false) (added s run.2).
Proof.
  intros o fuel name env_name workers ackers options force debug wait s
    user_invoke user_fabric e Htasks Hfabfile Hraises run. subst run.
  destruct (prepare_and_build o name env_name s) as [out0 s0] eqn:Hprep.
  pose proof (python_only_prepare_and_build o name env_name s) as Hpy.
  rewrite Hprep in Hpy. cbn [fst] in Hpy.
  pose proof (stops_prepare_and_build o user_invoke user_fabric e Htasks
                Hfabfile Hraises name env_name s out0 s0 Hprep)
    as (Hout & ev & -> & Hev).
  destruct out0 as [r|e'| |]; try done.
  assert (Hrun : submit_topology o fuel name env_name workers ackers options
                   force debug wait s
                 = (Raised e',
                    Process (trace s ++ ev) (replay ev (environ s)))).
  { unfold submit_topology, bind at 1. by rewrite Hprep. }
  rewrite Hrun. cbn [fst snd]. rewrite added_process.
  split; [by exists e'|]. split; [done|].
  eapply Forall_impl; [exact Hev|]. by intros [|[]| |].
Qed.

(** The [pre_submit] of [tasks.py] raises. *)
Lemma raising_pre_submit_hook_stops_the_run_witness :
  let o := example_oracle (fun _ => example_listing "") example_run
             (Imported (UserModule (Callable (Throws (Foreign "Exit")))
                          NotCallable)) in
  let run := submit_topology o 0 None None 2 1 None false false None start in
  run.1 = Raised (Foreign "Exit")
  ∧ (∃ e', run.1 = Raised e')
  ∧ Forall before_build (added start run.2)
  ∧ Forall (fun x => is_run x = false) (added start run.2).
Proof.
  intros o run. split; [by vm_compute|].
  exact (raising_pre_submit_hook_stops_the_run o 0 None None 2 1 None false
           false None start _ _ (Foreign "Exit") eq_refl eq_refl eq_refl).
Defined.

(** X22: with [use_virtualenv] set to a false value in the configuration
    of the environment, no run of the orchestrator touches the
    virtualenvs: it calls neither [activate_env] nor
    [create_or_update_virtualenvs]. *)
Theorem no_virtualenv_call_when_virtualenvs_are_off :
  ∀ o fuel name env_name workers ackers options force debug wait s env'
    env_config,
    on_get_env_config o env_name = Gives (env', env_config) →
    Py.truthy (Py.get_default env_config "use_virtualenv" (Py.VBool true))
    = false →
    let run := submit_topology o fuel name env_name workers ackers options
                 force debug wait s in
    Forall (fun e => is_venv_call e = false) (added s run.2).
Proof.
  intros o fuel name env_name workers ackers options force debug wait s env'
    cfg Henv Hoff run. subst run.
  destruct (submit_topology _ _ _ _ _ _ _ _ _ _ s) as [out s'] eqn:Hrun.
  apply (emits_submit_topology_without_virtualenv o env_name env' cfg Henv
           Hoff) in Hrun as (ev & -> & Hev).
  cbn [snd]. by rewrite added_process.
Qed.

(** The configuration of the examples has [use_virtualenv] false. *)
Lemma no_virtualenv_call_when_virtualenvs_are_off_witness :
  let o := example_oracle (fun _ => example_listing "") example_run
             ImportError in
  let run := submit_topology o 0 None None 2 1 None false false None start in
  run.1 = Returned tt
  ∧ Forall (fun e => is_venv_call e = false) (added start run.2).
Proof.
  intros o run. split; [by vm_compute|].
  exact (no_virtualenv_call_when_virtualenvs_are_off o 0 None None 2 1 None
           false false None start "prod" example_config eq_refl eq_refl).
Defined.

(** X23: slashes at the end of [virtualenv_specs] do not count.  The
    requirements file given to [create_or_update_virtualenvs] is
    [base/name.txt], where [name] is the name of the topology and [base]
    is [virtualenv_specs] without all the slashes it ends with. *)
Theorem requirements_file_ignores_trailing_slashes :
  ∀ o fuel name env_name workers ackers options force debug wait s config
    specs,
    on_get_config o = Gives config →
    config !! "virtualenv_specs" = Some (Py.VStr specs) →
    let run := submit_topology o fuel name env_name workers ackers options
                 force debug wait s in
    ∃ base slashes,
      specs = base +:+ slashes
      ∧ made_of "/" slashes
      ∧ (∀ init, base ≠ init +:+ "/")
      ∧ Forall (requirements_are
                  (fun topology_name =>
                     base +:+ "/" +:+ topology_name +:+ ".txt"))
          (added s run.2).
Proof.
  intros o fuel name env_name workers ackers options force debug wait s
    config specs Hconfig Hspecs run. subst run.
  destruct (rstrip_by_spec (fun c => Py.mem_char c "/") specs)
    as (slashes & Heq & Hslashes & Hlast).
  exists (Py.rstrip "/" specs), slashes.
  split; [exact Heq|]. split; [exact Hslashes|]. split.
  { intros init Hinit. by apply Hlast in Hinit. }
  destruct (submit_topology _ _ _ _ _ _ _ _ _ _ s) as [out s'] eqn:Hrun.
  assert (Hemits :
            emits (requirements_are
                     (fun topology_name =>
                        Py.rstrip "/" specs +:+ "/" +:+ topology_name
                        +:+ ".txt"))
              (submit_topology o fuel name env_name workers ackers options
                 force debug wait)).
  { unfold submit_topology.
    apply emits_bind;
      [by apply (emits_prepare_requirements o config specs)|].
    intros r. apply (emits_deployment o); try done.
    by intros host port [|[]| |]. }
  apply Hemits in Hrun as (ev & -> & Hev).
  cbn [snd]. by rewrite added_process.
Qed.

(** The requirements of [wordcount] under [virtualenvs//]. *)
Lemma requirements_file_ignores_trailing_slashes_witness :
  let o := example_oracle (fun _ => example_listing "") example_run
             ImportError in
  let configured :=
    {| on_resolve_ackers_workers := on_resolve_ackers_workers o;
       on_prepare_topology := on_prepare_topology o;
       on_get_config :=
         Gives (<["virtualenv_specs" := Py.VStr "virtualenvs//"]> ∅);
       on_get_topology_definition := on_get_topology_definition o;
       on_get_env_config :=
         fun _ => Gives ("prod", <["virtualenv_root" := Py.VStr "/data"]> ∅);
       on_get_nimbus_for_env_config := on_get_nimbus_for_env_config o;
       on_activate_env := on_activate_env o;
       on_import := on_import o;
       on_create_or_update_virtualenvs := on_create_or_update_virtualenvs o;
       on_run := on_run o;
       on_is_ssh_for_nimbus := on_is_ssh_for_nimbus o;
       on_ssh_tunnel_enter := on_ssh_tunnel_enter o;
       on_ssh_tunnel_exit := on_ssh_tunnel_exit o;
       on_list_topologies := on_list_topologies o;
       on_kill_topology := on_kill_topology o |} in
  let run :=
    submit_topology configured 0 None None 2 1 None false false None start in
  In (EvCall (CreateOrUpdateVirtualenvs "prod" "wordcount"
                "virtualenvs/wordcount.txt"))
     (added start run.2)
  ∧ ∃ base slashes,
      "virtualenvs//" = base +:+ slashes
      ∧ made_of "/" slashes
      ∧ (∀ init, base ≠ init +:+ "/")
      ∧ Forall (requirements_are
                  (fun topology_name =>
                     base +:+ "/" +:+ topology_name +:+ ".txt"))
          (added start run.2).
Proof.
  intros o configured run. split; [vm_compute; tauto|].
  exact (requirements_file_ignores_trailing_slashes configured 0 None None 2
           1 None false false None start
           (<["virtualenv_specs" := Py.VStr "virtualenvs//"]> ∅)
           "virtualenvs//" eq_refl eq_refl).
Defined.

(** X24: the submitter does not look at the result of the submission
    command.  When [invoke.run] hands back a result for every command,
    be it with [ok] false, the submitter returns as soon as the command
    could be assembled, the launch being the last thing it did; it ends
    otherwise because [JVM_OPTS] could not be written or the command
    could not be assembled, and has then launched nothing. *)
Theorem submitter_ignores_the_result_of_the_command :
  ∀ o topology_name topology_file topology_jar env_config workers ackers
    options debug host port s,
    (∀ command, ∃ res, on_run o command = Gives res) →
    let run := _submit_topology o topology_name topology_file topology_jar
                 env_config workers ackers options debug host port s in
    (run.1 = Returned tt
     ∧ ∃ command,
         last (added s run.2) = Some (EvCall (Run command None))
         ∧ is_submission (EvCall (Run command None)) = true)
    ∨ (returned run.1 = false
       ∧ Forall (fun e => is_run e = false) (added s run.2)).
Proof.
  intros o name file jar cfg workers ackers options debug host port s Hgives
    run. subst run.
  rewrite submitter_steps.
  destruct (settable "JVM_OPTS" (jvm_opts jar)).
  2:{ right. cbn [fst snd]. split; [done|]. unfold added.
      by rewrite drop_all. }
  destruct (_submit_topology_cmd _ _ _ _ _ _ _ _ _ _) as [out s1] eqn:Hcmd.
  pose proof (emits_submit_topology_cmd _ _ _ _ _ _ _ _ _ _ _ _ Hcmd)
    as (prints & -> & Hprints).
  cbn [trace environ].
  destruct out as [cmd|err| |].
  - left. destruct (Hgives (Py.join " " cmd)) as [res ->]. cbn [fst snd].
    split; [done|]. exists (Py.join " " cmd).
    rewrite <- !app_assoc, added_process.
    split; [by rewrite !last_app|].
    apply submit_command_returned in Hcmd as (more & entries & -> & _).
    rewrite <- !app_assoc. apply submission_launch.
  - right. cbn [fst snd recast]. split; [done|].
    rewrite <- !app_assoc, added_process. constructor; [done|].
    eapply Forall_impl; [exact Hprints|]. by intros x [text ->].
  - right. cbn [fst snd recast]. split; [done|].
    rewrite <- !app_assoc, added_process. constructor; [done|].
    eapply Forall_impl; [exact Hprints|]. by intros x [text ->].
  - right. cbn [fst snd recast]. split; [done|].
    rewrite <- !app_assoc, added_process. constructor; [done|].
    eapply Forall_impl; [exact Hprints|]. by intros x [text ->].
Qed.

(** Every command exits with an error and [invoke.run] does not raise. *)
Lemma submitter_ignores_the_result_of_the_command_witness :
  let o := example_oracle (fun _ => example_listing "")
             (fun _ => Gives (Result false "" "no nimbus")) ImportError in
  let run := _submit_topology o "wordcount" "topologies/wordcount.clj"
               "/t/wc-standalone.jar" example_config 2 1 None false None None
               start in
  run.1 = Returned tt
  ∧ ((run.1 = Returned tt
      ∧ ∃ command,
          last (added start run.2) = Some (EvCall (Run command None))
          ∧ is_submission (EvCall (Run command None)) = true)
     ∨ (returned run.1 = false
        ∧ Forall (fun e => is_run e = false) (added start run.2))).
Proof.
  intros o run. split; [by vm_compute|].
  apply (submitter_ignores_the_result_of_the_command o "wordcount"
           "topologies/wordcount.clj" "/t/wc-standalone.jar" example_config
           2 1 None false None None start).
  intros command. by eexists.
Defined.
